(** * Recommendation engine of the FocusFlow back end

    A shallow embedding of the two services that make up the
    recommendation engine,

    - [backend/app/services/auto_scheduling_service.py]
      (class [AutoSchedulingService]) and
    - [backend/app/services/predictive_tasks_service.py]
      (class [PredictiveTaskService]),

    followed by the properties established about them.

    Modelling conventions.

    - Python [float]s are modelled by exact rationals ([Q]); equalities on
      scores are stated with [==] ([Qeq]).  Rounding of binary floating
      point is therefore not part of the model.
    - A naive [datetime] is a number of microseconds since
      0001-01-01T00:00:00 (a [Z]); a [timedelta] is a difference of two such
      numbers.
    - An exception is represented by its message ([str(e)]); every handler in
      the two services is [except Exception], so the exception class is never
      inspected.
    - The relational store, the clock and the key-value cache are external:
      the [World] record carries what they answer and what was written to
      them.  Calls to [logger] have no effect on any value and are left out.
    - [async]/[await] is sequential here: no coroutine of these services
      yields to another one between its first and last statement, and
      [asyncio.gather] returns its results in argument order. *)

From Stdlib Require Import ZArith QArith Qabs Qround Qminmax List Lia Lqa Permutation Sorted Bool
  Ascii String.
From stdpp Require Import gmap strings pretty.
Import ListNotations.

Close Scope Q_scope.
Local Open Scope string_scope.
Local Open Scope list_scope.

(** ** Python values and built-ins used by the services *)

Module Py.

(** Result of running a piece of code that may raise. *)
Inductive Outcome (A : Type) : Type :=
| Ok (a : A)
| Raised (e : string).
Arguments Ok {A} a.
Arguments Raised {A} e.

Definition is_ok {A} (o : Outcome A) : bool :=
  match o with Ok _ => true | Raised _ => false end.

Definition obind {A B} (o : Outcome A) (k : A -> Outcome B) : Outcome B :=
  match o with Ok a => k a | Raised e => Raised e end.

(** [try: body  except Exception as e: handler(e)] for pure code. *)
Definition otry {A} (body : Outcome A) (handler : string -> Outcome A) : Outcome A :=
  match body with Ok a => Ok a | Raised e => handler e end.

Fixpoint omap {A B} (f : A -> Outcome B) (l : list A) : Outcome (list B) :=
  match l with
  | [] => Ok []
  | x :: r => obind (f x) (fun y => obind (omap f r) (fun ys => Ok (y :: ys)))
  end.

(** *** datetime *)

Definition datetime := Z.

Definition us_per_hour : Z := 3600000000.
Definition us_per_day : Z := 86400000000.

Definition timedelta (days hours minutes : Z) : Z :=
  (days * us_per_day + hours * us_per_hour + minutes * 60000000)%Z.

(** [t.hour] *)
Definition hour_of (t : datetime) : nat := Z.to_nat ((t / us_per_hour) mod 24).

(** [t.date()], as the number of days since 0001-01-01. *)
Definition date_of (t : datetime) : Z := (t / us_per_day)%Z.

(** [d.weekday()]: Monday is 0; 0001-01-01 is a Monday. *)
Definition weekday (d : Z) : Z := (d mod 7)%Z.

(** [strftime('%A')] *)
Definition day_name (d : Z) : string :=
  match weekday d with
  | 0 => "Monday" | 1 => "Tuesday" | 2 => "Wednesday" | 3 => "Thursday"
  | 4 => "Friday" | 5 => "Saturday" | _ => "Sunday"
  end%Z.

(** [datetime.combine(d, datetime.min.time().replace(hour=h))] *)
Definition combine (d : Z) (h : nat) : datetime :=
  (d * us_per_day + Z.of_nat h * us_per_hour)%Z.

(** [t.replace(hour=h)]; raises [ValueError] outside 0..23. *)
Definition replace_hour (t : datetime) (h : nat) : Outcome datetime :=
  if (h <? 24)%nat
  then Ok (t - Z.of_nat (hour_of t) * us_per_hour + Z.of_nat h * us_per_hour)%Z
  else Raised "hour must be in 0..23".

(** [t.replace(hour=h, minute=0, second=0, microsecond=0)] *)
Definition replace_hour_on_the_hour (t : datetime) (h : nat) : Outcome datetime :=
  if (h <? 24)%nat then Ok (combine (date_of t) h)
  else Raised "hour must be in 0..23".

(** [(a - b).days]: timedeltas are normalised with a floored day count. *)
Definition days_between (a b : datetime) : Z := ((a - b) / us_per_day)%Z.

(** The last day a [date] can hold (9999-12-31); adding a day to it raises. *)
Definition max_day : Z := 3652058.

(** *** numbers *)

Definition qsum (l : list Q) : Q := fold_right Qplus 0%Q l.

(** [np.mean(l)] on a non-empty list. *)
Definition mean (l : list Q) : Q := (qsum l / inject_Z (Z.of_nat (length l)))%Q.

Definition Qlt_bool (x y : Q) : bool := negb (Qle_bool y x).

(** [x or d] on an optional float: [None] and [0.0] are falsy. *)
Definition float_or (x : option Q) (d : Q) : Q :=
  match x with
  | Some q => if Qeq_bool q 0 then d else q
  | None => d
  end.

(** Truth value of a nullable Boolean column. *)
Definition truthy (b : option bool) : bool :=
  match b with Some true => true | _ => false end.

(** *** sorting and selection *)

(** [l.sort(key=key, reverse=True)] and [sorted(l, key=key, reverse=True)]:
    a stable sort into descending key order, elements with equal keys
    keeping their original relative order. *)
Fixpoint insert_desc {A} (key : A -> Q) (x : A) (l : list A) : list A :=
  match l with
  | [] => [x]
  | y :: r => if Qle_bool (key y) (key x) then x :: y :: r
              else y :: insert_desc key x r
  end.

Definition sort_desc {A} (key : A -> Q) (l : list A) : list A :=
  fold_right (insert_desc key) [] l.

(** [max(l, key=...)] over elements paired with their keys: the first
    element whose key is maximal; [ValueError] on an empty sequence. *)
Fixpoint max_from {A} (best : A * Q) (l : list (A * Q)) : A :=
  match l with
  | [] => fst best
  | x :: r => max_from (if Qlt_bool (snd best) (snd x) then x else best) r
  end.

Definition max_by {A} (l : list (A * Q)) : Outcome A :=
  match l with
  | [] => Raised "max() arg is an empty sequence"
  | x :: r => Ok (max_from x r)
  end.

Fixpoint min_from {A} (best : A * Q) (l : list (A * Q)) : A :=
  match l with
  | [] => fst best
  | x :: r => min_from (if Qlt_bool (snd x) (snd best) then x else best) r
  end.

Definition min_by {A} (l : list (A * Q)) : Outcome A :=
  match l with
  | [] => Raised "min() arg is an empty sequence"
  | x :: r => Ok (min_from x r)
  end.

(** [h in l] on a list of ints. *)
Definition mem_nat (h : nat) (l : list nat) : bool := existsb (Nat.eqb h) l.

(** [d[k]] on a dict kept in insertion order; [KeyError] when absent. *)
Fixpoint getitem {V} (d : list (nat * V)) (k : nat) : Outcome V :=
  match d with
  | [] => Raised ("KeyError: " ++ pretty k)
  | (k', v) :: r => if (k' =? k)%nat then Ok v else getitem r k
  end.

(** *** strings (ASCII) *)

Definition is_space (c : ascii) : bool :=
  let n := nat_of_ascii c in
  ((9 <=? n) && (n <=? 13) || (28 <=? n) && (n <=? 32))%nat.

Definition lower_char (c : ascii) : ascii :=
  let n := nat_of_ascii c in
  if ((65 <=? n) && (n <=? 90))%nat then ascii_of_nat (n + 32) else c.

(** [s.lower()] *)
Fixpoint lower (s : string) : string :=
  match s with
  | EmptyString => EmptyString
  | String c r => String (lower_char c) (lower r)
  end.

Fixpoint lstrip (s : string) : string :=
  match s with
  | EmptyString => EmptyString
  | String c r => if is_space c then lstrip r else s
  end.

(** Removes trailing white space. *)
Fixpoint rstrip (s : string) : string :=
  match s with
  | EmptyString => EmptyString
  | String c r =>
      match rstrip r with
      | EmptyString => if is_space c then EmptyString else String c EmptyString
      | r' => String c r'
      end
  end.

(** [s.strip()] *)
Definition strip (s : string) : string := rstrip (lstrip s).

Definition is_digit (c : ascii) : bool :=
  let n := nat_of_ascii c in ((48 <=? n) && (n <=? 57))%nat.

Definition digit_val (c : ascii) : Z := (Z.of_nat (nat_of_ascii c) - 48)%Z.

(** Digits of an integer literal, single underscores allowed between
    digits; [after_digit] tells whether the previous character was a
    digit. *)
Fixpoint digits (acc : Z) (after_digit : bool) (s : string) : option Z :=
  match s with
  | EmptyString => if after_digit then Some acc else None
  | String c r =>
      if is_digit c then digits (acc * 10 + digit_val c)%Z true r
      else if (Ascii.eqb c "_"%char && after_digit)%bool then
        match r with
        | String c' _ => if is_digit c' then digits acc false r else None
        | EmptyString => None
        end
      else None
  end.

(** [int(s)] on a string; [ValueError] when [s] is not an integer
    literal. *)
Definition int_of_str (s : string) : Outcome Z :=
  let bad := Raised ("invalid literal for int() with base 10: '" ++ s ++ "'") in
  match strip s with
  | String "-"%char r => match digits 0 false r with Some n => Ok (- n)%Z | None => bad end
  | String "+"%char r => match digits 0 false r with Some n => Ok n | None => bad end
  | r => match digits 0 false r with Some n => Ok n | None => bad end
  end.

End Py.

(** ** Rows of the relational store ([app/models/models.py])

    Columns that neither service reads or writes are left out.  Every column
    but the primary key is nullable. *)

Module Task.
Record t := {
  id : Z;
  user_id : Z;
  title : string;
  description : option string;
  status : option string;
  priority : option string;
  estimated_pomodoros : option Z;
  completed_pomodoros : option Z;
  created_at : option Py.datetime;
  updated_at : option Py.datetime;
  due_date : option Py.datetime
}.
End Task.

Module PomodoroSession.
Record t := {
  focus_score : option Q;
  interrupted : option bool;
  completed_at : option Py.datetime
}.
End PomodoroSession.

Module UserAnalytics.
Record t := {
  avg_focus_score : option Q;
  productivity_trend : option Q;
  best_focus_hour : option Z;
  interruption_rate : option Q
}.
End UserAnalytics.

(** ** Data of the scheduling service *)

Inductive OptimizationType :=
| MOVE_MEETING_FROM_PEAK_FOCUS
| BLOCK_FOCUS_TIME
| RESCHEDULE_LOW_ENERGY_TASKS
| CONSOLIDATE_MEETINGS
| ADD_BUFFER_TIME
| OPTIMIZE_CONTEXT_SWITCHING.

(** [OptimizationType.value] *)
Definition OptimizationType_value (t : OptimizationType) : string :=
  match t with
  | MOVE_MEETING_FROM_PEAK_FOCUS => "move_meeting_from_peak_focus"
  | BLOCK_FOCUS_TIME => "block_focus_time"
  | RESCHEDULE_LOW_ENERGY_TASKS => "reschedule_low_energy_tasks"
  | CONSOLIDATE_MEETINGS => "consolidate_meetings"
  | ADD_BUFFER_TIME => "add_buffer_time"
  | OPTIMIZE_CONTEXT_SWITCHING => "optimize_context_switching"
  end.

(** One value of [ProductivityPattern.hourly_productivity]. *)
Module HourStats.
Record t := {
  avg_focus_score : Q;
  avg_completion_rate : Q;
  interruption_rate : Q;
  session_count : nat
}.
End HourStats.

(** One element of [ProductivityPattern.optimal_focus_blocks]; the block of
    the default pattern has no ['focus_quality'] key. *)
Module FocusBlock.
Record t := {
  start_hour : nat;
  end_hour : nat;
  productivity_score : Q;
  focus_quality : option string
}.
End FocusBlock.

(** Dicts are kept as association lists in insertion order. *)
Module ProductivityPattern.
Record t := {
  hourly_productivity : list (nat * HourStats.t);
  daily_productivity : list (string * Q);
  optimal_focus_blocks : list FocusBlock.t;
  energy_levels : list (string * Q);
  peak_hours : list nat;
  low_energy_hours : list nat;
  context_switch_tolerance : Q
}.
End ProductivityPattern.

Module ScheduleOptimization.
Record t := {
  optimization_type : OptimizationType;
  title : string;
  description : string;
  confidence : Q;
  impact_score : Q;
  original_time : option Py.datetime;
  suggested_time : option Py.datetime;
  duration : option Z;
  reasoning : string;
  meeting_id : option string;
  task_id : option string
}.
End ScheduleOptimization.

Module ScheduleBlock.
Record t := {
  start_time : Py.datetime;
  end_time : Py.datetime;
  title : string;
  block_type : string;
  moveable : bool;
  importance : Q;
  energy_requirement : Q
}.
End ScheduleBlock.

(** The ['block_details'] entry of a focus-block result. *)
Module BlockDetails.
Record t := {
  id : Z;
  start_time : option Py.datetime;
  duration_minutes : option Z;
  title : string
}.
End BlockDetails.

(** The dict returned by [_execute_optimization].  A key that an executor
    does not set is [None]; times stand for their [isoformat()]. *)
Module ExecResult.
Record t := {
  optimization_type : string;
  status : string;
  message : option string;
  error : option string;
  original_time : option Py.datetime;
  suggested_time : option Py.datetime;
  calendar_integration : option string;
  consolidation_proposal : option string;
  block_details : option BlockDetails.t;
  productivity_gain_estimate : option Q;
  confidence : option Q
}.
End ExecResult.

(** The dict returned by [_calculate_optimization_impact]; with no result
    only the first two keys are present. *)
Module ImpactSummary.
Record t := {
  total_productivity_gain : Q;
  optimizations_count : nat;
  successful_optimizations : option nat;
  average_confidence : option Q;
  estimated_focus_time_gained : option Z
}.
End ImpactSummary.

(** What [optimize_schedule] returns, and (without the last key) what it
    caches. *)
Module OptimizationRun.
Record t := {
  executed_optimizations : list ExecResult.t;
  suggested_optimizations : list ScheduleOptimization.t;
  impact_summary : ImpactSummary.t;
  productivity_gain_estimate : Q
}.
End OptimizationRun.

(** ** Data of the predictive-task service *)

Inductive PredictionSource :=
| PATTERN_BASED
| CALENDAR_BASED
| GOAL_BASED
| DEADLINE_BASED
| AI_GENERATED.

Definition PredictionSource_eqb (a b : PredictionSource) : bool :=
  match a, b with
  | PATTERN_BASED, PATTERN_BASED | CALENDAR_BASED, CALENDAR_BASED
  | GOAL_BASED, GOAL_BASED | DEADLINE_BASED, DEADLINE_BASED
  | AI_GENERATED, AI_GENERATED => true
  | _, _ => false
  end.

Module PredictedTask.
Record t := {
  title : string;
  description : string;
  estimated_duration : Z;
  confidence : Q;
  source : PredictionSource;
  priority : string;
  due_date : option Py.datetime;
  category : string;
  reasoning : string;
  dependencies : list string
}.
End PredictedTask.

(** A prediction as a dict ([asdict(prediction)], later extended with
    ['importance_score']).  The keys that the service reads with [.get] are
    optional: [None] stands for an absent key (or, for ['due_date'], a
    [None] value). *)
Module Prediction.
Record t := {
  title : string;
  description : string;
  estimated_duration : option Z;
  confidence : Q;
  source : PredictionSource;
  priority : option string;
  due_date : option Py.datetime;
  category : string;
  reasoning : option string;
  dependencies : list string;
  importance_score : option Q
}.
End Prediction.

(** The dict returned by [_auto_create_task]. *)
Module CreatedTask.
Record t := {
  id : Z;
  title : string;
  description : option string;
  confidence : Q;
  source : PredictionSource;
  auto_created : bool;
  created_at : Py.datetime
}.
End CreatedTask.

Module PredictionSummary.
Record t := {
  total_predictions : nat;
  high_confidence_count : nat;
  sources_used : list PredictionSource
}.
End PredictionSummary.

(** What [generate_predictive_tasks] returns. *)
Module PredictionRun.
Record t := {
  auto_created_tasks : list CreatedTask.t;
  suggested_tasks : list Prediction.t;
  prediction_summary : PredictionSummary.t
}.
End PredictionRun.

(** Elements of the context dicts.  Keys read with [d[k]] are fields, keys
    read with [d.get(k)] are optional. *)
Module TaskPattern.
Record t := {
  title : string;
  avg_duration : option Z;
  occurrence_rate : option Q;
  frequency : option Q
}.
End TaskPattern.

Module HistoricalPatterns.
Record t := {
  weekly_tasks : option (list (string * list TaskPattern.t));
  hourly_tasks : option (list (nat * list TaskPattern.t))
}.
End HistoricalPatterns.

Module CalendarEvent.
Record t := {
  title : string;
  start_time : option Py.datetime;
  end_time : option Py.datetime;
  type : option string;
  importance_score : option Q;
  recurring : option bool
}.
End CalendarEvent.

Module Project.
Record t := {
  name : string;
  next_milestone_due : option Py.datetime;
  completion_percentage : Q
}.
End Project.

Module Goal.
Record t := {
  title : string;
  description : string;
  type : option string;
  deadline : option Py.datetime
}.
End Goal.

Module Deadline.
Record t := {
  title : string;
  date : option Py.datetime;
  complexity : option Q
}.
End Deadline.

(** [_task_to_dict(task)]; the two times stand for their [isoformat()]. *)
Module TaskDict.
Record t := {
  id : Z;
  title : string;
  description : option string;
  status : option string;
  priority : option string;
  estimated_pomodoros : option Z;
  created_at : Py.datetime;
  due_date : option Py.datetime
}.
End TaskDict.

Module PredictionContext.
Record t := {
  user_id : string;
  historical_patterns : HistoricalPatterns.t;
  calendar_events : list CalendarEvent.t;
  active_projects : list Project.t;
  current_goals : list Goal.t;
  recent_tasks : list TaskDict.t;
  productivity_trends : option UserAnalytics.t;
  time_of_day : string;
  day_of_week : string;
  upcoming_deadlines : list Deadline.t
}.
End PredictionContext.

(** ** The environment and the monad of effects *)

Module Runtime.
Import Py.

(** Values kept in the key-value cache (they stand for their
    [json.dumps]). *)
Inductive CacheValue :=
| CachedOptimizations (executed : list ExecResult.t)
    (suggested : list ScheduleOptimization.t) (impact : ImpactSummary.t)
| CachedPredictions (ranked : list Prediction.t).

(** The environment of a run.

    - [clock n] is what the [n]-th call of [datetime.now()] (or of the
      [utcnow] column default) returns; [clock_reads] counts the calls made.
    - [db_faults] tells, for the successive database sessions, whether the
      session fails ([true]); past the end of the list sessions succeed.
    - [completed_sessions], [completed_tasks], [open_tasks],
      [recent_task_rows] and [analytics] are the answers of the store to the
      five queries of the two services.
    - [inserted_tasks] are the rows committed so far, oldest first.
    - [redis] is the cache client ([None] when the service was built without
      one): a map from keys to (ttl, value); [redis_faults] is to [setex]
      what [db_faults] is to sessions. *)
Record World := {
  clock : nat -> datetime;
  clock_reads : nat;
  db_faults : list bool;
  completed_sessions : string -> datetime -> list PomodoroSession.t;
  completed_tasks : string -> datetime -> list Task.t;
  open_tasks : string -> datetime -> datetime -> list Task.t;
  recent_task_rows : string -> datetime -> list Task.t;
  analytics : string -> option UserAnalytics.t;
  inserted_tasks : list Task.t;
  next_task_id : Z;
  redis : option (gmap string (Z * CacheValue));
  redis_faults : list bool
}.

Definition with_clock_reads (n : nat) (w : World) : World :=
  {| clock := clock w; clock_reads := n; db_faults := db_faults w;
     completed_sessions := completed_sessions w; completed_tasks := completed_tasks w;
     open_tasks := open_tasks w; recent_task_rows := recent_task_rows w;
     analytics := analytics w; inserted_tasks := inserted_tasks w;
     next_task_id := next_task_id w; redis := redis w; redis_faults := redis_faults w |}.

Definition with_db_faults (f : list bool) (w : World) : World :=
  {| clock := clock w; clock_reads := clock_reads w; db_faults := f;
     completed_sessions := completed_sessions w; completed_tasks := completed_tasks w;
     open_tasks := open_tasks w; recent_task_rows := recent_task_rows w;
     analytics := analytics w; inserted_tasks := inserted_tasks w;
     next_task_id := next_task_id w; redis := redis w; redis_faults := redis_faults w |}.

Definition with_inserted (row : Task.t) (w : World) : World :=
  {| clock := clock w; clock_reads := clock_reads w; db_faults := db_faults w;
     completed_sessions := completed_sessions w; completed_tasks := completed_tasks w;
     open_tasks := open_tasks w; recent_task_rows := recent_task_rows w;
     analytics := analytics w; inserted_tasks := inserted_tasks w ++ [row];
     next_task_id := (next_task_id w + 1)%Z; redis := redis w;
     redis_faults := redis_faults w |}.

Definition with_redis (r : option (gmap string (Z * CacheValue))) (f : list bool)
    (w : World) : World :=
  {| clock := clock w; clock_reads := clock_reads w; db_faults := db_faults w;
     completed_sessions := completed_sessions w; completed_tasks := completed_tasks w;
     open_tasks := open_tasks w; recent_task_rows := recent_task_rows w;
     analytics := analytics w; inserted_tasks := inserted_tasks w;
     next_task_id := next_task_id w; redis := r; redis_faults := f |}.

(** Computations: they read and change the world and return or raise. *)
Definition M (A : Type) : Type := World -> Outcome A * World.

Definition ret {A} (a : A) : M A := fun w => (Ok a, w).

Definition bind {A B} (m : M A) (k : A -> M B) : M B :=
  fun w => match m w with
           | (Ok a, w') => k a w'
           | (Raised e, w') => (Raised e, w')
           end.

Definition raise {A} (e : string) : M A := fun w => (Raised e, w).

(** [try: body  except Exception as e: handler(e)] *)
Definition catch {A} (body : M A) (handler : string -> M A) : M A :=
  fun w => match body w with
           | (Ok a, w') => (Ok a, w')
           | (Raised e, w') => handler e w'
           end.

(** A pure computation that may raise, run inside [M]. *)
Definition lift {A} (o : Outcome A) : M A := fun w => (o, w).

Definition gets {A} (f : World -> A) : M A := fun w => (Ok (f w), w).

Declare Scope monad_scope.
Delimit Scope monad_scope with monad.
Notation "x <- m ;; k" := (bind m (fun x => k))
  (at level 100, m at next level, right associativity) : monad_scope.
Notation "m ;;; k" := (bind m (fun _ => k))
  (at level 100, right associativity) : monad_scope.

Local Open Scope monad_scope.

(** [for x in l: ys.append(f(x))] with an effectful [f]. *)
Fixpoint mapM {A B} (f : A -> M B) (l : list A) : M (list B) :=
  match l with
  | [] => ret []
  | x :: r => y <- f x ;; ys <- mapM f r ;; ret (y :: ys)
  end.

(** [datetime.now()] *)
Definition datetime_now : M datetime :=
  fun w => (Ok (clock w (clock_reads w)), with_clock_reads (S (clock_reads w)) w).

(** Entering [async with get_db() as db]. *)
Definition get_db : M unit :=
  fun w => match db_faults w with
           | true :: f => (Raised "database session failed", with_db_faults f w)
           | false :: f => (Ok tt, with_db_faults f w)
           | [] => (Ok tt, w)
           end.

(** [db.add(row); db.commit(); db.refresh(row)]: the store assigns the
    primary key; the row comes back as stored. *)
Definition db_add_commit_refresh (mk : Z -> Task.t) : M Task.t :=
  fun w => let row := mk (next_task_id w) in (Ok row, with_inserted row w).

(** [await self.redis.setex(key, ttl, value)] on an existing client. *)
Definition redis_setex (store : gmap string (Z * CacheValue)) (key : string)
    (ttl : Z) (v : CacheValue) : M unit :=
  fun w => match redis_faults w with
           | true :: f => (Raised "cache write failed", with_redis (Some store) f w)
           | false :: f => (Ok tt, with_redis (Some (<[key := (ttl, v)]> store)) f w)
           | [] => (Ok tt, with_redis (Some (<[key := (ttl, v)]> store)) [] w)
           end.

(** [await self.redis.get(key)] on an existing client: the stored value, or
    [None] for a key that was never written.  A read consults the fault list
    like a write does.  Entries are read before they expire: the expiry of an
    entry is the cache's own clock and is not part of the world. *)
Definition redis_get (store : gmap string (Z * CacheValue)) (key : string)
  : M (option CacheValue) :=
  fun w => match redis_faults w with
           | true :: f => (Raised "cache read failed", with_redis (Some store) f w)
           | false :: f => (Ok (snd <$> store !! key), with_redis (Some store) f w)
           | [] => (Ok (snd <$> store !! key), w)
           end.

End Runtime.

(** ** [AutoSchedulingService] *)

Module AutoSchedulingService.
Import Py Runtime.
Local Open Scope monad_scope.

(** *** [_get_productivity_patterns] *)

(** One element of [hourly_data[hour]]. *)
Module Sample.
Record t := { focus_score : Q; completion_rate : Q; interruptions : Q }.
End Sample.

Definition sample_of (session : PomodoroSession.t) : Sample.t :=
  {| Sample.focus_score := float_or (PomodoroSession.focus_score session) 0.5;
     Sample.completion_rate :=
       if negb (truthy (PomodoroSession.interrupted session)) then 1%Q else 0.7%Q;
     Sample.interruptions :=
       if truthy (PomodoroSession.interrupted session) then 1%Q else 0%Q |}.

(** The loop that fills [hourly_data]. *)
Definition hourly_data_of (sessions : list PomodoroSession.t) : gmap nat (list Sample.t) :=
  fold_left
    (fun hourly_data session =>
       match PomodoroSession.completed_at session with
       | Some completed =>
           let hour := hour_of completed in
           <[hour := default [] (hourly_data !! hour) ++ [sample_of session]]> hourly_data
       | None => hourly_data
       end)
    sessions ∅.

(** The loop [for hour in range(24)] that fills
    [patterns.hourly_productivity]. *)
Definition hour_stats (hourly_data : gmap nat (list Sample.t)) (hour : nat) : HourStats.t :=
  match hourly_data !! hour with
  | Some hour_sessions =>
      {| HourStats.avg_focus_score := mean (map Sample.focus_score hour_sessions);
         HourStats.avg_completion_rate := mean (map Sample.completion_rate hour_sessions);
         HourStats.interruption_rate := mean (map Sample.interruptions hour_sessions);
         HourStats.session_count := length hour_sessions |}
  | None =>
      {| HourStats.avg_focus_score := 0.5;
         HourStats.avg_completion_rate := 0.5;
         HourStats.interruption_rate := 0.5;
         HourStats.session_count := 0 |}
  end.

Definition hourly_productivity_of (sessions : list PomodoroSession.t)
  : list (nat * HourStats.t) :=
  map (fun hour => (hour, hour_stats (hourly_data_of sessions) hour)) (seq 0 24).

(** [hourly_scores], sorted. *)
Definition hourly_scores_of (hourly_productivity : list (nat * HourStats.t))
  : list (nat * Q) :=
  sort_desc snd
    (map (fun '(hour, data) => (hour, HourStats.avg_focus_score data)) hourly_productivity).

(** [l[-n:]]; note that [l[-0:]] is the whole list. *)
Definition last_n {A} (n : nat) (l : list A) : list A :=
  match n with
  | O => l
  | _ => skipn (length l - n) l
  end.

Definition peak_hours_of (hourly_scores : list (nat * Q)) : list nat :=
  let peak_threshold := (length hourly_scores / 4)%nat in
  map fst (firstn peak_threshold hourly_scores).

Definition low_energy_hours_of (hourly_scores : list (nat * Q)) : list nat :=
  let peak_threshold := (length hourly_scores / 4)%nat in
  map fst (last_n peak_threshold hourly_scores).

(** The inner loop [for hour in range(start_hour, start_hour + 2)]. *)
Definition block_score_of (hourly_productivity : list (nat * HourStats.t))
    (start_hour : nat) : Q :=
  fold_left
    (fun block_score hour =>
       match getitem hourly_productivity hour with
       | Ok data => (block_score + HourStats.avg_focus_score data)%Q
       | Raised _ => block_score
       end)
    (seq start_hour 2) 0%Q.

Definition optimal_blocks_of (hourly_productivity : list (nat * HourStats.t))
  : list FocusBlock.t :=
  flat_map
    (fun start_hour =>
       let avg_block_score := (block_score_of hourly_productivity start_hour / 2)%Q in
       if Qlt_bool 0.75 avg_block_score then
         [ {| FocusBlock.start_hour := start_hour;
              FocusBlock.end_hour := start_hour + 2;
              FocusBlock.productivity_score := avg_block_score;
              FocusBlock.focus_quality :=
                Some (if Qlt_bool 0.85 avg_block_score then "high" else "medium") |} ]
       else [])
    (seq 0 22).

Definition daily_data_of (sessions : list PomodoroSession.t) : gmap string (list Q) :=
  fold_left
    (fun daily_data session =>
       match PomodoroSession.completed_at session with
       | Some completed =>
           let day_name := day_name (date_of completed) in
           <[day_name := default [] (daily_data !! day_name)
                           ++ [float_or (PomodoroSession.focus_score session) 0.5]]>
             daily_data
       | None => daily_data
       end)
    sessions ∅.

Definition week : list string :=
  ["Monday"; "Tuesday"; "Wednesday"; "Thursday"; "Friday"; "Saturday"; "Sunday"].

Definition daily_productivity_of (sessions : list PomodoroSession.t) : list (string * Q) :=
  map (fun day => (day, match daily_data_of sessions !! day with
                        | Some scores => mean scores
                        | None => 0.5%Q
                        end)) week.

(** [max(a, b)] on two floats: [b] only when it is strictly greater. *)
Definition max2 (a b : Q) : Q := if Qlt_bool a b then b else a.

Definition interruption_rate_of (sessions : list PomodoroSession.t) : Q :=
  (inject_Z (Z.of_nat (length (List.filter (fun s => truthy (PomodoroSession.interrupted s))
                                 sessions)))
   / inject_Z (Z.of_nat (length sessions)))%Q.

Definition context_switch_tolerance_of (sessions : list PomodoroSession.t) : Q :=
  match sessions with
  | [] => 0.5
  | _ => max2 0.1 (1 - interruption_rate_of sessions)
  end.

(** The pattern built from the sessions that the store returned. *)
Definition analyze (sessions : list PomodoroSession.t) : ProductivityPattern.t :=
  let hourly_productivity := hourly_productivity_of sessions in
  let hourly_scores := hourly_scores_of hourly_productivity in
  {| ProductivityPattern.hourly_productivity := hourly_productivity;
     ProductivityPattern.daily_productivity := daily_productivity_of sessions;
     ProductivityPattern.optimal_focus_blocks := optimal_blocks_of hourly_productivity;
     ProductivityPattern.energy_levels := [];
     ProductivityPattern.peak_hours := peak_hours_of hourly_scores;
     ProductivityPattern.low_energy_hours := low_energy_hours_of hourly_scores;
     ProductivityPattern.context_switch_tolerance := context_switch_tolerance_of sessions |}.

(** The pattern returned by the [except] branch. *)
Definition default_patterns : ProductivityPattern.t :=
  {| ProductivityPattern.hourly_productivity :=
       map (fun hour => (hour, {| HourStats.avg_focus_score := 0.5;
                                  HourStats.avg_completion_rate := 0.5;
                                  HourStats.interruption_rate := 0.3;
                                  HourStats.session_count := 0 |})) (seq 0 24);
     ProductivityPattern.daily_productivity := map (fun day => (day, 0.5%Q)) week;
     ProductivityPattern.optimal_focus_blocks :=
       [ {| FocusBlock.start_hour := 9; FocusBlock.end_hour := 11;
            FocusBlock.productivity_score := 0.8; FocusBlock.focus_quality := None |} ];
     ProductivityPattern.energy_levels :=
       [("morning", 0.8%Q); ("afternoon", 0.6%Q); ("evening", 0.4%Q)];
     ProductivityPattern.peak_hours := [9; 10; 14; 15];
     ProductivityPattern.low_energy_hours := [12; 13; 16; 17];
     ProductivityPattern.context_switch_tolerance := 0.6 |}.

Definition _get_productivity_patterns (user_id : string) : M ProductivityPattern.t :=
  catch
    (get_db ;;;
     now <- datetime_now ;;
     let start_date := (now - timedelta 90 0 0)%Z in
     sessions <- gets (fun w => completed_sessions w user_id start_date) ;;
     tasks <- gets (fun w => completed_tasks w user_id start_date) ;;
     ret (analyze sessions))
    (fun e => ret default_patterns).

(** *** [_get_current_schedule] *)

(** The three sample blocks of a weekday. *)
Definition sample_day (current_date : Z) : list ScheduleBlock.t :=
  if (weekday current_date <? 5)%Z then
    let standup_time := combine current_date 9 in
    let lunch_time := combine current_date 12 in
    let task_time := combine current_date 14 in
    [ {| ScheduleBlock.start_time := standup_time;
         ScheduleBlock.end_time := (standup_time + timedelta 0 0 30)%Z;
         ScheduleBlock.title := "Daily Standup";
         ScheduleBlock.block_type := "meeting";
         ScheduleBlock.moveable := false;
         ScheduleBlock.importance := 0.6;
         ScheduleBlock.energy_requirement := 0.3 |};
      {| ScheduleBlock.start_time := lunch_time;
         ScheduleBlock.end_time := (lunch_time + timedelta 0 1 0)%Z;
         ScheduleBlock.title := "Client Lunch Meeting";
         ScheduleBlock.block_type := "meeting";
         ScheduleBlock.moveable := true;
         ScheduleBlock.importance := 0.8;
         ScheduleBlock.energy_requirement := 0.7 |};
      {| ScheduleBlock.start_time := task_time;
         ScheduleBlock.end_time := (task_time + timedelta 0 2 0)%Z;
         ScheduleBlock.title := "Deep Work Session";
         ScheduleBlock.block_type := "task";
         ScheduleBlock.moveable := true;
         ScheduleBlock.importance := 0.9;
         ScheduleBlock.energy_requirement := 0.9 |} ]
  else [].

(** The loop [while current_date <= end_date], over the days it visits;
    [current_date += timedelta(days=1)] raises on the last representable
    day. *)
Fixpoint sample_blocks (days : list Z) : Outcome (list ScheduleBlock.t) :=
  match days with
  | [] => Ok []
  | current_date :: later =>
      if (max_day <=? current_date)%Z then Raised "date value out of range"
      else obind (sample_blocks later) (fun blocks => Ok (sample_day current_date ++ blocks))
  end.

Definition days_from_to (first last : Z) : list Z :=
  map (fun i => (first + Z.of_nat i)%Z) (seq 0 (Z.to_nat (last - first + 1))).

(** The block of one task of the store; [None * 25] is a [TypeError]. *)
Definition task_block (task : Task.t) : Outcome (list ScheduleBlock.t) :=
  match Task.due_date task with
  | Some due_date =>
      let task_time := (due_date - timedelta 0 2 0)%Z in
      match Task.estimated_pomodoros task with
      | Some pomodoros =>
          let duration := (pomodoros * 25)%Z in
          Ok [ {| ScheduleBlock.start_time := task_time;
                  ScheduleBlock.end_time := (task_time + timedelta 0 0 duration)%Z;
                  ScheduleBlock.title := Task.title task;
                  ScheduleBlock.block_type := "task";
                  ScheduleBlock.moveable := true;
                  ScheduleBlock.importance :=
                    if bool_decide (Task.priority task = Some "high") then 0.8 else 0.6;
                  ScheduleBlock.energy_requirement := 0.7 |} ]
      | None => Raised "unsupported operand type(s) for *: 'NoneType' and 'int'"
      end
  | None => Ok []
  end.

Definition _get_current_schedule (user_id : string) (date_range : datetime * datetime)
  : M (list ScheduleBlock.t) :=
  catch
    (let current_date := date_of (fst date_range) in
     let end_date := date_of (snd date_range) in
     sample <- lift (sample_blocks (days_from_to current_date end_date)) ;;
     get_db ;;;
     tasks <- gets (fun w => open_tasks w user_id (fst date_range) (snd date_range)) ;;
     from_tasks <- lift (omap task_block tasks) ;;
     ret (sample ++ concat from_tasks))
    (fun e => ret []).

(** *** [_identify_optimization_opportunities] and its helpers *)

(** The keys [patterns.hourly_productivity[h]['avg_focus_score']] of the
    hours of [hours], in order; a missing hour is a [KeyError]. *)
Definition with_scores (patterns : ProductivityPattern.t) (f : Q -> Q) (hours : list nat)
  : Outcome (list (nat * Q)) :=
  omap (fun h =>
          obind (getitem (ProductivityPattern.hourly_productivity patterns) h)
            (fun data => Ok (h, f (HourStats.avg_focus_score data))))
    hours.

Definition working_hours : list nat := seq 9 9.

Definition _find_optimal_time_slot (block : ScheduleBlock.t) (patterns : ProductivityPattern.t)
  : Outcome nat :=
  if Qlt_bool 0.7 (ScheduleBlock.energy_requirement block) then
    obind (with_scores patterns (fun s => s) (ProductivityPattern.peak_hours patterns)) max_by
  else
    obind (with_scores patterns (fun s => s) working_hours) min_by.

Definition _find_meeting_alternative_time (block : ScheduleBlock.t)
    (patterns : ProductivityPattern.t) : Outcome nat :=
  let non_peak_hours :=
    List.filter (fun h => negb (mem_nat h (ProductivityPattern.peak_hours patterns)))
      working_hours in
  match non_peak_hours with
  | _ :: _ => obind (with_scores patterns (fun s => Qabs (s - 0.6)) non_peak_hours) min_by
  | [] => Ok (hour_of (ScheduleBlock.start_time block))
  end.

(** [round(q * 100)], halves going to the even neighbour. *)
Definition hundredths (q : Q) : Z :=
  let x := (q * 100)%Q in
  let f := Qfloor x in
  match (x - inject_Z f ?= 1 # 2)%Q with
  | Lt => f
  | Gt => (f + 1)%Z
  | Eq => if Z.even f then f else (f + 1)%Z
  end.

(** [f"{q:.2f}"], on the exact rational: Python formats the binary float,
    which can differ in the last digit when the rational is a tie.  Only
    the free-text [reasoning] of a candidate uses it. *)
Definition format_2f (q : Q) : string :=
  let n := hundredths q in
  let a := Z.abs n in
  let cents := (a mod 100)%Z in
  (if (n <? 0)%Z then "-" else "") ++ pretty (a / 100)%Z ++ "."
    ++ (if (cents <? 10)%Z then "0" else "") ++ pretty cents.

Definition _identify_focus_block_opportunities (schedule : list ScheduleBlock.t)
    (patterns : ProductivityPattern.t) : M (list ScheduleOptimization.t) :=
  found <-
    mapM (fun focus_block =>
            let start_hour := FocusBlock.start_hour focus_block in
            let end_hour := FocusBlock.end_hour focus_block in
            let conflicts :=
              List.filter
                (fun block =>
                   (start_hour <=? hour_of (ScheduleBlock.start_time block))%nat
                   && (hour_of (ScheduleBlock.start_time block) <? end_hour)%nat
                   && ScheduleBlock.moveable block
                   && Qlt_bool (ScheduleBlock.importance block) 0.7)
                schedule in
            if (length conflicts <=? 1)%nat then
              now <- datetime_now ;;
              suggested <- lift (replace_hour_on_the_hour now start_hour) ;;
              ret [ {| ScheduleOptimization.optimization_type := BLOCK_FOCUS_TIME;
                       ScheduleOptimization.title :=
                         "Block focus time " ++ pretty start_hour ++ ":00-"
                           ++ pretty end_hour ++ ":00";
                       ScheduleOptimization.description :=
                         "Create dedicated focus block during high-productivity time";
                       ScheduleOptimization.confidence := 0.9;
                       ScheduleOptimization.impact_score := 0.8;
                       ScheduleOptimization.original_time := None;
                       ScheduleOptimization.suggested_time := Some suggested;
                       ScheduleOptimization.duration :=
                         Some ((Z.of_nat end_hour - Z.of_nat start_hour) * 60)%Z;
                       ScheduleOptimization.reasoning :=
                         "High productivity period ("
                           ++ format_2f (FocusBlock.productivity_score focus_block)
                           ++ " score)";
                       ScheduleOptimization.meeting_id := None;
                       ScheduleOptimization.task_id := None |} ]
            else ret [])
      (ProductivityPattern.optimal_focus_blocks patterns) ;;
  ret (concat found).

(** [daily_meetings[day].append(meeting)], days in order of first
    appearance. *)
Fixpoint group_add (day : Z) (meeting : ScheduleBlock.t)
    (daily_meetings : list (Z * list ScheduleBlock.t)) : list (Z * list ScheduleBlock.t) :=
  match daily_meetings with
  | [] => [(day, [meeting])]
  | (d, ms) :: r =>
      if (d =? day)%Z then (d, ms ++ [meeting]) :: r
      else (d, ms) :: group_add day meeting r
  end.

Definition maximum (l : list nat) : nat := fold_right Nat.max 0 l.
Definition minimum (l : list nat) : nat :=
  match l with [] => 0 | x :: r => fold_right Nat.min x r end.

Definition _identify_meeting_consolidation (schedule : list ScheduleBlock.t)
  : list ScheduleOptimization.t :=
  let meetings :=
    List.filter (fun block => bool_decide (ScheduleBlock.block_type block = "meeting")
                              && ScheduleBlock.moveable block) schedule in
  let daily_meetings :=
    fold_left (fun acc meeting =>
                 group_add (date_of (ScheduleBlock.start_time meeting)) meeting acc)
      meetings [] in
  flat_map
    (fun '(day, day_meetings) =>
       if (2 <=? length day_meetings)%nat then
         let start_times := map (fun m => hour_of (ScheduleBlock.start_time m)) day_meetings in
         let time_spread := (maximum start_times - minimum start_times)%nat in
         if (4 <? time_spread)%nat then
           [ {| ScheduleOptimization.optimization_type := CONSOLIDATE_MEETINGS;
                ScheduleOptimization.title := "Consolidate meetings on " ++ day_name day;
                ScheduleOptimization.description :=
                  "Group meetings together to create longer focus periods";
                ScheduleOptimization.confidence := 0.7;
                ScheduleOptimization.impact_score := 0.5;
                ScheduleOptimization.original_time := None;
                ScheduleOptimization.suggested_time := None;
                ScheduleOptimization.duration := None;
                ScheduleOptimization.reasoning :=
                  "Meetings spread over " ++ pretty time_spread
                    ++ " hours, causing fragmentation";
                ScheduleOptimization.meeting_id := None;
                ScheduleOptimization.task_id := None |} ]
         else []
       else [])
    daily_meetings.

(** The candidates that the first loop appends for one block. *)
Definition block_opportunities (patterns : ProductivityPattern.t) (block : ScheduleBlock.t)
  : Outcome (list ScheduleOptimization.t) :=
  if negb (ScheduleBlock.moveable block) then Ok []
  else
    let block_hour := hour_of (ScheduleBlock.start_time block) in
    obind
      (if bool_decide (ScheduleBlock.block_type block = "task")
          && Qlt_bool 0.7 (ScheduleBlock.energy_requirement block)
          && mem_nat block_hour (ProductivityPattern.low_energy_hours patterns)
       then
         obind (_find_optimal_time_slot block patterns) (fun suggested_hour =>
           if negb (suggested_hour =? block_hour)%nat then
             obind (replace_hour (ScheduleBlock.start_time block) suggested_hour)
               (fun suggested =>
                  Ok [ {| ScheduleOptimization.optimization_type := RESCHEDULE_LOW_ENERGY_TASKS;
                          ScheduleOptimization.title :=
                            "Reschedule " ++ ScheduleBlock.title block;
                          ScheduleOptimization.description :=
                            "Move high-energy task from low-energy time to optimal slot";
                          ScheduleOptimization.confidence := 0.85;
                          ScheduleOptimization.impact_score := 0.7;
                          ScheduleOptimization.original_time :=
                            Some (ScheduleBlock.start_time block);
                          ScheduleOptimization.suggested_time := Some suggested;
                          ScheduleOptimization.duration := None;
                          ScheduleOptimization.reasoning :=
                            "Task requires high energy but scheduled at "
                              ++ pretty block_hour ++ ":00 (low energy time)";
                          ScheduleOptimization.meeting_id := None;
                          ScheduleOptimization.task_id := None |} ])
           else Ok [])
       else Ok [])
      (fun rescheduled =>
         obind
           (if bool_decide (ScheduleBlock.block_type block = "meeting")
               && mem_nat block_hour (ProductivityPattern.peak_hours patterns)
               && Qlt_bool (ScheduleBlock.importance block) 0.9
            then
              obind (_find_meeting_alternative_time block patterns) (fun alternative_hour =>
                if negb (alternative_hour =? block_hour)%nat then
                  obind (replace_hour (ScheduleBlock.start_time block) alternative_hour)
                    (fun suggested =>
                       Ok [ {| ScheduleOptimization.optimization_type :=
                                 MOVE_MEETING_FROM_PEAK_FOCUS;
                               ScheduleOptimization.title :=
                                 "Reschedule " ++ ScheduleBlock.title block;
                               ScheduleOptimization.description :=
                                 "Move meeting out of peak productivity hours";
                               ScheduleOptimization.confidence := 0.8;
                               ScheduleOptimization.impact_score := 0.6;
                               ScheduleOptimization.original_time :=
                                 Some (ScheduleBlock.start_time block);
                               ScheduleOptimization.suggested_time := Some suggested;
                               ScheduleOptimization.duration := None;
                               ScheduleOptimization.reasoning :=
                                 "Meeting at " ++ pretty block_hour
                                   ++ ":00 conflicts with peak focus time";
                               ScheduleOptimization.meeting_id := None;
                               ScheduleOptimization.task_id := None |} ])
                else Ok [])
            else Ok [])
           (fun moved => Ok (rescheduled ++ moved))).

Definition _identify_optimization_opportunities (schedule : list ScheduleBlock.t)
    (patterns : ProductivityPattern.t) : M (list ScheduleOptimization.t) :=
  catch
    (per_block <- lift (omap (block_opportunities patterns) schedule) ;;
     focus_opportunities <- _identify_focus_block_opportunities schedule patterns ;;
     let consolidation_opportunities := _identify_meeting_consolidation schedule in
     let optimizations :=
       concat per_block ++ focus_opportunities ++ consolidation_opportunities in
     ret (sort_desc ScheduleOptimization.impact_score optimizations))
    (fun e => ret []).

(** *** Executors *)

(** A result dict with the two keys that every executor sets. *)
Definition result_dict (optimization_type status : string) : ExecResult.t :=
  {| ExecResult.optimization_type := optimization_type;
     ExecResult.status := status;
     ExecResult.message := None;
     ExecResult.error := None;
     ExecResult.original_time := None;
     ExecResult.suggested_time := None;
     ExecResult.calendar_integration := None;
     ExecResult.consolidation_proposal := None;
     ExecResult.block_details := None;
     ExecResult.productivity_gain_estimate := None;
     ExecResult.confidence := None |}.

Definition _reschedule_meeting (user_id : string) (opportunity : ScheduleOptimization.t)
  : M ExecResult.t :=
  ret {| ExecResult.optimization_type := "meeting_reschedule";
         ExecResult.status := "suggested";
         ExecResult.message := Some "Reschedule suggestion sent to meeting organizer";
         ExecResult.error := None;
         ExecResult.original_time := ScheduleOptimization.original_time opportunity;
         ExecResult.suggested_time := ScheduleOptimization.suggested_time opportunity;
         ExecResult.calendar_integration := Some "mock_success";
         ExecResult.consolidation_proposal := None;
         ExecResult.block_details := None;
         ExecResult.productivity_gain_estimate := None;
         ExecResult.confidence := None |}.

(** [opportunity.duration // 25 if opportunity.duration else 2] *)
Definition focus_pomodoros (duration : option Z) : Z :=
  match duration with
  | Some d => if (d =? 0)%Z then 2 else (d / 25)
  | None => 2
  end%Z.

Definition _create_focus_block (user_id : string) (opportunity : ScheduleOptimization.t)
  : M ExecResult.t :=
  catch
    (get_db ;;;
     user <- lift (int_of_str user_id) ;;
     created <- datetime_now ;;
     updated <- datetime_now ;;
     focus_task <-
       db_add_commit_refresh (fun id =>
         {| Task.id := id;
            Task.user_id := user;
            Task.title := "🎯 Focus Block";
            Task.description :=
              Some ("Dedicated focus time - "
                      ++ ScheduleOptimization.description opportunity)%string;
            Task.status := Some "pending";
            Task.priority := Some "high";
            Task.estimated_pomodoros :=
              Some (focus_pomodoros (ScheduleOptimization.duration opportunity));
            Task.completed_pomodoros := Some 0%Z;
            Task.created_at := Some created;
            Task.updated_at := Some updated;
            Task.due_date := ScheduleOptimization.suggested_time opportunity |}) ;;
     ret {| ExecResult.optimization_type := "focus_block_created";
            ExecResult.status := "created";
            ExecResult.message := Some "Focus block created successfully";
            ExecResult.error := None;
            ExecResult.original_time := None;
            ExecResult.suggested_time := None;
            ExecResult.calendar_integration := None;
            ExecResult.consolidation_proposal := None;
            ExecResult.block_details :=
              Some {| BlockDetails.id := Task.id focus_task;
                      BlockDetails.start_time := ScheduleOptimization.suggested_time opportunity;
                      BlockDetails.duration_minutes := ScheduleOptimization.duration opportunity;
                      BlockDetails.title := Task.title focus_task |};
            ExecResult.productivity_gain_estimate := None;
            ExecResult.confidence := None |})
    (fun e =>
       ret {| ExecResult.optimization_type := "focus_block_created";
              ExecResult.status := "failed";
              ExecResult.message := None;
              ExecResult.error := Some e;
              ExecResult.original_time := None;
              ExecResult.suggested_time := None;
              ExecResult.calendar_integration := None;
              ExecResult.consolidation_proposal := None;
              ExecResult.block_details := None;
              ExecResult.productivity_gain_estimate := None;
              ExecResult.confidence := None |}).

Definition _reschedule_task (user_id : string) (opportunity : ScheduleOptimization.t)
  : M ExecResult.t :=
  ret {| ExecResult.optimization_type := "task_reschedule";
         ExecResult.status := "rescheduled";
         ExecResult.message := Some "Task rescheduled to optimal productivity time";
         ExecResult.error := None;
         ExecResult.original_time := ScheduleOptimization.original_time opportunity;
         ExecResult.suggested_time := ScheduleOptimization.suggested_time opportunity;
         ExecResult.calendar_integration := None;
         ExecResult.consolidation_proposal := None;
         ExecResult.block_details := None;
         ExecResult.productivity_gain_estimate := None;
         ExecResult.confidence := None |}.

Definition _consolidate_meetings (user_id : string) (opportunity : ScheduleOptimization.t)
  : M ExecResult.t :=
  ret {| ExecResult.optimization_type := "meeting_consolidation";
         ExecResult.status := "suggested";
         ExecResult.message := Some "Meeting consolidation suggestions sent";
         ExecResult.error := None;
         ExecResult.original_time := None;
         ExecResult.suggested_time := None;
         ExecResult.calendar_integration := None;
         ExecResult.consolidation_proposal :=
           Some "Group meetings between 2-4 PM to create morning focus block";
         ExecResult.block_details := None;
         ExecResult.productivity_gain_estimate := None;
         ExecResult.confidence := None |}.

(** The four methods that [_execute_optimization] looks up on [self].  The
    class under verification provides [service]; a subclass that talks to a
    real calendar provides other ones. *)
Record Self := {
  self_reschedule_meeting : string -> ScheduleOptimization.t -> M ExecResult.t;
  self_create_focus_block : string -> ScheduleOptimization.t -> M ExecResult.t;
  self_reschedule_task : string -> ScheduleOptimization.t -> M ExecResult.t;
  self_consolidate_meetings : string -> ScheduleOptimization.t -> M ExecResult.t
}.

Definition service : Self :=
  {| self_reschedule_meeting := _reschedule_meeting;
     self_create_focus_block := _create_focus_block;
     self_reschedule_task := _reschedule_task;
     self_consolidate_meetings := _consolidate_meetings |}.

(** The [if]/[elif] chain of [_execute_optimization]. *)
Definition dispatch (self : Self) (user_id : string) (opportunity : ScheduleOptimization.t)
  : M ExecResult.t :=
  match ScheduleOptimization.optimization_type opportunity with
  | MOVE_MEETING_FROM_PEAK_FOCUS => self_reschedule_meeting self user_id opportunity
  | BLOCK_FOCUS_TIME => self_create_focus_block self user_id opportunity
  | RESCHEDULE_LOW_ENERGY_TASKS => self_reschedule_task self user_id opportunity
  | CONSOLIDATE_MEETINGS => self_consolidate_meetings self user_id opportunity
  | other =>
      ret {| ExecResult.optimization_type := OptimizationType_value other;
             ExecResult.status := "not_implemented";
             ExecResult.message := Some "Optimization type not yet implemented";
             ExecResult.error := None;
             ExecResult.original_time := None;
             ExecResult.suggested_time := None;
             ExecResult.calendar_integration := None;
             ExecResult.consolidation_proposal := None;
             ExecResult.block_details := None;
             ExecResult.productivity_gain_estimate := None;
             ExecResult.confidence := None |}
  end.

(** [result['productivity_gain_estimate'] = ...; result['confidence'] = ...] *)
Definition with_estimates (result : ExecResult.t) (opportunity : ScheduleOptimization.t)
  : ExecResult.t :=
  {| ExecResult.optimization_type := ExecResult.optimization_type result;
     ExecResult.status := ExecResult.status result;
     ExecResult.message := ExecResult.message result;
     ExecResult.error := ExecResult.error result;
     ExecResult.original_time := ExecResult.original_time result;
     ExecResult.suggested_time := ExecResult.suggested_time result;
     ExecResult.calendar_integration := ExecResult.calendar_integration result;
     ExecResult.consolidation_proposal := ExecResult.consolidation_proposal result;
     ExecResult.block_details := ExecResult.block_details result;
     ExecResult.productivity_gain_estimate :=
       Some (ScheduleOptimization.impact_score opportunity);
     ExecResult.confidence := Some (ScheduleOptimization.confidence opportunity) |}.

(** The dict built by the [except] branch of [_execute_optimization]. *)
Definition failed_result (opportunity : ScheduleOptimization.t) (e : string) : ExecResult.t :=
  {| ExecResult.optimization_type :=
       OptimizationType_value (ScheduleOptimization.optimization_type opportunity);
     ExecResult.status := "failed";
     ExecResult.message := None;
     ExecResult.error := Some e;
     ExecResult.original_time := None;
     ExecResult.suggested_time := None;
     ExecResult.calendar_integration := None;
     ExecResult.consolidation_proposal := None;
     ExecResult.block_details := None;
     ExecResult.productivity_gain_estimate := None;
     ExecResult.confidence := None |}.

Definition _execute_optimization (self : Self) (user_id : string)
    (opportunity : ScheduleOptimization.t) : M ExecResult.t :=
  catch
    (result <- dispatch self user_id opportunity ;;
     ret (with_estimates result opportunity))
    (fun e => ret (failed_result opportunity e)).

(** *** [_calculate_optimization_impact] *)

(** [result.get('block_details', {}).get('duration_minutes', 0)] as a term
    of [sum]: a [None] duration is a [TypeError]. *)
Definition focus_minutes (result : ExecResult.t) : Outcome Z :=
  match ExecResult.block_details result with
  | None => Ok 0%Z
  | Some details =>
      match BlockDetails.duration_minutes details with
      | Some minutes => Ok minutes
      | None => Raised "unsupported operand type(s) for +: 'int' and 'NoneType'"
      end
  end.

Definition is_successful (result : ExecResult.t) : bool :=
  bool_decide (ExecResult.status result ∈ ["completed"; "created"; "rescheduled"]).

Definition _calculate_optimization_impact (optimization_results : list ExecResult.t)
  : Outcome ImpactSummary.t :=
  match optimization_results with
  | [] =>
      Ok {| ImpactSummary.total_productivity_gain := 0;
            ImpactSummary.optimizations_count := 0;
            ImpactSummary.successful_optimizations := None;
            ImpactSummary.average_confidence := None;
            ImpactSummary.estimated_focus_time_gained := None |}
  | _ =>
      let total_gain :=
        qsum (map (fun r => default 0%Q (ExecResult.productivity_gain_estimate r))
                optimization_results) in
      let successful_optimizations :=
        length (List.filter is_successful optimization_results) in
      obind
        (omap focus_minutes
           (List.filter
              (fun r => bool_decide (ExecResult.optimization_type r = "focus_block_created"))
              optimization_results))
        (fun minutes =>
           Ok {| ImpactSummary.total_productivity_gain := total_gain;
                 ImpactSummary.optimizations_count := length optimization_results;
                 ImpactSummary.successful_optimizations := Some successful_optimizations;
                 ImpactSummary.average_confidence :=
                   Some (mean (map (fun r => default 0%Q (ExecResult.confidence r))
                                 optimization_results));
                 ImpactSummary.estimated_focus_time_gained :=
                   Some (fold_right Z.add 0%Z minutes) |})
  end.

(** *** [_cache_optimization_results] *)

Definition _cache_optimization_results (user_id : string) (results : CacheValue) : M unit :=
  client <- gets redis ;;
  match client with
  | Some store =>
      catch (redis_setex store ("schedule_optimizations:" ++ user_id)%string 3600 results)
        (fun e => ret tt)
  | None => ret tt
  end.

(** *** [optimize_schedule] *)

(** The gate of the execution loop. *)
Definition gate (opportunity : ScheduleOptimization.t) (executed_count : nat) : bool :=
  Qlt_bool 0.8 (ScheduleOptimization.confidence opportunity)
  && Qlt_bool 0.6 (ScheduleOptimization.impact_score opportunity)
  && (executed_count <? 5)%nat.

(** The loop [for opportunity in optimizations], from the values that
    [optimization_results] and [executed_count] have when it reaches the
    given rest of the list. *)
Fixpoint execution_loop (self : Self) (user_id : string)
    (optimizations : list ScheduleOptimization.t)
    (optimization_results : list ExecResult.t) (executed_count : nat)
  : M (list ExecResult.t * nat) :=
  match optimizations with
  | [] => ret (optimization_results, executed_count)
  | opportunity :: later =>
      if gate opportunity executed_count then
        result <- _execute_optimization self user_id opportunity ;;
        execution_loop self user_id later (optimization_results ++ [result])
          (S executed_count)
      else execution_loop self user_id later optimization_results executed_count
  end.

Definition optimize_schedule (self : Self) (user_id : string)
    (date_range : datetime * datetime) : M OptimizationRun.t :=
  catch
    (productivity_map <- _get_productivity_patterns user_id ;;
     current_schedule <- _get_current_schedule user_id date_range ;;
     optimizations <- _identify_optimization_opportunities current_schedule productivity_map ;;
     executed <- execution_loop self user_id optimizations [] 0 ;;
     let optimization_results := fst executed in
     let executed_count := snd executed in
     impact_summary <- lift (_calculate_optimization_impact optimization_results) ;;
     _cache_optimization_results user_id
       (CachedOptimizations optimization_results (skipn executed_count optimizations)
          impact_summary) ;;;
     ret {| OptimizationRun.executed_optimizations := optimization_results;
            OptimizationRun.suggested_optimizations := skipn executed_count optimizations;
            OptimizationRun.impact_summary := impact_summary;
            OptimizationRun.productivity_gain_estimate :=
              ImpactSummary.total_productivity_gain impact_summary |})
    (fun e => raise e).

(** *** [suggest_optimal_meeting_time] *)

(** The dict returned by [suggest_optimal_meeting_time]; times stand for
    their [isoformat()]. *)
Module MeetingSuggestion.
Record t := {
  suggested_time : datetime;
  reasoning : string;
  confidence : Q;
  alternative_times : list datetime
}.
End MeetingSuggestion.



(** *** [get_productivity_calendar] and its helpers *)

Definition _is_optimal_scheduling (block : ScheduleBlock.t) (patterns : ProductivityPattern.t)
  : bool :=
  let hour := hour_of (ScheduleBlock.start_time block) in
  if bool_decide (ScheduleBlock.block_type block = "task")
     && Qlt_bool 0.7 (ScheduleBlock.energy_requirement block)
  then mem_nat hour (ProductivityPattern.peak_hours patterns)
  else if bool_decide (ScheduleBlock.block_type block = "meeting")
  then negb (mem_nat hour (ProductivityPattern.peak_hours patterns))
  else true.


(** The ['scheduled_activity'] entry of an hour. *)
Module Activity.
Record t := { title : string; type : string; optimal : bool }.
End Activity.

(** One value of ['hourly_view']. *)
Module HourView.
Record t := {
  productivity_score : Q;
  energy_level : string;
  scheduled_activity : option Activity.t;
  recommendation : string
}.
End HourView.

(** The dict returned by [get_productivity_calendar]. *)
Module ProductivityCalendar.
Record t := {
  date : datetime;
  hourly_view : list (nat * HourView.t);
  optimal_focus_blocks : list FocusBlock.t;
  daily_productivity_score : Q
}.
End ProductivityCalendar.




End AutoSchedulingService.

(** ** [PredictiveTaskService] *)

Module PredictiveTaskService.
Import Py Runtime.
Local Open Scope monad_scope.

(** *** Helper methods *)

Definition _analyze_user_patterns : HistoricalPatterns.t :=
  let pattern title duration rate frequency :=
    {| TaskPattern.title := title; TaskPattern.avg_duration := Some duration;
       TaskPattern.occurrence_rate := rate; TaskPattern.frequency := frequency |} in
  {| HistoricalPatterns.weekly_tasks :=
       Some [ ("Monday", [ pattern "Weekly planning" 30%Z (Some 0.8%Q) None;
                           pattern "Email review" 20%Z (Some 0.9%Q) None ]);
              ("Friday", [ pattern "Week review" 25%Z (Some 0.7%Q) None ]) ];
     HistoricalPatterns.hourly_tasks :=
       Some [ (9, [ pattern "Deep work session" 90%Z None (Some 0.6%Q) ]);
              (14, [ pattern "Administrative tasks" 45%Z None (Some 0.5%Q) ]) ] |}.

Definition _get_productivity_trends (user_id : string) : M (option UserAnalytics.t) :=
  gets (fun w => analytics w user_id).

(** The mock getters read the clock once for every [datetime.now()] in
    their literals. *)
Definition _get_calendar_events (user_id : string) : M (list CalendarEvent.t) :=
  t1 <- datetime_now ;;
  t2 <- datetime_now ;;
  t3 <- datetime_now ;;
  t4 <- datetime_now ;;
  ret [ {| CalendarEvent.title := "Team standup";
           CalendarEvent.start_time := Some (t1 + timedelta 0 2 0)%Z;
           CalendarEvent.end_time := Some (t2 + timedelta 0 2 30)%Z;
           CalendarEvent.type := Some "meeting";
           CalendarEvent.importance_score := Some 0.6%Q;
           CalendarEvent.recurring := Some true |};
        {| CalendarEvent.title := "Client presentation";
           CalendarEvent.start_time := Some (t3 + timedelta 1 0 0)%Z;
           CalendarEvent.end_time := Some (t4 + timedelta 1 1 0)%Z;
           CalendarEvent.type := Some "client_meeting";
           CalendarEvent.importance_score := Some 0.9%Q;
           CalendarEvent.recurring := Some false |} ].

Definition _get_active_projects (user_id : string) : M (list Project.t) :=
  t <- datetime_now ;;
  ret [ {| Project.name := "Website redesign";
           Project.next_milestone_due := Some (t + timedelta 3 0 0)%Z;
           Project.completion_percentage := 0.7 |} ].

Definition _get_current_goals (user_id : string) : M (list Goal.t) :=
  t1 <- datetime_now ;;
  t2 <- datetime_now ;;
  ret [ {| Goal.title := "Learn Python";
           Goal.description := "Complete Python certification course";
           Goal.type := Some "learning";
           Goal.deadline := Some (t1 + timedelta 14 0 0)%Z |};
        {| Goal.title := "Finish Q1 report";
           Goal.description := "Complete quarterly business report";
           Goal.type := Some "project";
           Goal.deadline := Some (t2 + timedelta 7 0 0)%Z |} ].

Definition _get_upcoming_deadlines (user_id : string) : M (list Deadline.t) :=
  t1 <- datetime_now ;;
  t2 <- datetime_now ;;
  ret [ {| Deadline.title := "Tax filing";
           Deadline.date := Some (t1 + timedelta 5 0 0)%Z;
           Deadline.complexity := Some 0.8%Q |};
        {| Deadline.title := "Project proposal";
           Deadline.date := Some (t2 + timedelta 2 0 0)%Z;
           Deadline.complexity := Some 0.6%Q |} ].

(** [task.created_at.isoformat()] is an [AttributeError] on [None]. *)
Definition _task_to_dict (task : Task.t) : Outcome TaskDict.t :=
  match Task.created_at task with
  | Some created_at =>
      Ok {| TaskDict.id := Task.id task;
            TaskDict.title := Task.title task;
            TaskDict.description := Task.description task;
            TaskDict.status := Task.status task;
            TaskDict.priority := Task.priority task;
            TaskDict.estimated_pomodoros := Task.estimated_pomodoros task;
            TaskDict.created_at := created_at;
            TaskDict.due_date := Task.due_date task |}
  | None => Raised "'NoneType' object has no attribute 'isoformat'"
  end.

Definition _get_time_period (hour : nat) : string :=
  if ((5 <=? hour) && (hour <? 12))%nat then "morning"
  else if ((12 <=? hour) && (hour <? 17))%nat then "afternoon"
  else if ((17 <=? hour) && (hour <? 21))%nat then "evening"
  else "night".

(** *** [_gather_prediction_context] *)

Definition _gather_prediction_context (user_id : string) : M PredictionContext.t :=
  catch
    (get_db ;;;
     let historical_patterns := _analyze_user_patterns in
     now <- datetime_now ;;
     recent_tasks <- gets (fun w => recent_task_rows w user_id (now - timedelta 30 0 0)%Z) ;;
     productivity_trends <- _get_productivity_trends user_id ;;
     calendar_events <- _get_calendar_events user_id ;;
     active_projects <- _get_active_projects user_id ;;
     current_goals <- _get_current_goals user_id ;;
     upcoming_deadlines <- _get_upcoming_deadlines user_id ;;
     current_time <- datetime_now ;;
     recent_dicts <- lift (omap _task_to_dict recent_tasks) ;;
     ret {| PredictionContext.user_id := user_id;
            PredictionContext.historical_patterns := historical_patterns;
            PredictionContext.calendar_events := calendar_events;
            PredictionContext.active_projects := active_projects;
            PredictionContext.current_goals := current_goals;
            PredictionContext.recent_tasks := recent_dicts;
            PredictionContext.productivity_trends := productivity_trends;
            PredictionContext.time_of_day := _get_time_period (hour_of current_time);
            PredictionContext.day_of_week := day_name (date_of current_time);
            PredictionContext.upcoming_deadlines := upcoming_deadlines |})
    (fun e => raise e).

(** *** The four generators *)

(** [PredictedTask(...)] with the defaults of the dataclass for the fields
    that the caller may leave out. *)
Definition predicted (title description : string) (estimated_duration : Z) (confidence : Q)
    (source : PredictionSource) (priority : option string) (due_date : option datetime)
    (reasoning : string) : PredictedTask.t :=
  {| PredictedTask.title := title;
     PredictedTask.description := description;
     PredictedTask.estimated_duration := estimated_duration;
     PredictedTask.confidence := confidence;
     PredictedTask.source := source;
     PredictedTask.priority := default "medium" priority;
     PredictedTask.due_date := due_date;
     PredictedTask.category := "work";
     PredictedTask.reasoning := reasoning;
     PredictedTask.dependencies := [] |}.

(** [d.get(k, {})] followed by [k' in ...] and [...[k']] on a dict of
    lists. *)
Definition lookup_str {V} (d : option (list (string * list V))) (k : string) : list V :=
  match d with
  | Some entries =>
      match List.find (fun kv => bool_decide (fst kv = k)) entries with
      | Some kv => snd kv
      | None => []
      end
  | None => []
  end.

Definition lookup_hour {V} (d : option (list (nat * list V))) (k : nat) : list V :=
  match d with
  | Some entries =>
      match List.find (fun kv => (fst kv =? k)%nat) entries with
      | Some kv => snd kv
      | None => []
      end
  | None => []
  end.

Definition _pattern_based_prediction (context : PredictionContext.t)
  : M (list PredictedTask.t) :=
  let user_patterns := PredictionContext.historical_patterns context in
  current_time <- datetime_now ;;
  catch
    (let day_of_week := day_name (date_of current_time) in
     let weekly :=
       map (fun task_pattern =>
              predicted (TaskPattern.title task_pattern)
                ("Recurring " ++ day_of_week ++ " task based on your patterns")
                (default 25%Z (TaskPattern.avg_duration task_pattern))
                (default 0.7%Q (TaskPattern.occurrence_rate task_pattern))
                PATTERN_BASED None None
                ("You typically do this task on " ++ day_of_week ++ "s"))
         (lookup_str (HistoricalPatterns.weekly_tasks user_patterns) day_of_week) in
     let current_hour := hour_of current_time in
     let hourly :=
       map (fun task_pattern =>
              predicted (TaskPattern.title task_pattern)
                ("Typical " ++ PredictionContext.time_of_day context ++ " task")
                (default 30%Z (TaskPattern.avg_duration task_pattern))
                (default 0.6%Q (TaskPattern.frequency task_pattern))
                PATTERN_BASED None None
                ("You often work on this around " ++ pretty current_hour ++ ":00"))
         (lookup_hour (HistoricalPatterns.hourly_tasks user_patterns) current_hour) in
     let milestones :=
       flat_map
         (fun project =>
            match Project.next_milestone_due project with
            | Some due =>
                let days_until_due := days_between due current_time in
                if ((0 <=? days_until_due) && (days_until_due <=? 3))%Z then
                  [ predicted ("Prepare for " ++ Project.name project ++ " milestone")
                      "Predicted based on project timeline and your preparation patterns"
                      60 0.75 PATTERN_BASED None (Some (due - timedelta 0 4 0)%Z)
                      ("Milestone due in " ++ pretty days_until_due ++ " days") ]
                else []
            | None => []
            end)
         (PredictionContext.active_projects context) in
     let incomplete_tasks :=
       List.filter (fun t => negb (bool_decide (TaskDict.status t = Some "completed")))
         (PredictionContext.recent_tasks context) in
     follow_ups <-
       lift (omap
               (fun task =>
                  let task_age := days_between current_time (TaskDict.created_at task) in
                  if (3 <? task_age)%Z then
                    match TaskDict.estimated_pomodoros task with
                    | Some pomodoros =>
                        Ok [ predicted ("Follow up: " ++ TaskDict.title task)
                               "Old incomplete task that might need attention"
                               (pomodoros * 25) 0.6 PATTERN_BASED None None
                               ("Task has been incomplete for " ++ pretty task_age
                                  ++ " days") ]
                    | None => Raised "unsupported operand type(s) for *: 'NoneType' and 'int'"
                    end
                  else Ok [])
               incomplete_tasks) ;;
     ret (weekly ++ hourly ++ milestones ++ concat follow_ups))
    (fun e => ret []).

Definition _calendar_based_prediction (context : PredictionContext.t)
  : M (list PredictedTask.t) :=
  catch
    (ret
       (flat_map
          (fun meeting =>
             match CalendarEvent.start_time meeting with
             | None => []
             | Some meeting_time =>
                 let end_time :=
                   default (meeting_time + timedelta 0 1 0)%Z (CalendarEvent.end_time meeting) in
                 (if Qlt_bool 0.7 (default 0%Q (CalendarEvent.importance_score meeting)) then
                    [ predicted ("Prepare for " ++ CalendarEvent.title meeting)
                        "Meeting preparation: agenda review, materials gathering"
                        30 0.8 CALENDAR_BASED None (Some (meeting_time - timedelta 0 2 0)%Z)
                        "Important meeting requires preparation" ]
                  else [])
                 ++ (if bool_decide (CalendarEvent.type meeting = Some "client_meeting") then
                       [ predicted ("Follow up on " ++ CalendarEvent.title meeting)
                           "Send summary and action items to participants"
                           20 0.9 CALENDAR_BASED None (Some (end_time + timedelta 0 4 0)%Z)
                           "Client meetings typically require follow-up" ]
                     else [])
                 ++ (if default false (CalendarEvent.recurring meeting) then
                       [ predicted ("Review outcomes from " ++ CalendarEvent.title meeting)
                           "Review meeting outcomes and plan next steps"
                           15 0.7 CALENDAR_BASED None (Some (end_time + timedelta 1 0 0)%Z)
                           "Recurring meetings benefit from outcome reviews" ]
                     else [])
             end)
          (PredictionContext.calendar_events context)))
    (fun e => ret []).

Definition _goal_based_prediction (context : PredictionContext.t)
  : M (list PredictedTask.t) :=
  catch
    (per_goal <-
       mapM (fun goal =>
               match Goal.deadline goal with
               | None => ret []
               | Some goal_deadline =>
                   now <- datetime_now ;;
                   let days_until_deadline := days_between goal_deadline now in
                   ret
                     ((if (0 <? days_until_deadline)%Z then
                         [ predicted ("Review progress on: " ++ Goal.title goal)
                             ("Check progress and adjust approach for goal: "
                                ++ Goal.description goal)
                             25 0.8 GOAL_BASED None None
                             ("Goal deadline in " ++ pretty days_until_deadline ++ " days") ]
                         ++ (if bool_decide (Goal.type goal = Some "learning") then
                               [ predicted ("Study session: " ++ Goal.title goal)
                                   "Dedicated learning session for goal achievement"
                                   50 0.75 GOAL_BASED None None
                                   "Learning goals require regular study sessions" ]
                             else if bool_decide (Goal.type goal = Some "project") then
                               [ predicted ("Work on: " ++ Goal.title goal)
                                   "Project work session for goal achievement"
                                   75 0.8 GOAL_BASED None None
                                   "Project goals require dedicated work sessions" ]
                             else [])
                       else [])
                      ++ (if ((0 <? days_until_deadline) && (days_until_deadline <=? 7))%Z then
                            [ predicted ("URGENT: Final push for " ++ Goal.title goal)
                                "Intensive work session to meet upcoming deadline"
                                90 0.95 GOAL_BASED (Some "high") None
                                ("Goal deadline in only " ++ pretty days_until_deadline
                                   ++ " days") ]
                          else []))
               end)
         (PredictionContext.current_goals context) ;;
     ret (concat per_goal))
    (fun e => ret []).

Definition _deadline_based_prediction (context : PredictionContext.t)
  : M (list PredictedTask.t) :=
  catch
    (per_deadline <-
       mapM (fun deadline =>
               match Deadline.date deadline with
               | None => ret []
               | Some deadline_date =>
                   now <- datetime_now ;;
                   let days_until_deadline := days_between deadline_date now in
                   if (days_until_deadline <=? 0)%Z then ret []
                   else
                     ret
                       ((if (days_until_deadline <=? 1)%Z then
                           [ predicted ("URGENT PREP: " ++ Deadline.title deadline)
                               "Last-minute preparation for imminent deadline"
                               60 0.95 DEADLINE_BASED (Some "critical")
                               (Some (deadline_date - timedelta 0 2 0)%Z)
                               "Deadline is within 24 hours" ]
                         else if (days_until_deadline <=? 3)%Z then
                           [ predicted ("Prepare for: " ++ Deadline.title deadline)
                               "Preparation work for upcoming deadline"
                               45 0.85 DEADLINE_BASED (Some "high") None
                               ("Deadline in " ++ pretty days_until_deadline ++ " days") ]
                         else if (days_until_deadline <=? 7)%Z then
                           [ predicted ("Plan approach for: " ++ Deadline.title deadline)
                               "Strategic planning for upcoming deadline"
                               30 0.7 DEADLINE_BASED None None
                               ("Deadline in " ++ pretty days_until_deadline
                                  ++ " days - good time to plan") ]
                         else [])
                        ++ (if Qlt_bool 0.7 (default 0%Q (Deadline.complexity deadline)) then
                              [ predicted ("Buffer time: " ++ Deadline.title deadline)
                                  "Additional time buffer for complex deadline"
                                  30 0.6 DEADLINE_BASED None
                                  (Some (deadline_date - timedelta 1 0 0)%Z)
                                  "Complex deadline may need extra time" ]
                            else []))
               end)
         (PredictionContext.upcoming_deadlines context) ;;
     ret (concat per_deadline))
    (fun e => ret []).

(** *** [_combine_predictions] *)

(** [asdict(prediction)] *)
Definition asdict (prediction : PredictedTask.t) : Prediction.t :=
  {| Prediction.title := PredictedTask.title prediction;
     Prediction.description := PredictedTask.description prediction;
     Prediction.estimated_duration := Some (PredictedTask.estimated_duration prediction);
     Prediction.confidence := PredictedTask.confidence prediction;
     Prediction.source := PredictedTask.source prediction;
     Prediction.priority := Some (PredictedTask.priority prediction);
     Prediction.due_date := PredictedTask.due_date prediction;
     Prediction.category := PredictedTask.category prediction;
     Prediction.reasoning := Some (PredictedTask.reasoning prediction);
     Prediction.dependencies := PredictedTask.dependencies prediction;
     Prediction.importance_score := None |}.

(** [pred['title'].lower().strip()] *)
Definition title_key (pred : Prediction.t) : string := strip (lower (Prediction.title pred)).

(** One turn of the loop [for pred in combined], on the pair
    ([unique_predictions], [seen_titles]). *)
Definition dedup_step (state : list Prediction.t * gset string) (pred : Prediction.t)
  : list Prediction.t * gset string :=
  let '(unique_predictions, seen_titles) := state in
  if bool_decide (title_key pred ∈ seen_titles) then state
  else (unique_predictions ++ [pred], seen_titles ∪ {[ title_key pred ]}).

Definition _combine_predictions (predictions_list : list (list PredictedTask.t))
  : list Prediction.t :=
  let combined := map asdict (concat predictions_list) in
  fst (fold_left dedup_step combined ([], ∅)).

(** *** [_rank_by_importance] *)

(** [priority_weights.get(priority, 0.5)] *)
Definition priority_weight (priority : string) : Q :=
  if bool_decide (priority = "low") then 0.2
  else if bool_decide (priority = "medium") then 0.5
  else if bool_decide (priority = "high") then 0.8
  else if bool_decide (priority = "critical") then 1.0
  else 0.5.

(** [source_weights.get(source_enum, 0.5)] *)
Definition source_weight (source : PredictionSource) : Q :=
  match source with
  | DEADLINE_BASED => 0.9
  | CALENDAR_BASED => 0.8
  | PATTERN_BASED => 0.7
  | GOAL_BASED => 0.6
  | AI_GENERATED => 0.5
  end.

(** What the urgency branch adds for a due date [days_until_due] days
    away. *)
Definition urgency_bonus (days_until_due : Z) : Q :=
  if (days_until_due <=? 1)%Z then 0.3
  else if (days_until_due <=? 3)%Z then 0.2
  else if (days_until_due <=? 7)%Z then 0.1
  else 0.

(** [min(a, b)] on two floats: [b] only when it is strictly smaller. *)
Definition min2 (a b : Q) : Q := if Qlt_bool b a then b else a.

(** The score of one prediction; [days_until_due] is [None] when the
    prediction has no due date. *)
Definition importance_of (confidence : Q) (priority : option string)
    (days_until_due : option Z) (source : PredictionSource) : Q :=
  let importance_score := 0%Q in
  let importance_score := (importance_score + confidence * 0.4)%Q in
  let importance_score :=
    (importance_score + priority_weight (default "medium" priority) * 0.3)%Q in
  let importance_score :=
    match days_until_due with
    | Some days => (importance_score + urgency_bonus days)%Q
    | None => importance_score
    end in
  let importance_score := (importance_score + source_weight source * 0.2)%Q in
  min2 1.0 importance_score.

Definition with_importance (pred : Prediction.t) (score : Q) : Prediction.t :=
  {| Prediction.title := Prediction.title pred;
     Prediction.description := Prediction.description pred;
     Prediction.estimated_duration := Prediction.estimated_duration pred;
     Prediction.confidence := Prediction.confidence pred;
     Prediction.source := Prediction.source pred;
     Prediction.priority := Prediction.priority pred;
     Prediction.due_date := Prediction.due_date pred;
     Prediction.category := Prediction.category pred;
     Prediction.reasoning := Prediction.reasoning pred;
     Prediction.dependencies := Prediction.dependencies pred;
     Prediction.importance_score := Some score |}.

(** The body of the loop [for pred in predictions]: the clock is read only
    for a prediction that has a due date.  Due dates are [datetime]s here
    (the dicts come from [asdict]), so the branch that parses a due date
    given as a string is never taken. *)
Definition score_prediction (pred : Prediction.t) : M Prediction.t :=
  days_until_due <-
    match Prediction.due_date pred with
    | Some due_date => now <- datetime_now ;; ret (Some (days_between due_date now))
    | None => ret None
    end ;;
  ret (with_importance pred
         (importance_of (Prediction.confidence pred) (Prediction.priority pred)
            days_until_due (Prediction.source pred))).

Definition importance_key (pred : Prediction.t) : Q :=
  default 0%Q (Prediction.importance_score pred).

Definition _rank_by_importance (predictions : list Prediction.t)
    (context : PredictionContext.t) : M (list Prediction.t) :=
  scored <- mapM score_prediction predictions ;;
  ret (sort_desc importance_key scored).

(** *** [_auto_create_task] *)

(** [max(1, prediction.get('estimated_duration', 25) // 25)] *)
Definition estimated_pomodoros_of (prediction : Prediction.t) : Z :=
  Z.max 1 (default 25%Z (Prediction.estimated_duration prediction) / 25).

Definition _auto_create_task (user_id : string) (prediction : Prediction.t)
  : M CreatedTask.t :=
  catch
    (get_db ;;;
     user <- lift (int_of_str user_id) ;;
     created <- datetime_now ;;
     updated <- datetime_now ;;
     new_task <-
       db_add_commit_refresh (fun id =>
         {| Task.id := id;
            Task.user_id := user;
            Task.title := Prediction.title prediction;
            Task.description :=
              Some ("[AUTO-GENERATED] " ++ Prediction.description prediction
                      ++ "\n\nReasoning: " ++ default "" (Prediction.reasoning prediction))%string;
            Task.status := Some "pending";
            Task.priority := Some (default "medium" (Prediction.priority prediction));
            Task.estimated_pomodoros := Some (estimated_pomodoros_of prediction);
            Task.completed_pomodoros := Some 0%Z;
            Task.created_at := Some created;
            Task.updated_at := Some updated;
            Task.due_date := Prediction.due_date prediction |}) ;;
     ret {| CreatedTask.id := Task.id new_task;
            CreatedTask.title := Task.title new_task;
            CreatedTask.description := Task.description new_task;
            CreatedTask.confidence := Prediction.confidence prediction;
            CreatedTask.source := Prediction.source prediction;
            CreatedTask.auto_created := true;
            CreatedTask.created_at := created |})
    (fun e => raise e).

(** *** [_cache_predictions] *)

Definition _cache_predictions (user_id : string) (predictions : list Prediction.t) : M unit :=
  client <- gets redis ;;
  match client with
  | Some store =>
      catch (redis_setex store ("predictions:" ++ user_id)%string 3600
               (CachedPredictions predictions))
        (fun e => ret tt)
  | None => ret tt
  end.

(** *** [generate_predictive_tasks] *)

(** The loop [for task in ranked_tasks[:3]], from the value that
    [auto_created] has when it reaches the given rest of the slice. *)
Fixpoint auto_create_loop (user_id : string) (tasks : list Prediction.t)
    (auto_created : list CreatedTask.t) : M (list CreatedTask.t) :=
  match tasks with
  | [] => ret auto_created
  | task :: later =>
      if Qlt_bool 0.85 (Prediction.confidence task) then
        created_task <- _auto_create_task user_id task ;;
        auto_create_loop user_id later (auto_created ++ [created_task])
      else auto_create_loop user_id later auto_created
  end.

(** [list(set(t['source'] for t in ranked_tasks))]; the order in which a
    set is listed is not specified, first appearance is used here. *)
Fixpoint distinct_sources (l : list PredictionSource) : list PredictionSource :=
  match l with
  | [] => []
  | s :: r => s :: List.filter (fun s' => negb (PredictionSource_eqb s s')) (distinct_sources r)
  end.

Definition generate_predictive_tasks (user_id : string) : M PredictionRun.t :=
  catch
    (context <- _gather_prediction_context user_id ;;
     from_patterns <- _pattern_based_prediction context ;;
     from_calendar <- _calendar_based_prediction context ;;
     from_goals <- _goal_based_prediction context ;;
     from_deadlines <- _deadline_based_prediction context ;;
     let predictions := [from_patterns; from_calendar; from_goals; from_deadlines] in
     let combined_tasks := _combine_predictions predictions in
     ranked_tasks <- _rank_by_importance combined_tasks context ;;
     auto_created <- auto_create_loop user_id (firstn 3 ranked_tasks) [] ;;
     _cache_predictions user_id ranked_tasks ;;;
     ret {| PredictionRun.auto_created_tasks := auto_created;
            PredictionRun.suggested_tasks := firstn 10 ranked_tasks;
            PredictionRun.prediction_summary :=
              {| PredictionSummary.total_predictions := length ranked_tasks;
                 PredictionSummary.high_confidence_count :=
                   length (List.filter (fun t => Qlt_bool 0.8 (Prediction.confidence t))
                             ranked_tasks);
                 PredictionSummary.sources_used :=
                   distinct_sources (map Prediction.source ranked_tasks) |} |})
    (fun e => raise e).

(** *** [get_cached_predictions] *)

(** What is returned stands for the [json.loads] of what was cached; the
    empty list is [CachedPredictions []]. *)
Definition get_cached_predictions (user_id : string) : M CacheValue :=
  client <- gets redis ;;
  match client with
  | Some store =>
      catch
        (cached <- redis_get store ("predictions:" ++ user_id)%string ;;
         match cached with
         | Some value => ret value
         | None => ret (CachedPredictions [])
         end)
        (fun e => ret (CachedPredictions []))
  | None => ret (CachedPredictions [])
  end.

End PredictiveTaskService.

(** * Specification-side definitions and sample inputs *)

Module Spec.
Import Py Runtime.

(** Keys never increase along the list. *)
Definition descending {A : Type} (key : A -> Q) (l : list A) : Prop :=
  StronglySorted (fun a b => (key b <= key a)%Q) l.

(** The interruption rate over all the sessions of the window. *)
Definition interrupted_fraction (sessions : list PomodoroSession.t) : Q :=
  (inject_Z (Z.of_nat (length (List.filter (fun s => truthy (PomodoroSession.interrupted s))
                                 sessions)))
   / inject_Z (Z.of_nat (length sessions)))%Q.

(** A session completed at the given hour of day 738100 (a Sunday). *)
Definition session_at (hour : nat) (score : Q) (interrupted : bool) : PomodoroSession.t :=
  {| PomodoroSession.focus_score := Some score;
     PomodoroSession.interrupted := Some interrupted;
     PomodoroSession.completed_at := Some (combine 738100 hour) |}.

(** A world whose store answers the session query with [sessions] and has
    nothing else, whose database sessions fail as [faults] says, whose cache
    is empty and healthy, and whose clock starts at 8:00 on day 738107 (a
    Sunday) and advances by a microsecond at every reading. *)
Definition world_with (sessions : list PomodoroSession.t) (faults : list bool) : World :=
  {| clock := fun n => (combine 738107 8 + Z.of_nat n)%Z;
     clock_reads := 0;
     db_faults := faults;
     completed_sessions := fun _ _ => sessions;
     completed_tasks := fun _ _ => [];
     open_tasks := fun _ _ _ => [];
     recent_task_rows := fun _ _ => [];
     analytics := fun _ => None;
     inserted_tasks := [];
     next_task_id := 1;
     redis := Some ∅;
     redis_faults := [] |}.

(** Scenario A: the hourly average focus scores. *)
Definition scenario_A (hour : nat) : Q :=
  if (hour =? 10)%nat then 0.9 else if (hour =? 11)%nat then 0.95 else 0.5.

(** The sessions of a window have the hourly averages of scenario A. *)
Definition has_scenario_A (sessions : list PomodoroSession.t) : Prop :=
  forall hour, (hour < 24)%nat ->
    (HourStats.avg_focus_score
       (AutoSchedulingService.hour_stats (AutoSchedulingService.hourly_data_of sessions) hour)
     == scenario_A hour)%Q.

(** The hourly table of scenario A. *)
Definition scenario_A_table : list (nat * HourStats.t) :=
  map (fun hour => (hour, {| HourStats.avg_focus_score := scenario_A hour;
                             HourStats.avg_completion_rate := 0.5;
                             HourStats.interruption_rate := 0.5;
                             HourStats.session_count := 0 |})) (seq 0 24).

(** Sessions that realise scenario A: one at hour 10 and one at hour 11;
    the other hours have no session and get the default 0.5. *)
Definition scenario_A_sessions : list PomodoroSession.t :=
  [ session_at 10 0.9 false; session_at 11 0.95 true ].

(** Two hourly tables with the same hours and equal average focus
    scores. *)
Definition same_scores : list (nat * HourStats.t) -> list (nat * HourStats.t) -> Prop :=
  Forall2 (fun a b => fst a = fst b
                      /\ (HourStats.avg_focus_score (snd a)
                          == HourStats.avg_focus_score (snd b))%Q).

Definition same_ranking : list (nat * Q) -> list (nat * Q) -> Prop :=
  Forall2 (fun a b => fst a = fst b /\ (snd a == snd b)%Q).

Definition same_block (b b' : FocusBlock.t) : Prop :=
  FocusBlock.start_hour b = FocusBlock.start_hour b'
  /\ FocusBlock.end_hour b = FocusBlock.end_hour b'
  /\ (FocusBlock.productivity_score b == FocusBlock.productivity_score b')%Q
  /\ FocusBlock.focus_quality b = FocusBlock.focus_quality b'.

(** What the generators of the scheduling service produce: each kind of
    candidate comes with fixed confidence and impact, and a focus block
    always has a duration. *)
Definition generated (o : ScheduleOptimization.t) : Prop :=
  (ScheduleOptimization.optimization_type o = BLOCK_FOCUS_TIME
   /\ ScheduleOptimization.confidence o = 0.9%Q
   /\ ScheduleOptimization.impact_score o = 0.8%Q
   /\ ScheduleOptimization.duration o <> None)
  \/ (ScheduleOptimization.optimization_type o = RESCHEDULE_LOW_ENERGY_TASKS
      /\ ScheduleOptimization.confidence o = 0.85%Q
      /\ ScheduleOptimization.impact_score o = 0.7%Q)
  \/ (ScheduleOptimization.optimization_type o = MOVE_MEETING_FROM_PEAK_FOCUS
      /\ ScheduleOptimization.confidence o = 0.8%Q
      /\ ScheduleOptimization.impact_score o = 0.6%Q)
  \/ (ScheduleOptimization.optimization_type o = CONSOLIDATE_MEETINGS
      /\ ScheduleOptimization.confidence o = 0.7%Q
      /\ ScheduleOptimization.impact_score o = 0.5%Q).

(** The candidates of a ranked list that are selected for execution, when
    [executed_count] candidates were executed before: those that pass the
    confidence and impact gates while fewer than five were executed. *)
Fixpoint selected_from (executed_count : nat) (ranked : list ScheduleOptimization.t)
  : list ScheduleOptimization.t :=
  match ranked with
  | [] => []
  | opportunity :: later =>
      if AutoSchedulingService.gate opportunity executed_count
      then opportunity :: selected_from (S executed_count) later
      else selected_from executed_count later
  end.

(** [result] is what executing [opportunity] returned, in some state of the
    world. *)
Definition executed_as (self : AutoSchedulingService.Self) (user_id : string)
    (opportunity : ScheduleOptimization.t) (result : ExecResult.t) : Prop :=
  exists w w',
    AutoSchedulingService._execute_optimization self user_id opportunity w = (Ok result, w').

(** [ranked] is what the generators and the ranking returned, in some state
    of the world, for some schedule and pattern. *)
Definition ranked_by_the_service (ranked : list ScheduleOptimization.t) : Prop :=
  exists schedule patterns w w',
    AutoSchedulingService._identify_optimization_opportunities schedule patterns w
    = (Ok ranked, w').

(** The focus minutes of a result can be summed up (they are not
    [None]). *)
Definition minutes_known (result : ExecResult.t) : Prop :=
  is_ok (AutoSchedulingService.focus_minutes result) = true.

(** Both gates of a candidate. *)
Definition passes (o : ScheduleOptimization.t) : bool :=
  Qlt_bool 0.8 (ScheduleOptimization.confidence o)
  && Qlt_bool 0.6 (ScheduleOptimization.impact_score o).

(** [m] leaves the committed task rows as they are. *)
Definition preserves_rows {A : Type} (m : M A) : Prop :=
  forall w, inserted_tasks (snd (m w)) = inserted_tasks w.

(** [m] commits at most [n] new task rows, each satisfying [P], and
    changes no earlier row. *)
Definition inserts {A : Type} (n : nat) (P : Task.t -> Prop) (m : M A) : Prop :=
  forall w, exists rows,
    inserted_tasks (snd (m w)) = inserted_tasks w ++ rows
    /\ (length rows <= n)%nat
    /\ Forall P rows.

(** The row was planned with at least one pomodoro. *)
Definition at_least_one_pomodoro (row : Task.t) : Prop :=
  exists n, Task.estimated_pomodoros row = Some n /\ (1 <= n)%Z.



(** A candidate that blocks two hours of focus time. *)
Definition focus_block_candidate : ScheduleOptimization.t :=
  {| ScheduleOptimization.optimization_type := BLOCK_FOCUS_TIME;
     ScheduleOptimization.title := "Block focus time 10:00-12:00";
     ScheduleOptimization.description :=
       "Create dedicated focus block during high-productivity time";
     ScheduleOptimization.confidence := 0.9;
     ScheduleOptimization.impact_score := 0.8;
     ScheduleOptimization.original_time := None;
     ScheduleOptimization.suggested_time := Some (combine 738107 10);
     ScheduleOptimization.duration := Some 120%Z;
     ScheduleOptimization.reasoning := "High productivity period (0.93 score)";
     ScheduleOptimization.meeting_id := None;
     ScheduleOptimization.task_id := None |}.

(** A prediction dict with the given title, duration and confidence. *)
Definition prediction_of (title : string) (estimated_duration : option Z) (confidence : Q)
  : Prediction.t :=
  {| Prediction.title := title;
     Prediction.description := "Send summary and action items to participants";
     Prediction.estimated_duration := estimated_duration;
     Prediction.confidence := confidence;
     Prediction.source := CALENDAR_BASED;
     Prediction.priority := Some "medium";
     Prediction.due_date := None;
     Prediction.category := "work";
     Prediction.reasoning := Some "Client meetings typically require follow-up";
     Prediction.dependencies := [];
     Prediction.importance_score := None |}.





(** Deduplication of the specification: a candidate is dropped exactly when
    its key is among the keys of the candidates merged before it. *)
Fixpoint first_occurrences (earlier : list string) (merged : list Prediction.t)
  : list Prediction.t :=
  match merged with
  | [] => []
  | pred :: later =>
      (if bool_decide (PredictiveTaskService.title_key pred ∈ earlier) then [] else [pred])
        ++ first_occurrences (earlier ++ [PredictiveTaskService.title_key pred]) later
  end.

(** [patterns.hourly_productivity[h]['avg_focus_score']] *)
Definition hour_score (patterns : ProductivityPattern.t) (h : nat) : Outcome Q :=
  obind (getitem (ProductivityPattern.hourly_productivity patterns) h)
    (fun data => Ok (HourStats.avg_focus_score data)).

(** The block, moved to another start time. *)
Definition moved_to (block : ScheduleBlock.t) (t : datetime) : ScheduleBlock.t :=
  {| ScheduleBlock.start_time := t;
     ScheduleBlock.end_time := ScheduleBlock.end_time block;
     ScheduleBlock.title := ScheduleBlock.title block;
     ScheduleBlock.block_type := ScheduleBlock.block_type block;
     ScheduleBlock.moveable := ScheduleBlock.moveable block;
     ScheduleBlock.importance := ScheduleBlock.importance block;
     ScheduleBlock.energy_requirement := ScheduleBlock.energy_requirement block |}.

(** The working hours that are not peak hours. *)
Definition non_peak_working_hours (patterns : ProductivityPattern.t) : list nat :=
  List.filter (fun h => negb (mem_nat h (ProductivityPattern.peak_hours patterns)))
    AutoSchedulingService.working_hours.

(** The hour [h] has a score, and it compares to [s] as [R] says. *)
Definition scores_as (patterns : ProductivityPattern.t) (R : Q -> Prop) (h : nat) : Prop :=
  exists s, hour_score patterns h = Ok s /\ R s.


Definition deep_work : ScheduleBlock.t :=
  {| ScheduleBlock.start_time := combine 738108 14;
     ScheduleBlock.end_time := (combine 738108 14 + timedelta 0 2 0)%Z;
     ScheduleBlock.title := "Deep Work Session";
     ScheduleBlock.block_type := "task";
     ScheduleBlock.moveable := true;
     ScheduleBlock.importance := 0.9;
     ScheduleBlock.energy_requirement := 0.9 |}.

(** The candidate [o] proposes to move [block] to another hour of the same
    day: a high-energy task from a low-energy hour to a peak hour, or a
    meeting from a peak hour to a working hour that is not a peak hour. *)
Definition proposes_move (patterns : ProductivityPattern.t) (block : ScheduleBlock.t)
    (o : ScheduleOptimization.t) : Prop :=
  ScheduleBlock.moveable block = true
  /\ ScheduleOptimization.title o = ("Reschedule " ++ ScheduleBlock.title block)%string
  /\ ScheduleOptimization.original_time o = Some (ScheduleBlock.start_time block)
  /\ exists t,
       ScheduleOptimization.suggested_time o = Some t
       /\ date_of t = date_of (ScheduleBlock.start_time block)
       /\ hour_of t <> hour_of (ScheduleBlock.start_time block)
       /\ (t - ScheduleBlock.start_time block
           = (Z.of_nat (hour_of t) - Z.of_nat (hour_of (ScheduleBlock.start_time block)))
             * us_per_hour)%Z
       /\ ((ScheduleOptimization.optimization_type o = RESCHEDULE_LOW_ENERGY_TASKS
            /\ ScheduleBlock.block_type block = "task"
            /\ (0.7 < ScheduleBlock.energy_requirement block)%Q
            /\ In (hour_of (ScheduleBlock.start_time block))
                 (ProductivityPattern.low_energy_hours patterns)
            /\ In (hour_of t) (ProductivityPattern.peak_hours patterns))
           \/ (ScheduleOptimization.optimization_type o = MOVE_MEETING_FROM_PEAK_FOCUS
               /\ ScheduleBlock.block_type block = "meeting"
               /\ (ScheduleBlock.importance block < 0.9)%Q
               /\ In (hour_of (ScheduleBlock.start_time block))
                    (ProductivityPattern.peak_hours patterns)
               /\ In (hour_of t) (non_peak_working_hours patterns))).

(** Sessions with an excellent hour 12 and a poor hour 14: noon becomes a
    peak hour and 14:00 a low-energy hour. *)
Definition busy_sessions : list PomodoroSession.t :=
  [ session_at 12 0.9 false; session_at 14 0.1 false ].

(** A pattern that the aggregator returns: the default one, or one
    computed from sessions. *)
Definition from_the_aggregator (patterns : ProductivityPattern.t) : Prop :=
  patterns = AutoSchedulingService.default_patterns
  \/ exists sessions, patterns = AutoSchedulingService.analyze sessions.

(** The hourly table has an entry for each of the 24 hours, there is a peak
    hour, the peak hours are hours of the day, and every focus window
    spans two hours within the day. *)
Definition well_formed (patterns : ProductivityPattern.t) : Prop :=
  (forall h, (h < 24)%nat -> is_ok (hour_score patterns h) = true)
  /\ ProductivityPattern.peak_hours patterns <> []
  /\ Forall (fun h => (h < 24)%nat) (ProductivityPattern.peak_hours patterns)
  /\ Forall (fun b => (FocusBlock.start_hour b < 22)%nat
                      /\ FocusBlock.end_hour b = (FocusBlock.start_hour b + 2)%nat)
       (ProductivityPattern.optimal_focus_blocks patterns).

(** [m] leaves the clock as it is (it may read it). *)
Definition keeps_clock {A : Type} (m : M A) : Prop :=
  forall w, clock (snd (m w)) = clock w.

(** The blocks of the schedule that are in the way of a focus window:
    moveable, of importance below 0.7, and starting at an hour of the
    window (on any day). *)
Definition conflicts_with (b : FocusBlock.t) (schedule : list ScheduleBlock.t)
  : list ScheduleBlock.t :=
  List.filter
    (fun block =>
       (FocusBlock.start_hour b <=? hour_of (ScheduleBlock.start_time block))%nat
       && (hour_of (ScheduleBlock.start_time block) <? FocusBlock.end_hour b)%nat
       && ScheduleBlock.moveable block
       && Qlt_bool (ScheduleBlock.importance block) 0.7)
    schedule.

(** The focus windows of the pattern with at most one block in the way. *)
Definition free_windows (patterns : ProductivityPattern.t) (schedule : list ScheduleBlock.t)
  : list FocusBlock.t :=
  List.filter (fun b => (length (conflicts_with b schedule) <=? 1)%nat)
    (ProductivityPattern.optimal_focus_blocks patterns).

(** The candidate [o] blocks the focus window [b], from its first hour, on
    the day of an instant read from the clock [c]. *)
Definition blocks_window (c : nat -> datetime) (b : FocusBlock.t)
    (o : ScheduleOptimization.t) : Prop :=
  ScheduleOptimization.optimization_type o = BLOCK_FOCUS_TIME
  /\ ScheduleOptimization.title o
     = ("Block focus time " ++ pretty (FocusBlock.start_hour b) ++ ":00-"
          ++ pretty (FocusBlock.end_hour b) ++ ":00")%string
  /\ ScheduleOptimization.original_time o = None
  /\ ScheduleOptimization.duration o
     = Some ((Z.of_nat (FocusBlock.end_hour b) - Z.of_nat (FocusBlock.start_hour b)) * 60)%Z
  /\ exists n,
       ScheduleOptimization.suggested_time o
       = Some (combine (date_of (c n)) (FocusBlock.start_hour b)).

(** The days that the loop of [_get_current_schedule] visits. *)
Definition days_of (date_range : datetime * datetime) : list Z :=
  AutoSchedulingService.days_from_to (date_of (fst date_range)) (date_of (snd date_range)).

(** The sample blocks of the days of the list. *)
Definition sample_schedule (days : list Z) : list ScheduleBlock.t :=
  flat_map AutoSchedulingService.sample_day days.

(** An instant between 0001-01-01 and the end of 9999-12-31. *)
Definition representable (t : datetime) : Prop :=
  (0 <= t < (max_day + 1) * us_per_day)%Z.

(** The task can be put on the schedule: it has no due date (and is then
    left out), or it has an estimate, and its block, which starts two hours
    before the due date and lasts 25 minutes for each pomodoro, begins and
    ends at representable instants. *)
Definition schedulable (task : Task.t) : Prop :=
  Task.due_date task = None
  \/ exists due pomodoros,
       Task.due_date task = Some due
       /\ Task.estimated_pomodoros task = Some pomodoros
       /\ representable (due - timedelta 0 2 0)%Z
       /\ representable (due - timedelta 0 2 0 + timedelta 0 0 (pomodoros * 25))%Z.

(** The block of a task of the store, as [_get_current_schedule] builds
    it. *)
Definition built_from_a_task (b : ScheduleBlock.t) : Prop :=
  exists task, AutoSchedulingService.task_block task = Ok [b].

(** An open task of the store, due on day 738108 at 17:00, with the given
    estimate. *)
Definition open_task (title : string) (estimated_pomodoros : option Z) : Task.t :=
  {| Task.id := 7;
     Task.user_id := 1;
     Task.title := title;
     Task.description := None;
     Task.status := Some "pending";
     Task.priority := Some "medium";
     Task.estimated_pomodoros := estimated_pomodoros;
     Task.completed_pomodoros := Some 0%Z;
     Task.created_at := Some (combine 738100 9);
     Task.updated_at := Some (combine 738100 9);
     Task.due_date := Some (combine 738108 17) |}.

(** A world like [world_with [] []] whose store answers the query for open
    tasks with [tasks]. *)
Definition world_with_tasks (tasks : list Task.t) : World :=
  {| clock := fun n => (combine 738107 8 + Z.of_nat n)%Z;
     clock_reads := 0;
     db_faults := [];
     completed_sessions := fun _ _ => [];
     completed_tasks := fun _ _ => [];
     open_tasks := fun _ _ _ => tasks;
     recent_task_rows := fun _ _ => [];
     analytics := fun _ => None;
     inserted_tasks := [];
     next_task_id := 1;
     redis := Some ∅;
     redis_faults := [] |}.

(** The range of Monday, day 738108. *)
Definition monday : datetime * datetime := (combine 738108 0, combine 738108 23).

(** What a run of the service can propose, with the clock [c]: a two-hour
    focus block on the day of a reading of the clock, another hour for the
    sample deep-work session of a weekday, or another hour for the sample
    lunch meeting of a weekday. *)
Definition run_candidate (c : nat -> datetime) (o : ScheduleOptimization.t) : Prop :=
  (exists b,
      blocks_window c b o
      /\ ScheduleOptimization.duration o = Some 120%Z
      /\ (FocusBlock.start_hour b < 22)%nat)
  \/ (ScheduleOptimization.optimization_type o = RESCHEDULE_LOW_ENERGY_TASKS
      /\ ScheduleOptimization.title o = "Reschedule Deep Work Session"
      /\ exists d t,
           (weekday d < 5)%Z
           /\ ScheduleOptimization.original_time o = Some (combine d 14)
           /\ ScheduleOptimization.suggested_time o = Some t
           /\ date_of t = d /\ hour_of t <> 14%nat)
  \/ (ScheduleOptimization.optimization_type o = MOVE_MEETING_FROM_PEAK_FOCUS
      /\ ScheduleOptimization.title o = "Reschedule Client Lunch Meeting"
      /\ exists d t,
           (weekday d < 5)%Z
           /\ ScheduleOptimization.original_time o = Some (combine d 12)
           /\ ScheduleOptimization.suggested_time o = Some t
           /\ date_of t = d /\ hour_of t <> 12%nat
           /\ (9 <= hour_of t < 18)%nat).

(** The sample lunch meeting of a day. *)
Definition lunch_of (d : Z) : ScheduleBlock.t :=
  {| ScheduleBlock.start_time := combine d 12;
     ScheduleBlock.end_time := (combine d 12 + timedelta 0 1 0)%Z;
     ScheduleBlock.title := "Client Lunch Meeting";
     ScheduleBlock.block_type := "meeting";
     ScheduleBlock.moveable := true;
     ScheduleBlock.importance := 0.8;
     ScheduleBlock.energy_requirement := 0.7 |}.

(** The filter of [_identify_meeting_consolidation]. *)
Definition moveable_meeting (block : ScheduleBlock.t) : bool :=
  bool_decide (ScheduleBlock.block_type block = "meeting") && ScheduleBlock.moveable block.


(** The result has the status 'created'. *)
Definition created (result : ExecResult.t) : bool :=
  bool_decide (ExecResult.status result = "created").










(** The prediction was given a score of at most 1. *)
Definition scored (pred : Prediction.t) : Prop :=
  exists s, Prediction.importance_score pred = Some s /\ (s <= 1)%Q.

(** [ranked] is [pred] with a score. *)
Definition scored_from (pred ranked : Prediction.t) : Prop :=
  exists s, ranked = PredictiveTaskService.with_importance pred s /\ (s <= 1)%Q.

(** The prediction is confident enough to be created automatically. *)
Definition confident (pred : Prediction.t) : bool :=
  Qlt_bool 0.85 (Prediction.confidence pred).

(** The created task that a run reports for a prediction. *)
Definition created_from (pred : Prediction.t) (task : CreatedTask.t) : Prop :=
  CreatedTask.title task = Prediction.title pred
  /\ CreatedTask.confidence task = Prediction.confidence pred
  /\ CreatedTask.source task = Prediction.source pred
  /\ CreatedTask.auto_created task = true.

(** The row committed for a prediction and reported as a created task. *)
Definition row_for (pred : Prediction.t) (task : CreatedTask.t) (row : Task.t) : Prop :=
  Task.id row = CreatedTask.id task
  /\ Task.title row = Prediction.title pred
  /\ Task.description row = CreatedTask.description task
  /\ Task.status row = Some "pending"
  /\ Task.priority row = Some (default "medium" (Prediction.priority pred))
  /\ Task.estimated_pomodoros row
     = Some (PredictiveTaskService.estimated_pomodoros_of pred)
  /\ Task.completed_pomodoros row = Some 0%Z
  /\ Task.created_at row = Some (CreatedTask.created_at task)
  /\ Task.due_date row = Prediction.due_date pred.

(** [m] leaves the cache and its pending faults as they are. *)
Definition keeps_cache {A : Type} (m : M A) : Prop :=
  forall w, redis (snd (m w)) = redis w /\ redis_faults (snd (m w)) = redis_faults w.

(** The service has a cache client and no cache operation is going to
    fail. *)
Definition healthy_cache (w : World) : Prop :=
  redis w <> None /\ redis_faults w = [].





(** A recent task that is not completed and was created more than three
    whole days before [now]. *)
Definition stale (now : datetime) (task : TaskDict.t) : bool :=
  negb (bool_decide (TaskDict.status task = Some "completed"))
  && (3 <? days_between now (TaskDict.created_at task))%Z.

(** The prediction that follows up a task. *)
Definition follows_up (task : TaskDict.t) (prediction : PredictedTask.t) : Prop :=
  PredictedTask.title prediction = ("Follow up: " ++ TaskDict.title task)%string
  /\ PredictedTask.confidence prediction = 0.6%Q
  /\ PredictedTask.source prediction = PATTERN_BASED
  /\ PredictedTask.priority prediction = "medium"
  /\ PredictedTask.due_date prediction = None
  /\ exists pomodoros,
       TaskDict.estimated_pomodoros task = Some pomodoros
       /\ PredictedTask.estimated_duration prediction = (pomodoros * 25)%Z.

(** A context with the given recent tasks, goals, deadlines and calendar
    events, at 8:00 on a Sunday. *)
Definition context_of (recent : list TaskDict.t) (goals : list Goal.t)
    (deadlines : list Deadline.t) (events : list CalendarEvent.t) : PredictionContext.t :=
  {| PredictionContext.user_id := "1";
     PredictionContext.historical_patterns := PredictiveTaskService._analyze_user_patterns;
     PredictionContext.calendar_events := events;
     PredictionContext.active_projects := [];
     PredictionContext.current_goals := goals;
     PredictionContext.recent_tasks := recent;
     PredictionContext.productivity_trends := None;
     PredictionContext.time_of_day := "morning";
     PredictionContext.day_of_week := "Sunday";
     PredictionContext.upcoming_deadlines := deadlines |}.

(** A pending recent task created on day 738100, with the given
    estimate. *)
Definition old_task (title : string) (estimated_pomodoros : option Z) : TaskDict.t :=
  {| TaskDict.id := 11;
     TaskDict.title := title;
     TaskDict.description := None;
     TaskDict.status := Some "pending";
     TaskDict.priority := None;
     TaskDict.estimated_pomodoros := estimated_pomodoros;
     TaskDict.created_at := combine 738100 9;
     TaskDict.due_date := None |}.










End Spec.

(** * Properties *)

Import Py Runtime Spec.

(** ** The stable descending sort *)

Section SortFacts.
Context {A : Type} (key : A -> Q).

Lemma insert_desc_perm (x : A) (l : list A) : Permutation (x :: l) (insert_desc key x l).
Proof.
  induction l as [|y r IH]; simpl; [reflexivity|].
  destruct (Qle_bool (key y) (key x)); [reflexivity|].
  rewrite <- IH. apply perm_swap.
Qed.

Lemma sort_desc_perm (l : list A) : Permutation l (sort_desc key l).
Proof.
  induction l as [|x r IH]; simpl; [reflexivity|].
  rewrite <- insert_desc_perm. now constructor.
Qed.

Lemma sort_desc_length (l : list A) : length (sort_desc key l) = length l.
Proof. symmetry. apply Permutation_length, sort_desc_perm. Qed.

Lemma sort_desc_Forall (P : A -> Prop) (l : list A) :
  Forall P l -> Forall P (sort_desc key l).
Proof. intros H. eapply Permutation_Forall; [apply sort_desc_perm|exact H]. Qed.

Lemma insert_desc_sorted (x : A) (l : list A) :
  descending key l -> descending key (insert_desc key x l).
Proof.
  induction 1 as [|y r Hr IH Hy]; simpl.
  - repeat constructor.
  - destruct (Qle_bool (key y) (key x)) eqn:E.
    + apply Qle_bool_iff in E. constructor; [now constructor|].
      constructor; [exact E|].
      eapply List.Forall_impl; [|exact Hy]. intros z Hz. simpl in Hz.
      eapply Qle_trans; eassumption.
    + constructor; [exact IH|].
      eapply Permutation_Forall; [apply insert_desc_perm|].
      constructor; [|exact Hy].
      destruct (Qlt_le_dec (key y) (key x)) as [Hlt|Hle]; [|exact Hle].
      apply Qlt_le_weak in Hlt. apply Qle_bool_iff in Hlt. congruence.
Qed.

Lemma sort_desc_sorted (l : list A) : descending key (sort_desc key l).
Proof.
  induction l as [|x r IH]; simpl; [constructor|].
  now apply insert_desc_sorted.
Qed.

(** Stability: among the elements whose key is [k], the order of the input
    is kept. *)
Lemma insert_desc_filter (k : Q) (x : A) (l : list A) :
  List.filter (fun a => Qeq_bool (key a) k) (insert_desc key x l)
  = List.filter (fun a => Qeq_bool (key a) k) (x :: l).
Proof.
  induction l as [|y r IH]; [reflexivity|].
  simpl insert_desc. destruct (Qle_bool (key y) (key x)) eqn:E; [reflexivity|].
  simpl. rewrite IH. simpl.
  destruct (Qeq_bool (key x) k) eqn:Ex, (Qeq_bool (key y) k) eqn:Ey; try reflexivity.
  apply Qeq_bool_iff in Ex, Ey.
  assert (Hle : (key y <= key x)%Q) by (rewrite Ex, Ey; apply Qle_refl).
  apply Qle_bool_iff in Hle. congruence.
Qed.

Lemma sort_desc_stable (k : Q) (l : list A) :
  List.filter (fun a => Qeq_bool (key a) k) (sort_desc key l)
  = List.filter (fun a => Qeq_bool (key a) k) l.
Proof.
  induction l as [|x r IH]; [reflexivity|].
  simpl sort_desc. rewrite insert_desc_filter. simpl. now rewrite IH.
Qed.

End SortFacts.

(** Sorting two lists whose elements correspond, with equal keys, gives
    lists whose elements correspond. *)
Lemma sort_desc_Forall2 {A B : Type} (keyA : A -> Q) (keyB : B -> Q) (R : A -> B -> Prop)
    (HR : forall a b, R a b -> (keyA a == keyB b)%Q) (l : list A) (l' : list B) :
  Forall2 R l l' -> Forall2 R (sort_desc keyA l) (sort_desc keyB l').
Proof.
  induction 1 as [|x x' r r' Hx Hr IH]; simpl; [constructor|].
  clear Hr. revert IH. generalize (sort_desc keyA r) (sort_desc keyB r').
  intros s s' Hs. induction Hs as [|y y' t t' Hy Ht IHt]; simpl.
  - repeat constructor; exact Hx.
  - rewrite (Qleb_comp _ _ (HR _ _ Hy) _ _ (HR _ _ Hx)).
    destruct (Qle_bool (keyB y') (keyB x')).
    + repeat constructor; assumption.
    + constructor; assumption.
Qed.

(** ** The monad *)

Section MonadFacts.
Context {A B : Type}.

Lemma bind_ok (m : M A) (k : A -> M B) (w w' : World) (a : A) :
  m w = (Ok a, w') -> bind m k w = k a w'.
Proof. unfold bind. now intros ->. Qed.

Lemma bind_raised (m : M A) (k : A -> M B) (w w' : World) (e : string) :
  m w = (Raised e, w') -> bind m k w = (Raised e, w').
Proof. unfold bind. now intros ->. Qed.

Lemma catch_ok (m : M A) (h : string -> M A) (w w' : World) (a : A) :
  m w = (Ok a, w') -> catch m h w = (Ok a, w').
Proof. unfold catch. now intros ->. Qed.


(** A handler that re-raises changes nothing. *)
Lemma catch_reraise (m : M A) (w : World) : catch m (fun e => raise e) w = m w.
Proof. unfold catch, raise. destruct (m w) as [[a|e] w']; reflexivity. Qed.

(** A handler that returns a value makes the block total. *)
Lemma catch_total (m : M A) (d : string -> A) (w : World) :
  exists a w', catch m (fun e => ret (d e)) w = (Ok a, w').
Proof. unfold catch, ret. destruct (m w) as [[a|e] w']; eauto. Qed.

End MonadFacts.

(** ** The productivity pattern *)

Section PatternFacts.
Import AutoSchedulingService.

Lemma hourly_productivity_hours (sessions : list PomodoroSession.t) :
  map fst (hourly_productivity_of sessions) = seq 0 24.
Proof. unfold hourly_productivity_of. rewrite map_map. simpl. reflexivity. Qed.

Lemma hourly_scores_hours (sessions : list PomodoroSession.t) :
  Permutation (seq 0 24)
    (map fst (hourly_scores_of (hourly_productivity_of sessions))).
Proof.
  unfold hourly_scores_of.
  rewrite <- (sort_desc_perm snd).
  rewrite map_map.
  erewrite map_ext; [rewrite hourly_productivity_hours; reflexivity|].
  now intros [hour data].
Qed.

(** The first and the last six of twenty-four distinct values have nothing
    in common. *)
Lemma quartiles_disjoint (hours : list nat) (h : nat) :
  NoDup hours -> length hours = 24 ->
  In h (firstn 6 hours) -> In h (skipn 18 hours) -> False.
Proof.
  intros Hnd Hlen Hfirst Hlast.
  rewrite <- (firstn_skipn 6 hours) in Hnd.
  apply NoDup_app in Hnd as (_ & Hdis & _).
  apply (Hdis h).
  - apply list_elem_of_In. exact Hfirst.
  - apply list_elem_of_In.
    replace 18 with (12 + 6) in Hlast by reflexivity.
    rewrite <- skipn_skipn in Hlast.
    rewrite <- (firstn_skipn 12 (skipn 6 hours)). apply in_or_app. now right.
Qed.

Lemma quartiles_of_analyze (sessions : list PomodoroSession.t) :
  let hours := map fst (hourly_scores_of (hourly_productivity_of sessions)) in
  ProductivityPattern.peak_hours (analyze sessions) = firstn 6 hours
  /\ ProductivityPattern.low_energy_hours (analyze sessions) = skipn 18 hours
  /\ NoDup hours /\ length hours = 24.
Proof.
  intros hours.
  assert (Hperm : Permutation (seq 0 24) hours) by apply hourly_scores_hours.
  assert (Hlen : length hours = 24) by (rewrite <- Hperm; reflexivity).
  assert (Hlen' : length (hourly_scores_of (hourly_productivity_of sessions)) = 24)
    by (unfold hours in Hlen; now rewrite length_map in Hlen).
  repeat split.
  - unfold analyze; cbn [ProductivityPattern.peak_hours].
    unfold peak_hours_of. rewrite Hlen'.
    change (24 / 4)%nat with 6. unfold hours. now rewrite firstn_map.
  - unfold analyze; cbn [ProductivityPattern.low_energy_hours].
    unfold low_energy_hours_of. rewrite Hlen'.
    change (24 / 4)%nat with 6. unfold last_n. rewrite Hlen'.
    change (24 - 6)%nat with 18. unfold hours. now rewrite skipn_map.
  - rewrite <- Hperm. apply NoDup_seq.
  - exact Hlen.
Qed.

(** The aggregator always returns: the pattern of the sessions that the
    store answered, or the default pattern. *)
Lemma _get_productivity_patterns_cases (user_id : string) (w : World) :
  match db_faults w with
  | true :: _ =>
      exists w', _get_productivity_patterns user_id w = (Ok default_patterns, w')
  | _ =>
      exists w',
        _get_productivity_patterns user_id w
        = (Ok (analyze (completed_sessions w user_id
                          (clock w (clock_reads w) - timedelta 90 0 0)%Z)), w')
  end.
Proof.
  unfold _get_productivity_patterns, catch, bind, get_db, datetime_now, gets, ret.
  destruct (db_faults w) as [|[|] f]; eexists; reflexivity.
Qed.

End PatternFacts.

Section PatternClaims.
Import AutoSchedulingService.

(** C9.  Whatever the store answers, the aggregator returns a pattern, and
    it is either the pattern computed from the returned sessions or the
    fixed default pattern.  In both, no hour is at once a peak hour and a
    low-energy hour; in the computed pattern each of the two lists holds
    exactly six distinct hours of the day. *)
Theorem peak_and_low_energy_hours_disjoint :
  (forall sessions : list PomodoroSession.t,
      let p := analyze sessions in
      (forall h, In h (ProductivityPattern.peak_hours p) ->
                 ~ In h (ProductivityPattern.low_energy_hours p))
      /\ length (ProductivityPattern.peak_hours p) = 6
      /\ length (ProductivityPattern.low_energy_hours p) = 6
      /\ NoDup (ProductivityPattern.peak_hours p)
      /\ NoDup (ProductivityPattern.low_energy_hours p)
      /\ Forall (fun h => h < 24)
           (ProductivityPattern.peak_hours p ++ ProductivityPattern.low_energy_hours p))
  /\ (forall h, In h (ProductivityPattern.peak_hours default_patterns) ->
                ~ In h (ProductivityPattern.low_energy_hours default_patterns))
  /\ (forall (user_id : string) (w : World),
         exists p w',
           _get_productivity_patterns user_id w = (Ok p, w')
           /\ (p = default_patterns \/ exists sessions, p = analyze sessions)).
Proof.
  split; [|split].
  - intros sessions p.
    destruct (quartiles_of_analyze sessions) as (Hpeak & Hlow & Hnd & Hlen).
    fold p in Hpeak, Hlow. rewrite Hpeak, Hlow.
    set (hours := map fst (hourly_scores_of (hourly_productivity_of sessions))) in *.
    assert (Hall : Forall (fun h => h < 24) hours).
    { unfold hours. rewrite <- hourly_scores_hours.
      apply List.Forall_forall. intros h Hh. apply in_seq in Hh. lia. }
    clearbody hours. repeat split.
    + intros h H1 H2. exact (quartiles_disjoint hours h Hnd Hlen H1 H2).
    + rewrite length_firstn. lia.
    + rewrite length_skipn. lia.
    + rewrite <- (firstn_skipn 6 hours) in Hnd. now apply NoDup_app in Hnd.
    + rewrite <- (firstn_skipn 18 hours) in Hnd. now apply NoDup_app in Hnd.
    + apply Forall_app. split.
      * rewrite <- (firstn_skipn 6 hours) in Hall. now apply Forall_app in Hall.
      * rewrite <- (firstn_skipn 18 hours) in Hall. now apply Forall_app in Hall.
  - intros h Hpeak Hlow. cbn in Hpeak, Hlow. intuition lia.
  - intros user_id w.
    pose proof (_get_productivity_patterns_cases user_id w) as H.
    destruct (db_faults w) as [|[|] f]; destruct H as [w' H]; rewrite H; eauto 6.
Qed.

Lemma max2_Qmax (a b : Q) : (max2 a b == Qmax a b)%Q.
Proof.
  unfold max2, Qlt_bool. destruct (Qle_bool b a) eqn:E; simpl.
  - apply Qle_bool_iff in E. symmetry. now apply Q.max_l.
  - symmetry. apply Q.max_r.
    destruct (Qlt_le_dec a b) as [H|H]; [now apply Qlt_le_weak|].
    apply Qle_bool_iff in H. congruence.
Qed.

(** C5, as amended.  The aggregator always returns a pattern.  When the
    database session fails, the pattern is the default one and its
    tolerance is 0.6.  When the session succeeds and the store returns no
    session, the tolerance keeps the value 0.5 that the pattern is
    constructed with.  When it returns at least one session, the tolerance
    is max(0.1, 1 - interruption rate), the rate being taken over all the
    returned sessions. *)
Theorem context_switch_tolerance_by_case (user_id : string) (w : World) :
  let sessions :=
    completed_sessions w user_id (clock w (clock_reads w) - timedelta 90 0 0)%Z in
  exists p w',
    _get_productivity_patterns user_id w = (Ok p, w')
    /\ (head (db_faults w) = Some true ->
        ProductivityPattern.context_switch_tolerance p = 0.6%Q)
    /\ (head (db_faults w) <> Some true -> sessions = [] ->
        ProductivityPattern.context_switch_tolerance p = 0.5%Q)
    /\ (head (db_faults w) <> Some true -> sessions <> [] ->
        (ProductivityPattern.context_switch_tolerance p
         == Qmax 0.1 (1 - interrupted_fraction sessions))%Q).
Proof.
  intros sessions.
  pose proof (_get_productivity_patterns_cases user_id w) as H.
  destruct (db_faults w) as [|[|] f]; destruct H as [w' H]; rewrite H;
    do 2 eexists; (split; [reflexivity|]); fold sessions; cbn [head];
    (repeat split; try congruence).
  all: try (intros _ ->; reflexivity).
  all: intros _ Hne; unfold analyze; cbn [ProductivityPattern.context_switch_tolerance];
    unfold context_switch_tolerance_of; destruct sessions as [|s r]; [congruence|];
    apply max2_Qmax.
Qed.

End PatternClaims.

(** ** Peak hours and focus blocks depend on the hourly averages only *)

Section ScoresOnly.
Import AutoSchedulingService.

Lemma Qlt_bool_comp (a a' b b' : Q) :
  (a == a')%Q -> (b == b')%Q -> Qlt_bool a b = Qlt_bool a' b'.
Proof. intros Ha Hb. unfold Qlt_bool. now rewrite (Qleb_comp _ _ Hb _ _ Ha). Qed.

Lemma hourly_scores_same (hp hp' : list (nat * HourStats.t)) :
  same_scores hp hp' -> same_ranking (hourly_scores_of hp) (hourly_scores_of hp').
Proof.
  intros H. unfold hourly_scores_of.
  apply sort_desc_Forall2; [now intros a b [_ Hs]|].
  induction H as [|[h d] [h' d'] r r' [Hh Hd] _ IH]; simpl; constructor; auto.
Qed.

Lemma same_ranking_hours (l l' : list (nat * Q)) :
  same_ranking l l' -> map fst l = map fst l'.
Proof. induction 1 as [|a b r r' [Hab _] _ IH]; simpl; congruence. Qed.

Lemma peak_hours_same (hp hp' : list (nat * HourStats.t)) :
  same_scores hp hp' ->
  peak_hours_of (hourly_scores_of hp) = peak_hours_of (hourly_scores_of hp')
  /\ low_energy_hours_of (hourly_scores_of hp) = low_energy_hours_of (hourly_scores_of hp').
Proof.
  intros H. apply hourly_scores_same in H.
  pose proof (Forall2_length _ _ _ H) as Hlen.
  pose proof (same_ranking_hours _ _ H) as Hmap.
  unfold peak_hours_of, low_energy_hours_of, last_n. rewrite <- Hlen.
  split.
  - now rewrite <- !firstn_map, Hmap.
  - destruct (length (hourly_scores_of hp) / 4)%nat; [exact Hmap|].
    now rewrite <- !skipn_map, Hmap.
Qed.

Lemma getitem_same (hp hp' : list (nat * HourStats.t)) (k : nat) :
  same_scores hp hp' ->
  match getitem hp k, getitem hp' k with
  | Ok d, Ok d' => (HourStats.avg_focus_score d == HourStats.avg_focus_score d')%Q
  | Raised _, Raised _ => True
  | _, _ => False
  end.
Proof.
  induction 1 as [|[h d] [h' d'] r r' [Hh Hd] _ IH]; simpl; [exact I|].
  simpl in Hh, Hd. subst h'. destruct (h =? k)%nat; [exact Hd|exact IH].
Qed.

Lemma block_score_same (hp hp' : list (nat * HourStats.t)) (start_hour : nat) :
  same_scores hp hp' ->
  (block_score_of hp start_hour == block_score_of hp' start_hour)%Q.
Proof.
  intros H. unfold block_score_of. cbn [seq fold_left].
  pose proof (getitem_same hp hp' start_hour H) as H0.
  pose proof (getitem_same hp hp' (S start_hour) H) as H1.
  destruct (getitem hp start_hour), (getitem hp' start_hour); try contradiction;
    destruct (getitem hp (S start_hour)), (getitem hp' (S start_hour)); try contradiction;
    try rewrite H0; try rewrite H1; reflexivity.
Qed.

Lemma optimal_blocks_same (hp hp' : list (nat * HourStats.t)) :
  same_scores hp hp' ->
  Forall2 same_block (optimal_blocks_of hp) (optimal_blocks_of hp').
Proof.
  intros H. unfold optimal_blocks_of. generalize (seq 0 22).
  induction l as [|start_hour r IH]; simpl; [constructor|].
  apply Forall2_app; [|exact IH].
  assert (Hs : (block_score_of hp start_hour / 2 == block_score_of hp' start_hour / 2)%Q)
    by now rewrite (block_score_same hp hp' start_hour H).
  rewrite (Qlt_bool_comp _ 0.75 _ _ (Qeq_refl _) Hs).
  rewrite (Qlt_bool_comp _ 0.85 _ _ (Qeq_refl _) Hs).
  destruct (Qlt_bool 0.75 (block_score_of hp' start_hour / 2)); constructor; [|constructor].
  repeat split; simpl; [exact Hs].
Qed.

Lemma scenario_A_same_scores (sessions : list PomodoroSession.t) :
  has_scenario_A sessions -> same_scores (hourly_productivity_of sessions) scenario_A_table.
Proof.
  intros H. unfold hourly_productivity_of, scenario_A_table, same_scores.
  assert (Hin : forall hour, In hour (seq 0 24) -> (hour < 24)%nat)
    by (intros hour Hh; apply in_seq in Hh; lia).
  revert Hin. generalize (seq 0 24).
  induction l as [|hour r IH]; intros Hin; simpl; constructor.
  - split; [reflexivity|]. apply H, Hin. now left.
  - apply IH. intros h Hh. apply Hin. now right.
Qed.

End ScoresOnly.

Section ScenarioA.
Import AutoSchedulingService.

(** C4, as amended.  For sessions whose hourly average focus scores are
    0.5 for every hour except hour 10 (0.9) and hour 11 (0.95), the only
    optimal focus block is the window (10, 12), with productivity score
    0.925 and quality "high"; the peak hours are hours 11 and 10 followed by
    hours 0, 1, 2 and 3, which score 0.5 and fill the quartile of six; the
    low-energy hours are hours 18 to 23. *)
Theorem scenario_A_pattern (sessions : list PomodoroSession.t) :
  has_scenario_A sessions ->
  let p := analyze sessions in
  ProductivityPattern.peak_hours p = [11; 10; 0; 1; 2; 3]
  /\ ProductivityPattern.low_energy_hours p = [18; 19; 20; 21; 22; 23]
  /\ exists block,
       ProductivityPattern.optimal_focus_blocks p = [block]
       /\ FocusBlock.start_hour block = 10
       /\ FocusBlock.end_hour block = 12
       /\ (FocusBlock.productivity_score block == 0.925)%Q
       /\ FocusBlock.focus_quality block = Some "high".
Proof.
  intros H p. apply scenario_A_same_scores in H.
  destruct (peak_hours_same _ _ H) as [Hpeak Hlow].
  pose proof (optimal_blocks_same _ _ H) as Hblocks.
  unfold p, analyze. cbn [ProductivityPattern.peak_hours ProductivityPattern.low_energy_hours
                           ProductivityPattern.optimal_focus_blocks].
  rewrite Hpeak, Hlow. clear Hpeak Hlow H.
  split; [vm_compute; reflexivity|]. split; [vm_compute; reflexivity|].
  revert Hblocks. generalize (optimal_blocks_of (hourly_productivity_of sessions)).
  intros blocks Hblocks.
  assert (Htable : optimal_blocks_of scenario_A_table
                   = [ {| FocusBlock.start_hour := 10; FocusBlock.end_hour := 12;
                          FocusBlock.productivity_score := (0 + 0.9 + 0.95) / 2;
                          FocusBlock.focus_quality := Some "high" |} ])
    by (vm_compute; reflexivity).
  rewrite Htable in Hblocks.
  inversion Hblocks as [|b b' r r' (Hs & He & Hq & Hf) Hr]; subst.
  inversion Hr; subst. exists b. repeat split; try assumption.
  rewrite Hq. reflexivity.
Qed.

Lemma scenario_A_sessions_realise_it : has_scenario_A scenario_A_sessions.
Proof.
  intros hour Hh.
  do 24 (destruct hour as [|hour]; [vm_compute; reflexivity|]).
  lia.
Qed.

(** Witness of the theorem above. *)
Lemma scenario_A_pattern_witness :
  has_scenario_A scenario_A_sessions
  /\ ProductivityPattern.peak_hours (analyze scenario_A_sessions) = [11; 10; 0; 1; 2; 3].
Proof.
  split; [exact scenario_A_sessions_realise_it|].
  exact (proj1 (scenario_A_pattern scenario_A_sessions scenario_A_sessions_realise_it)).
Defined.

(** C4 as stated fails: with the hourly averages of scenario A, hour 0
    scores 0.5 and is a peak hour. *)
Lemma scenario_A_peak_hours_include_a_half_score_hour :
  has_scenario_A scenario_A_sessions
  /\ (scenario_A 0 == 0.5)%Q
  /\ In 0 (ProductivityPattern.peak_hours (analyze scenario_A_sessions))
  /\ ~ (forall hour, (hour < 24)%nat -> (scenario_A hour == 0.5)%Q ->
          ~ In hour (ProductivityPattern.peak_hours (analyze scenario_A_sessions))).
Proof.
  assert (H0 : In 0 (ProductivityPattern.peak_hours (analyze scenario_A_sessions)))
    by (vm_compute; tauto).
  split; [exact scenario_A_sessions_realise_it|].
  split; [reflexivity|]. split; [exact H0|].
  intros H. apply (H 0); [lia|reflexivity|exact H0].
Qed.

End ScenarioA.

Section ToleranceExamples.
Import AutoSchedulingService.

(** Witness of the theorem on the context-switch tolerance: two sessions, one of
    them interrupted, and a healthy store. *)
Lemma context_switch_tolerance_by_case_witness :
  let sessions := [session_at 9 0.8 true; session_at 10 0.7 false] in
  exists p w',
    _get_productivity_patterns "42" (world_with sessions []) = (Ok p, w')
    /\ (ProductivityPattern.context_switch_tolerance p
        == Qmax 0.1 (1 - interrupted_fraction sessions))%Q.
Proof.
  intros sessions.
  destruct (context_switch_tolerance_by_case "42" (world_with sessions []))
    as (p & w' & Hrun & _ & _ & Hsome).
  exists p, w'. split; [exact Hrun|].
  apply Hsome; [discriminate|discriminate].
Defined.

(** C5 as stated fails: the store answers, with no session, and the
    tolerance of the returned pattern is 0.5, not 0.6. *)
Lemma zero_sessions_tolerance_is_one_half :
  let w := world_with [] [] in
  completed_sessions w "42" (clock w (clock_reads w) - timedelta 90 0 0)%Z = []
  /\ exists p w',
       _get_productivity_patterns "42" w = (Ok p, w')
       /\ (ProductivityPattern.context_switch_tolerance p == 0.5)%Q
       /\ ~ (ProductivityPattern.context_switch_tolerance p == 0.6)%Q.
Proof.
  intros w. split; [reflexivity|].
  pose proof (_get_productivity_patterns_cases "42" w) as H.
  cbv beta iota zeta delta [w world_with db_faults completed_sessions] in H.
  destruct H as [w' H]. exists (analyze []), w'.
  split; [exact H|]. split; [reflexivity|]. intros E. discriminate E.
Qed.

End ToleranceExamples.

(** ** Candidates of the scheduling service *)

Section Candidates.
Import AutoSchedulingService.

Lemma omap_Forall {A B : Type} (f : A -> Outcome B) (P : B -> Prop) (l : list A)
    (ys : list B) :
  (forall x y, f x = Ok y -> P y) -> omap f l = Ok ys -> Forall P ys.
Proof.
  intros Hf. revert ys. induction l as [|x r IH]; simpl; intros ys H.
  - injection H as <-. constructor.
  - unfold obind in H. destruct (f x) as [y|e] eqn:Ex; [|discriminate].
    destruct (omap f r) as [ys'|e]; [|discriminate].
    injection H as <-. constructor; eauto.
Qed.

Lemma mapM_Forall {A B : Type} (f : A -> M B) (P : B -> Prop) (l : list A) :
  (forall x w y w', f x w = (Ok y, w') -> P y) ->
  forall w ys w', mapM f l w = (Ok ys, w') -> Forall P ys.
Proof.
  intros Hf. induction l as [|x r IH]; simpl; intros w ys w' H.
  - injection H as <- _. constructor.
  - unfold bind, ret in H. destruct (f x w) as [[y|e] w1] eqn:Ex; [|discriminate].
    destruct (mapM f r w1) as [[ys'|e] w2] eqn:Er; [|discriminate].
    injection H as <- _. constructor; eauto.
Qed.

Lemma Forall_concat_all {A : Type} (P : A -> Prop) (ll : list (list A)) :
  Forall (Forall P) ll -> Forall P (concat ll).
Proof.
  induction 1 as [|l r Hl _ IH]; simpl; [constructor|]. apply Forall_app. now split.
Qed.

Lemma Forall_flat_map_all {A B : Type} (P : B -> Prop) (f : A -> list B) (l : list A) :
  (forall x, Forall P (f x)) -> Forall P (flat_map f l).
Proof.
  intros Hf. induction l as [|x r IH]; simpl; [constructor|]. apply Forall_app. now split.
Qed.

Lemma obind_Ok {A B : Type} (m : Outcome A) (k : A -> Outcome B) (b : B) :
  obind m k = Ok b -> exists a, m = Ok a /\ k a = Ok b.
Proof. destruct m as [a|e]; simpl; [eauto|discriminate]. Qed.

Lemma block_opportunities_generated (patterns : ProductivityPattern.t)
    (block : ScheduleBlock.t) (found : list ScheduleOptimization.t) :
  block_opportunities patterns block = Ok found -> Forall generated found.
Proof.
  unfold block_opportunities. intros H.
  destruct (negb (ScheduleBlock.moveable block)); [injection H as <-; constructor|].
  apply obind_Ok in H as (rescheduled & H1 & H).
  apply obind_Ok in H as (moved & H2 & H). injection H as <-.
  apply Forall_app. split.
  - clear H2. unfold obind in H1.
    repeat case_match; simplify_eq;
      first [ constructor 1 | constructor 2; [unfold generated; simpl; tauto | constructor 1] ].
  - clear H1. unfold obind in H2.
    repeat case_match; simplify_eq;
      first [ constructor 1 | constructor 2; [unfold generated; simpl; tauto | constructor 1] ].
Qed.

Lemma focus_block_opportunities_generated (schedule : list ScheduleBlock.t)
    (patterns : ProductivityPattern.t) (w w' : World) (found : list ScheduleOptimization.t) :
  _identify_focus_block_opportunities schedule patterns w = (Ok found, w') ->
  Forall generated found.
Proof.
  unfold _identify_focus_block_opportunities, bind, ret. intros H.
  match type of H with context [mapM ?f ?l w] =>
    destruct (mapM f l w) as [[ll|e] w1] eqn:E; [|discriminate];
    apply (mapM_Forall f (Forall generated)) in E
  end.
  - injection H as <- _. now apply Forall_concat_all.
  - clear. intros focus_block w y w' H.
    destruct (_ <=? 1)%nat; [|injection H as <- _; constructor].
    unfold bind, datetime_now, lift, ret in H.
    destruct (replace_hour_on_the_hour _ _); [|discriminate].
    injection H as <- _. constructor; [|constructor]. left. simpl. repeat split. discriminate.
Qed.

Lemma meeting_consolidation_generated (schedule : list ScheduleBlock.t) :
  Forall generated (_identify_meeting_consolidation schedule).
Proof.
  unfold _identify_meeting_consolidation. apply Forall_flat_map_all.
  intros [day day_meetings]. repeat case_match;
    first [ constructor 1 | constructor 2; [unfold generated; simpl; tauto | constructor 1] ].
Qed.

(** The generators and the ranking always return; the ranked list is in
    descending order of impact and every candidate in it is one that the
    generators produce. *)
Lemma _identify_optimization_opportunities_spec (schedule : list ScheduleBlock.t)
    (patterns : ProductivityPattern.t) (w : World) :
  exists ranked w',
    _identify_optimization_opportunities schedule patterns w = (Ok ranked, w')
    /\ Forall generated ranked
    /\ descending ScheduleOptimization.impact_score ranked.
Proof.
  unfold _identify_optimization_opportunities, catch, bind, lift, ret.
  destruct (omap (block_opportunities patterns) schedule) as [per_block|e] eqn:E1.
  2:{ do 2 eexists. split; [reflexivity|]. split; constructor. }
  destruct (_identify_focus_block_opportunities schedule patterns w) as [[focus|e] w1] eqn:E2.
  2:{ do 2 eexists. split; [reflexivity|]. split; constructor. }
  do 2 eexists. split; [reflexivity|]. split; [|apply sort_desc_sorted].
  apply sort_desc_Forall. rewrite !Forall_app. repeat split.
  - apply Forall_concat_all.
    eapply omap_Forall; [|exact E1]. intros x y. apply block_opportunities_generated.
  - eapply focus_block_opportunities_generated; exact E2.
  - apply meeting_consolidation_generated.
Qed.

End Candidates.

(** ** Selection and execution in the scheduling service *)

Section Selection.
Import AutoSchedulingService.

Lemma _execute_optimization_total (self : Self) (user_id : string)
    (opportunity : ScheduleOptimization.t) (w : World) :
  exists result w', _execute_optimization self user_id opportunity w = (Ok result, w').
Proof. unfold _execute_optimization. apply catch_total. Qed.

(** The loop never raises; it executes, in order, exactly the selected
    candidates, and counts them. *)
Lemma execution_loop_spec (self : Self) (user_id : string)
    (optimizations : list ScheduleOptimization.t) :
  forall (optimization_results : list ExecResult.t) (executed_count : nat) (w : World),
  exists results w',
    execution_loop self user_id optimizations optimization_results executed_count w
    = (Ok (optimization_results ++ results,
           executed_count + length (selected_from executed_count optimizations)), w')
    /\ Forall2 (executed_as self user_id) (selected_from executed_count optimizations) results.
Proof.
  induction optimizations as [|o later IH]; intros acc n w; simpl.
  - exists [], w. rewrite app_nil_r, Nat.add_0_r. split; [reflexivity|constructor].
  - destruct (gate o n) eqn:G; [|apply IH].
    destruct (_execute_optimization_total self user_id o w) as (r & w1 & E).
    rewrite (bind_ok _ _ _ _ _ E).
    destruct (IH (acc ++ [r]) (S n) w1) as (results & w' & H & HF).
    exists (r :: results), w'. rewrite H. split.
    + rewrite <- app_assoc. simpl. do 3 f_equal. lia.
    + constructor; [now exists w, w1|exact HF].
Qed.

Lemma selected_from_bound (n : nat) (ranked : list ScheduleOptimization.t) :
  n + length (selected_from n ranked) <= Nat.max n 5.
Proof.
  revert n. induction ranked as [|o later IH]; intros n; simpl; [lia|].
  destruct (gate o n) eqn:G; [|apply IH].
  unfold gate in G. apply andb_prop in G as [_ G]. apply Nat.ltb_lt in G.
  simpl. specialize (IH (S n)). lia.
Qed.

Lemma selected_from_full (n : nat) (ranked : list ScheduleOptimization.t) :
  5 <= n -> selected_from n ranked = [].
Proof.
  intros Hn. induction ranked as [|o later IH]; simpl; [reflexivity|].
  unfold gate. replace (n <? 5)%nat with false by (symmetry; apply Nat.ltb_ge; lia).
  now rewrite andb_false_r.
Qed.

Lemma selected_from_none (n : nat) (ranked : list ScheduleOptimization.t) :
  Forall (fun o => passes o = false) ranked -> selected_from n ranked = [].
Proof.
  induction 1 as [|o later Ho _ IH]; simpl; [reflexivity|].
  unfold gate. fold (passes o). now rewrite Ho.
Qed.

(** A generated candidate that fails a gate has an impact of at most 0.6. *)
Lemma generated_fails_low (o : ScheduleOptimization.t) :
  generated o -> passes o = false -> (ScheduleOptimization.impact_score o <= 0.6)%Q.
Proof.
  unfold passes.
  intros [(_ & Hc & Hi & _)|[(_ & Hc & Hi)|[(_ & Hc & Hi)|(_ & Hc & Hi)]]];
    rewrite Hc, Hi; intros H; try discriminate H; vm_compute; discriminate.
Qed.

Lemma low_impact_fails (o : ScheduleOptimization.t) :
  (ScheduleOptimization.impact_score o <= 0.6)%Q -> passes o = false.
Proof.
  intros H. unfold passes, Qlt_bool. apply Qle_bool_iff in H. rewrite H.
  apply andb_false_r.
Qed.

(** In a ranked list of generated candidates the selected candidates are
    the first ones: the list is the selected candidates followed by the
    rest. *)
Lemma selected_is_prefix (ranked : list ScheduleOptimization.t) :
  descending ScheduleOptimization.impact_score ranked -> Forall generated ranked ->
  forall n,
    ranked = selected_from n ranked ++ skipn (length (selected_from n ranked)) ranked.
Proof.
  induction 1 as [|o later Hlater IH Ho]; intros Hgen n; [reflexivity|].
  apply Forall_cons in Hgen as [Hgo Hgl]. simpl.
  destruct (gate o n) eqn:G.
  - simpl. f_equal. now apply IH.
  - assert (Hnone : selected_from n later = []).
    { unfold gate in G. fold (passes o) in G.
      apply andb_false_iff in G as [G|G].
      - apply selected_from_none.
        pose proof (generated_fails_low o Hgo G) as Hlow.
        eapply List.Forall_impl; [|exact Ho]. intros o' Ho'. simpl in Ho'.
        apply low_impact_fails. eapply Qle_trans; eassumption.
      - apply selected_from_full. apply Nat.ltb_ge in G. exact G. }
    rewrite Hnone. reflexivity.
Qed.

End Selection.

(** ** A run of [optimize_schedule] *)

Section ScheduleRun.
Import AutoSchedulingService.

Lemma omap_total {A B : Type} (f : A -> Outcome B) (l : list A) :
  Forall (fun x => is_ok (f x) = true) l -> exists ys, omap f l = Ok ys.
Proof.
  induction 1 as [|x r Hx _ [ys IH]]; simpl; [eauto|].
  destruct (f x) as [y|e]; [|discriminate]. simpl. rewrite IH. simpl. eauto.
Qed.

Lemma _calculate_optimization_impact_total (results : list ExecResult.t) :
  Forall minutes_known results ->
  exists summary, _calculate_optimization_impact results = Ok summary.
Proof.
  intros H. unfold _calculate_optimization_impact.
  destruct results as [|r rs]; [eauto|].
  generalize dependent (r :: rs). clear r rs. intros results H.
  destruct (omap_total focus_minutes
              (List.filter (fun r => bool_decide (ExecResult.optimization_type r
                                                 = "focus_block_created")) results))
    as [minutes E].
  - apply List.Forall_forall. intros r Hr. apply filter_In in Hr as [Hr _].
    eapply List.Forall_forall in H; eassumption.
  - rewrite E. simpl. eauto.
Qed.

(** The results of the executors of the service can always be summed up,
    for the candidates that its generators produce. *)
Lemma service_results_have_minutes (user_id : string) (o : ScheduleOptimization.t)
    (r : ExecResult.t) :
  generated o -> executed_as service user_id o r -> minutes_known r.
Proof.
  intros Hgen (w & w' & H).
  unfold _execute_optimization, catch, bind, ret, dispatch in H.
  destruct Hgen as [(Ht & _ & _ & Hd)|[(Ht & _)|[(Ht & _)|(Ht & _)]]]; rewrite Ht in H;
    cbn [service self_reschedule_meeting self_create_focus_block self_reschedule_task
           self_consolidate_meetings] in H.
  2-4: injection H as <- _; reflexivity.
  unfold _create_focus_block, catch, bind, ret, get_db, lift, datetime_now,
    db_add_commit_refresh in H.
  destruct (ScheduleOptimization.duration o) as [d|] eqn:Ed; [|congruence].
  repeat case_match; simplify_eq; reflexivity.
Qed.

Lemma _cache_optimization_results_total (user_id : string) (v : CacheValue) (w : World) :
  exists w', _cache_optimization_results user_id v w = (Ok tt, w').
Proof.
  unfold _cache_optimization_results, bind, gets.
  destruct (redis w) as [store|]; [|unfold ret; eauto].
  destruct (catch_total (redis_setex store ("schedule_optimizations:" ++ user_id)%string
                           3600 v) (fun _ => tt) w) as ([] & w' & E).
  eauto.
Qed.

Lemma _get_productivity_patterns_total (user_id : string) (w : World) :
  exists p w', _get_productivity_patterns user_id w = (Ok p, w').
Proof. unfold _get_productivity_patterns. apply catch_total. Qed.

Lemma _get_current_schedule_total (user_id : string) (date_range : datetime * datetime)
    (w : World) :
  exists schedule w', _get_current_schedule user_id date_range w = (Ok schedule, w').
Proof.
  unfold _get_current_schedule. apply (catch_total _ (fun _ => [])).
Qed.

(** The stages of a run, whatever the executors of [self] are: the ranked
    list is a list of generated candidates in descending order of impact,
    the loop executes the selected candidates, and the run returns unless
    the impact summary cannot be computed. *)
Lemma optimize_schedule_stages (self : Self) (user_id : string)
    (date_range : datetime * datetime) (w : World) :
  exists ranked results w2,
    ranked_by_the_service ranked
    /\ Forall generated ranked
    /\ descending ScheduleOptimization.impact_score ranked
    /\ Forall2 (executed_as self user_id) (selected_from 0 ranked) results
    /\ ((exists e,
            _calculate_optimization_impact results = Raised e
            /\ optimize_schedule self user_id date_range w = (Raised e, w2))
        \/ (exists summary w3,
               _calculate_optimization_impact results = Ok summary
               /\ _cache_optimization_results user_id
                    (CachedOptimizations results
                       (skipn (length (selected_from 0 ranked)) ranked) summary) w2
                  = (Ok tt, w3)
               /\ optimize_schedule self user_id date_range w
                  = (Ok {| OptimizationRun.executed_optimizations := results;
                           OptimizationRun.suggested_optimizations :=
                             skipn (length (selected_from 0 ranked)) ranked;
                           OptimizationRun.impact_summary := summary;
                           OptimizationRun.productivity_gain_estimate :=
                             ImpactSummary.total_productivity_gain summary |}, w3))).
Proof.
  unfold optimize_schedule. rewrite catch_reraise.
  destruct (_get_productivity_patterns_total user_id w) as (p & wa & Ep).
  rewrite (bind_ok _ _ _ _ _ Ep).
  destruct (_get_current_schedule_total user_id date_range wa) as (schedule & wb & Es).
  rewrite (bind_ok _ _ _ _ _ Es).
  destruct (_identify_optimization_opportunities_spec schedule p wb)
    as (ranked & w1 & Er & Hgen & Hdesc).
  rewrite (bind_ok _ _ _ _ _ Er).
  destruct (execution_loop_spec self user_id ranked [] 0 w1) as (results & w2 & El & HF).
  rewrite (bind_ok _ _ _ _ _ El). cbn [fst snd app Nat.add].
  exists ranked, results, w2.
  split; [now exists schedule, p, wb, w1|]. do 3 (split; [assumption|]).
  destruct (_calculate_optimization_impact results) as [summary|e] eqn:Ei.
  - right. rewrite (bind_ok (lift (Ok summary)) _ w2 w2 summary eq_refl).
    match goal with |- context [_cache_optimization_results user_id ?v] =>
      destruct (_cache_optimization_results_total user_id v w2) as (w3 & Ec)
    end.
    exists summary, w3. split; [reflexivity|]. split; [exact Ec|].
    rewrite (bind_ok _ _ _ _ _ Ec). reflexivity.
  - left. exists e. split; reflexivity.
Qed.

(** The service itself always returns. *)
Lemma optimize_schedule_service_returns (user_id : string)
    (date_range : datetime * datetime) (w : World) :
  exists ranked results summary w2 w',
    ranked_by_the_service ranked
    /\ Forall generated ranked
    /\ descending ScheduleOptimization.impact_score ranked
    /\ Forall2 (executed_as service user_id) (selected_from 0 ranked) results
    /\ _cache_optimization_results user_id
         (CachedOptimizations results
            (skipn (length (selected_from 0 ranked)) ranked) summary) w2
       = (Ok tt, w')
    /\ optimize_schedule service user_id date_range w
       = (Ok {| OptimizationRun.executed_optimizations := results;
                OptimizationRun.suggested_optimizations :=
                  skipn (length (selected_from 0 ranked)) ranked;
                OptimizationRun.impact_summary := summary;
                OptimizationRun.productivity_gain_estimate :=
                  ImpactSummary.total_productivity_gain summary |}, w').
Proof.
  destruct (optimize_schedule_stages service user_id date_range w)
    as (ranked & results & w2 & Hr & Hgen & Hdesc & HF & Hrun).
  assert (Hsel : Forall generated (selected_from 0 ranked)).
  { rewrite (selected_is_prefix ranked Hdesc Hgen 0) in Hgen.
    now apply Forall_app in Hgen. }
  assert (Hmin : Forall minutes_known results).
  { clear Hrun. revert Hsel. induction HF as [|o r os rs Hor _ IH]; intros Hsel;
      [constructor|].
    apply Forall_cons in Hsel as [Ho Hos].
    constructor; [eapply service_results_have_minutes; eassumption|now apply IH]. }
  destruct (_calculate_optimization_impact_total results Hmin) as [summary Es].
  destruct Hrun as [(e & He & _)|(summary' & w3 & Hs & Hc & Hrun)]; [congruence|].
  exists ranked, results, summary', w2, w3. auto 10.
Qed.

End ScheduleRun.

(** ** Rows committed by a computation *)

Section Rows.

Lemma preserves_ret {A} (a : A) : preserves_rows (ret a).
Proof. intros w. reflexivity. Qed.

Lemma preserves_raise {A} (e : string) : preserves_rows (@raise A e).
Proof. intros w. reflexivity. Qed.

Lemma preserves_lift {A} (o : Outcome A) : preserves_rows (lift o).
Proof. intros w. reflexivity. Qed.

Lemma preserves_gets {A} (f : World -> A) : preserves_rows (gets f).
Proof. intros w. reflexivity. Qed.

Lemma preserves_datetime_now : preserves_rows datetime_now.
Proof. intros w. reflexivity. Qed.

Lemma preserves_get_db : preserves_rows get_db.
Proof. intros w. unfold get_db. destruct (db_faults w) as [|[|] f]; reflexivity. Qed.

Lemma preserves_redis_setex store key ttl v : preserves_rows (redis_setex store key ttl v).
Proof. intros w. unfold redis_setex. destruct (redis_faults w) as [|[|] f]; reflexivity. Qed.

Lemma preserves_bind {A B} (m : M A) (k : A -> M B) :
  preserves_rows m -> (forall a, preserves_rows (k a)) -> preserves_rows (bind m k).
Proof.
  intros Hm Hk w. unfold bind. specialize (Hm w).
  destruct (m w) as [[a|e] w1]; simpl in *; [|exact Hm].
  now rewrite Hk.
Qed.

Lemma preserves_catch {A} (m : M A) (h : string -> M A) :
  preserves_rows m -> (forall e, preserves_rows (h e)) -> preserves_rows (catch m h).
Proof.
  intros Hm Hh w. unfold catch. specialize (Hm w).
  destruct (m w) as [[a|e] w1]; simpl in *; [exact Hm|].
  now rewrite Hh.
Qed.

Lemma preserves_mapM {A B} (f : A -> M B) (l : list A) :
  (forall x, preserves_rows (f x)) -> preserves_rows (mapM f l).
Proof.
  intros Hf. induction l as [|x r IH]; simpl; [apply preserves_ret|].
  apply preserves_bind; [apply Hf|]. intros y.
  apply preserves_bind; [exact IH|]. intros ys. apply preserves_ret.
Qed.

Lemma preserves_inserts {A} (P : Task.t -> Prop) (m : M A) :
  preserves_rows m -> inserts 0 P m.
Proof.
  intros H w. exists []. rewrite H, app_nil_r. repeat split; [reflexivity|constructor].
Qed.

Lemma inserts_weaken {A} (n n' : nat) (P : Task.t -> Prop) (m : M A) :
  n <= n' -> inserts n P m -> inserts n' P m.
Proof.
  intros Hn H w. destruct (H w) as (rows & ? & ? & ?).
  exists rows. repeat split; auto; lia.
Qed.

Lemma inserts_bind {A B} (n1 n2 : nat) (P : Task.t -> Prop) (m : M A) (k : A -> M B) :
  inserts n1 P m -> (forall a, inserts n2 P (k a)) -> inserts (n1 + n2) P (bind m k).
Proof.
  intros Hm Hk w. unfold bind. destruct (Hm w) as (rows1 & E1 & L1 & F1).
  destruct (m w) as [[a|e] w1]; simpl in *.
  - destruct (Hk a w1) as (rows2 & E2 & L2 & F2).
    exists (rows1 ++ rows2). rewrite E2, E1, app_assoc, length_app.
    repeat split; [lia|]. apply Forall_app. now split.
  - exists rows1. repeat split; [assumption|lia|assumption].
Qed.

Lemma inserts_catch {A} (n1 n2 : nat) (P : Task.t -> Prop) (m : M A) (h : string -> M A) :
  inserts n1 P m -> (forall e, inserts n2 P (h e)) -> inserts (n1 + n2) P (catch m h).
Proof.
  intros Hm Hh w. unfold catch. destruct (Hm w) as (rows1 & E1 & L1 & F1).
  destruct (m w) as [[a|e] w1]; simpl in *.
  - exists rows1. repeat split; [assumption|lia|assumption].
  - destruct (Hh e w1) as (rows2 & E2 & L2 & F2).
    exists (rows1 ++ rows2). rewrite E2, E1, app_assoc, length_app.
    repeat split; [lia|]. apply Forall_app. now split.
Qed.

Lemma inserts_db_add_commit_refresh (P : Task.t -> Prop) (mk : Z -> Task.t) :
  (forall id, P (mk id)) -> inserts 1 P (db_add_commit_refresh mk).
Proof.
  intros H w. exists [mk (next_task_id w)]. repeat split; [simpl; lia|].
  constructor; [apply H|constructor].
Qed.

End Rows.

(** Proves that a computation built from the operations above commits no
    row. *)
Ltac quiet :=
  repeat first
    [ apply preserves_ret | apply preserves_raise | apply preserves_lift
    | apply preserves_gets | apply preserves_datetime_now | apply preserves_get_db
    | apply preserves_redis_setex
    | apply preserves_bind; [|intros ?]
    | apply preserves_catch; [|intros ?]
    | apply preserves_mapM; intros ?
    | progress case_match ].

(** ** The stages of the predictive-task service *)

Section PredictionStages.
Import PredictiveTaskService.

Lemma _gather_prediction_context_quiet (user_id : string) :
  preserves_rows (_gather_prediction_context user_id).
Proof.
  unfold _gather_prediction_context, _get_productivity_trends, _get_calendar_events,
    _get_active_projects, _get_current_goals, _get_upcoming_deadlines. quiet.
Qed.

Lemma _pattern_based_prediction_quiet (context : PredictionContext.t) :
  preserves_rows (_pattern_based_prediction context).
Proof. unfold _pattern_based_prediction. quiet. Qed.

Lemma _calendar_based_prediction_quiet (context : PredictionContext.t) :
  preserves_rows (_calendar_based_prediction context).
Proof. unfold _calendar_based_prediction. quiet. Qed.

Lemma _goal_based_prediction_quiet (context : PredictionContext.t) :
  preserves_rows (_goal_based_prediction context).
Proof. unfold _goal_based_prediction. quiet. Qed.

Lemma _deadline_based_prediction_quiet (context : PredictionContext.t) :
  preserves_rows (_deadline_based_prediction context).
Proof. unfold _deadline_based_prediction. quiet. Qed.

Lemma _rank_by_importance_quiet (predictions : list Prediction.t)
    (context : PredictionContext.t) :
  preserves_rows (_rank_by_importance predictions context).
Proof. unfold _rank_by_importance, score_prediction. quiet. Qed.

Lemma _cache_predictions_quiet (user_id : string) (predictions : list Prediction.t) :
  preserves_rows (_cache_predictions user_id predictions).
Proof. unfold _cache_predictions. quiet. Qed.

End PredictionStages.

(** ** Auto-creation of predicted tasks *)

Section AutoCreation.
Import PredictiveTaskService.

Lemma estimated_pomodoros_of_positive (prediction : Prediction.t) :
  (1 <= estimated_pomodoros_of prediction)%Z.
Proof. unfold estimated_pomodoros_of. apply Z.le_max_l. Qed.

(** A successful auto-creation commits exactly one row, the one of the
    returned task, planned with [max(1, duration // 25)] pomodoros. *)
Lemma _auto_create_task_ok (user_id : string) (prediction : Prediction.t) (w w' : World)
    (created : CreatedTask.t) :
  _auto_create_task user_id prediction w = (Ok created, w') ->
  exists row,
    inserted_tasks w' = inserted_tasks w ++ [row]
    /\ Task.id row = CreatedTask.id created
    /\ Task.title row = Prediction.title prediction
    /\ Task.estimated_pomodoros row = Some (estimated_pomodoros_of prediction).
Proof.
  unfold _auto_create_task. rewrite catch_reraise.
  unfold bind, get_db, lift, datetime_now, db_add_commit_refresh, ret.
  intros H. destruct (db_faults w) as [|[|] f]; try discriminate;
    (destruct (int_of_str user_id) as [user|e]; [|discriminate]);
    injection H as <- <-; eexists; repeat split.
Qed.

(** A failed auto-creation re-raises and commits nothing. *)
Lemma _auto_create_task_raised (user_id : string) (prediction : Prediction.t)
    (w w' : World) (e : string) :
  _auto_create_task user_id prediction w = (Raised e, w') ->
  inserted_tasks w' = inserted_tasks w.
Proof.
  unfold _auto_create_task. rewrite catch_reraise.
  unfold bind, get_db, lift, datetime_now, db_add_commit_refresh, ret.
  intros H. destruct (db_faults w) as [|[|] f];
    try (destruct (int_of_str user_id) as [user|e']); simplify_eq; reflexivity.
Qed.

Lemma _auto_create_task_inserts (user_id : string) (prediction : Prediction.t) :
  inserts 1 at_least_one_pomodoro (_auto_create_task user_id prediction).
Proof.
  intros w. destruct (_auto_create_task user_id prediction w) as [[created|e] w'] eqn:E.
  - apply _auto_create_task_ok in E as (row & Hrows & _ & _ & Hp).
    exists [row]. repeat split; [exact Hrows|simpl; lia|].
    constructor; [|constructor]. eexists. split; [exact Hp|].
    apply estimated_pomodoros_of_positive.
  - apply _auto_create_task_raised in E. exists []. simpl. rewrite E, app_nil_r.
    repeat split; [lia|constructor].
Qed.

(** The loop creates at most one task per prediction and returns at most
    as many created tasks as it was given predictions. *)
Lemma auto_create_loop_inserts (user_id : string) (tasks : list Prediction.t) :
  forall auto_created,
    inserts (length tasks) at_least_one_pomodoro (auto_create_loop user_id tasks auto_created).
Proof.
  induction tasks as [|task later IH]; intros acc; simpl.
  - apply preserves_inserts, preserves_ret.
  - destruct (Qlt_bool 0.85 (Prediction.confidence task)).
    + apply (inserts_bind 1 (length later)); [apply _auto_create_task_inserts|].
      intros created. apply IH.
    + eapply inserts_weaken; [|apply IH]. lia.
Qed.

Lemma auto_create_loop_length (user_id : string) (tasks : list Prediction.t) :
  forall auto_created w created w',
    auto_create_loop user_id tasks auto_created w = (Ok created, w') ->
    length created <= length auto_created + length tasks.
Proof.
  induction tasks as [|task later IH]; intros acc w created w' H; simpl in *.
  - injection H as <- _. lia.
  - destruct (Qlt_bool 0.85 (Prediction.confidence task)).
    + unfold bind in H. destruct (_auto_create_task user_id task w) as [[c|e] w1];
        [|discriminate].
      apply IH in H. rewrite length_app in H. simpl in H. lia.
    + apply IH in H. lia.
Qed.


End AutoCreation.

(** ** A run of [generate_predictive_tasks] *)

Section PredictionRun.
Import PredictiveTaskService.

Lemma mapM_total {A B : Type} (f : A -> M B) (l : list A) :
  (forall x w, exists y w', f x w = (Ok y, w')) ->
  forall w, exists ys w', mapM f l w = (Ok ys, w').
Proof.
  intros Hf. induction l as [|x r IH]; intros w; simpl; [unfold ret; eauto|].
  destruct (Hf x w) as (y & w1 & E). rewrite (bind_ok _ _ _ _ _ E).
  destruct (IH w1) as (ys & w2 & E2). rewrite (bind_ok _ _ _ _ _ E2).
  unfold ret. eauto.
Qed.

Lemma _pattern_based_prediction_total (context : PredictionContext.t) (w : World) :
  exists found w', _pattern_based_prediction context w = (Ok found, w').
Proof.
  unfold _pattern_based_prediction, bind at 1, datetime_now.
  apply (catch_total _ (fun _ => [])).
Qed.

Lemma _calendar_based_prediction_total (context : PredictionContext.t) (w : World) :
  exists found w', _calendar_based_prediction context w = (Ok found, w').
Proof. unfold _calendar_based_prediction. apply (catch_total _ (fun _ => [])). Qed.

Lemma _goal_based_prediction_total (context : PredictionContext.t) (w : World) :
  exists found w', _goal_based_prediction context w = (Ok found, w').
Proof. unfold _goal_based_prediction. apply (catch_total _ (fun _ => [])). Qed.

Lemma _deadline_based_prediction_total (context : PredictionContext.t) (w : World) :
  exists found w', _deadline_based_prediction context w = (Ok found, w').
Proof. unfold _deadline_based_prediction. apply (catch_total _ (fun _ => [])). Qed.

Lemma _rank_by_importance_total (predictions : list Prediction.t)
    (context : PredictionContext.t) (w : World) :
  exists ranked w', _rank_by_importance predictions context w = (Ok ranked, w').
Proof.
  unfold _rank_by_importance.
  destruct (mapM_total score_prediction predictions) with (w := w) as (scored & w' & E).
  - intros pred w0. unfold score_prediction, bind, datetime_now, ret.
    destruct (Prediction.due_date pred); eauto.
  - rewrite (bind_ok _ _ _ _ _ E). unfold ret. eauto.
Qed.

Lemma _cache_predictions_total (user_id : string) (predictions : list Prediction.t)
    (w : World) :
  exists w', _cache_predictions user_id predictions w = (Ok tt, w').
Proof.
  unfold _cache_predictions, bind, gets.
  destruct (redis w) as [store|]; [|unfold ret; eauto].
  destruct (catch_total (redis_setex store ("predictions:" ++ user_id)%string 3600
                           (CachedPredictions predictions)) (fun _ => tt) w)
    as ([] & w' & E).
  eauto.
Qed.

(** The stages of a run.  An exception of the context gathering goes to the
    caller.  Otherwise the generators, the deduplication and the ranking
    always give a ranked list; the run then returns exactly when the
    auto-creation loop over the first three ranked predictions returns, and
    raises what the loop raises otherwise. *)
Lemma generate_predictive_tasks_stages (user_id : string) (w : World) :
  match _gather_prediction_context user_id w with
  | (Raised e, w1) => generate_predictive_tasks user_id w = (Raised e, w1)
  | (Ok context, w1) =>
      exists ranked w2,
        match auto_create_loop user_id (firstn 3 ranked) [] w2 with
        | (Raised e, w3) => generate_predictive_tasks user_id w = (Raised e, w3)
        | (Ok created, w3) =>
            exists summary w4,
              generate_predictive_tasks user_id w
              = (Ok {| PredictionRun.auto_created_tasks := created;
                       PredictionRun.suggested_tasks := firstn 10 ranked;
                       PredictionRun.prediction_summary := summary |}, w4)
        end
  end.
Proof.
  unfold generate_predictive_tasks. rewrite catch_reraise.
  destruct (_gather_prediction_context user_id w) as [[context|e] w1] eqn:Eg.
  2:{ now apply bind_raised. }
  rewrite (bind_ok _ _ _ _ _ Eg).
  destruct (_pattern_based_prediction_total context w1) as (p1 & wa & E1).
  rewrite (bind_ok _ _ _ _ _ E1).
  destruct (_calendar_based_prediction_total context wa) as (p2 & wb & E2).
  rewrite (bind_ok _ _ _ _ _ E2).
  destruct (_goal_based_prediction_total context wb) as (p3 & wc & E3).
  rewrite (bind_ok _ _ _ _ _ E3).
  destruct (_deadline_based_prediction_total context wc) as (p4 & wd & E4).
  rewrite (bind_ok _ _ _ _ _ E4).
  destruct (_rank_by_importance_total (_combine_predictions [p1; p2; p3; p4]) context wd)
    as (ranked & w2 & Er).
  rewrite (bind_ok _ _ _ _ _ Er).
  exists ranked, w2.
  destruct (auto_create_loop user_id (firstn 3 ranked) [] w2) as [[created|e] w3] eqn:El.
  - rewrite (bind_ok _ _ _ _ _ El).
    destruct (_cache_predictions_total user_id ranked w3) as (w4 & Ec).
    rewrite (bind_ok _ _ _ _ _ Ec). unfold ret. eauto.
  - now apply bind_raised.
Qed.

(** Whatever happens, a run commits at most three rows, each planned with
    at least one pomodoro. *)
Lemma generate_predictive_tasks_inserts (user_id : string) :
  inserts 3 at_least_one_pomodoro (generate_predictive_tasks user_id).
Proof.
  unfold generate_predictive_tasks.
  apply (inserts_catch 3 0); [|intros e; apply preserves_inserts, preserves_raise].
  apply (inserts_bind 0 3);
    [apply preserves_inserts, _gather_prediction_context_quiet|intros context].
  apply (inserts_bind 0 3);
    [apply preserves_inserts, _pattern_based_prediction_quiet|intros p1].
  apply (inserts_bind 0 3);
    [apply preserves_inserts, _calendar_based_prediction_quiet|intros p2].
  apply (inserts_bind 0 3);
    [apply preserves_inserts, _goal_based_prediction_quiet|intros p3].
  apply (inserts_bind 0 3);
    [apply preserves_inserts, _deadline_based_prediction_quiet|intros p4].
  apply (inserts_bind 0 3);
    [apply preserves_inserts, _rank_by_importance_quiet|intros ranked].
  apply (inserts_bind 3 0).
  - eapply inserts_weaken; [|apply auto_create_loop_inserts].
    rewrite length_firstn. lia.
  - intros created. apply preserves_inserts.
    apply preserves_bind; [apply _cache_predictions_quiet|intros ?; apply preserves_ret].
Qed.

End PredictionRun.

(** ** Claims about the scheduling run *)

Section ScheduleClaims.
Import AutoSchedulingService.

(** A cache write on a healthy client stores the value under the key of
    the user, with a time to live of one hour. *)
Lemma _cache_optimization_results_stores (user_id : string) (v : CacheValue)
    (w : World) (store : gmap string (Z * CacheValue)) :
  redis w = Some store -> head (redis_faults w) <> Some true ->
  exists w',
    _cache_optimization_results user_id v w = (Ok tt, w')
    /\ redis w' = Some (<[("schedule_optimizations:" ++ user_id)%string := (3600%Z, v)]> store).
Proof.
  intros Hr Hf. unfold _cache_optimization_results, bind, gets, catch, redis_setex.
  rewrite Hr. destruct (redis_faults w) as [|[|] f]; simpl in *; try congruence; eauto.
Qed.


(** The slice taken by [optimize_schedule] is the complement of the
    executed candidates because of what the generators produce; on a list
    that they cannot produce, where a candidate that fails a gate is ranked
    above one that passes, the slice keeps the executed candidate and loses
    the other one. *)
Remark slice_relies_on_generated_candidates :
  let candidate confidence impact :=
    {| ScheduleOptimization.optimization_type := ADD_BUFFER_TIME;
       ScheduleOptimization.title := "candidate";
       ScheduleOptimization.description := "";
       ScheduleOptimization.confidence := confidence;
       ScheduleOptimization.impact_score := impact;
       ScheduleOptimization.original_time := None;
       ScheduleOptimization.suggested_time := None;
       ScheduleOptimization.duration := None;
       ScheduleOptimization.reasoning := "";
       ScheduleOptimization.meeting_id := None;
       ScheduleOptimization.task_id := None |} in
  let ranked := [candidate 0.5%Q 0.9%Q; candidate 0.9%Q 0.8%Q] in
  selected_from 0 ranked = [candidate 0.9%Q 0.8%Q]
  /\ skipn (length (selected_from 0 ranked)) ranked = [candidate 0.9%Q 0.8%Q].
Proof. split; reflexivity. Qed.

End ScheduleClaims.

(** ** Claims about bounds and failures *)

Section RunClaims.
Import AutoSchedulingService PredictiveTaskService.

(** C6.  A scheduling run executes at most five candidates, whatever the
    executors are, and the service itself always returns such a result.  A
    prediction run returns at most three auto-created tasks, and, whether it
    returns or raises, commits at most three task rows.  No assumption is
    made on how many candidates pass the gates. *)
Theorem executed_candidates_are_bounded :
  (forall (self : Self) (user_id : string) (date_range : datetime * datetime) (w : World),
      match fst (optimize_schedule self user_id date_range w) with
      | Ok r => length (OptimizationRun.executed_optimizations r) <= 5
      | Raised _ => True
      end)
  /\ (forall (user_id : string) (date_range : datetime * datetime) (w : World),
         exists r w',
           optimize_schedule service user_id date_range w = (Ok r, w')
           /\ length (OptimizationRun.executed_optimizations r) <= 5)
  /\ (forall (user_id : string) (w : World),
         match fst (generate_predictive_tasks user_id w) with
         | Ok r => length (PredictionRun.auto_created_tasks r) <= 3
         | Raised _ => True
         end)
  /\ (forall (user_id : string) (w : World),
         exists rows,
           inserted_tasks (snd (generate_predictive_tasks user_id w))
           = inserted_tasks w ++ rows
           /\ length rows <= 3).
Proof.
  assert (Hfive : forall self user_id ranked results,
             Forall2 (executed_as self user_id) (selected_from 0 ranked) results ->
             length results <= 5).
  { intros self user_id ranked results HF. apply Forall2_length in HF. rewrite <- HF.
    pose proof (selected_from_bound 0 ranked). simpl in *. lia. }
  repeat split.
  - intros self user_id date_range w.
    destruct (optimize_schedule_stages self user_id date_range w)
      as (ranked & results & w2 & _ & _ & _ & HF & [(e & _ & ->)|(s & w3 & _ & _ & ->)]);
      simpl; eauto.
  - intros user_id date_range w.
    destruct (optimize_schedule_service_returns user_id date_range w)
      as (ranked & results & summary & w2 & w' & _ & _ & _ & HF & _ & ->).
    do 2 eexists. split; [reflexivity|]. simpl. eauto.
  - intros user_id w.
    pose proof (generate_predictive_tasks_stages user_id w) as H.
    destruct (_gather_prediction_context user_id w) as [[context|e] w1];
      [|now rewrite H].
    destruct H as (ranked & w2 & H).
    destruct (auto_create_loop user_id (firstn 3 ranked) [] w2) as [[created|e] w3] eqn:El.
    + destruct H as (summary & w4 & ->). simpl.
      apply auto_create_loop_length in El. rewrite length_firstn in El.
      change (length (@nil CreatedTask.t)) with 0 in El. lia.
    + now rewrite H.
  - intros user_id w.
    destruct (generate_predictive_tasks_inserts user_id w) as (rows & H & Hl & _). eauto.
Qed.

(** C10.  A successful auto-creation commits exactly one task row, planned
    with [max(1, duration // 25)] pomodoros, the duration being 25 when the
    prediction has none; this is at least one, and exactly one when the
    duration is absent or below 25 minutes.  Hence every row committed by a
    prediction run is planned with at least one pomodoro. *)
Theorem auto_created_tasks_have_a_pomodoro :
  (forall (user_id : string) (prediction : Prediction.t) (w w' : World)
          (created : CreatedTask.t),
      _auto_create_task user_id prediction w = (Ok created, w') ->
      exists row n,
        inserted_tasks w' = inserted_tasks w ++ [row]
        /\ Task.id row = CreatedTask.id created
        /\ Task.estimated_pomodoros row = Some n
        /\ (n = Z.max 1 (default 25 (Prediction.estimated_duration prediction) / 25))%Z
        /\ (1 <= n)%Z
        /\ ((forall d, Prediction.estimated_duration prediction = Some d -> d < 25)%Z ->
            n = 1%Z))
  /\ (forall (user_id : string) (w : World),
         exists rows,
           inserted_tasks (snd (generate_predictive_tasks user_id w))
           = inserted_tasks w ++ rows
           /\ Forall at_least_one_pomodoro rows).
Proof.
  split.
  - intros user_id prediction w w' created H.
    apply _auto_create_task_ok in H as (row & Hrows & Hid & _ & Hp).
    exists row, (estimated_pomodoros_of prediction).
    repeat split; try assumption.
    + apply estimated_pomodoros_of_positive.
    + intros Hshort. unfold estimated_pomodoros_of.
      destruct (Prediction.estimated_duration prediction) as [d|]; simpl; [|reflexivity].
      specialize (Hshort d eq_refl).
      assert (d / 25 <= 0)%Z by (apply Z.lt_succ_r, Z.div_lt_upper_bound; lia).
      lia.
  - intros user_id w.
    destruct (generate_predictive_tasks_inserts user_id w) as (rows & H & _ & HF). eauto.
Qed.

(** Witness of the theorem above: a prediction of ten
    minutes, created for user 42 on a healthy store. *)
Lemma auto_created_tasks_have_a_pomodoro_witness :
  let prediction := prediction_of "Follow up on Client presentation" (Some 10%Z) 0.9 in
  exists row,
    inserted_tasks (snd (_auto_create_task "42" prediction (world_with [] []))) = [row]
    /\ Task.estimated_pomodoros row = Some 1%Z.
Proof.
  intros prediction.
  destruct (_auto_create_task "42" prediction (world_with [] [])) as [[created|e] w'] eqn:E.
  - destruct (proj1 auto_created_tasks_have_a_pomodoro _ _ _ _ _ E)
      as (row & n & Hrows & _ & Hp & _ & _ & Hone).
    exists row. split; [exact Hrows|]. rewrite Hp. f_equal. apply Hone.
    intros d Hd. injection Hd as <-. reflexivity.
  - assert (Hok : is_ok (fst (_auto_create_task "42" prediction (world_with [] []))) = true)
      by (vm_compute; reflexivity).
    rewrite E in Hok. discriminate Hok.
Defined.

End RunClaims.

(** ** Claims about exceptions *)

Section FailureClaims.
Import AutoSchedulingService PredictiveTaskService.







End FailureClaims.

(** ** The scorer *)

Section Scorer.
Import PredictiveTaskService.

Lemma min2_Qmin (a b : Q) : (min2 a b == Qmin a b)%Q.
Proof.
  unfold min2, Qlt_bool. destruct (Qle_bool a b) eqn:E; simpl.
  - apply Qle_bool_iff in E. symmetry. now apply Q.min_l.
  - symmetry. apply Q.min_r.
    destruct (Qlt_le_dec b a) as [H|H]; [now apply Qlt_le_weak|].
    apply Qle_bool_iff in H. congruence.
Qed.






End Scorer.

Section ScorerClaim.
Import PredictiveTaskService.



End ScorerClaim.

(** ** Deduplication *)

Section Deduplication.
Import PredictiveTaskService.

(** The loop keeps in [seen_titles] the keys of the candidates that it
    kept; these are also the keys of all the candidates that it met. *)
Lemma dedup_loop_first_occurrences (merged : list Prediction.t) :
  forall (unique_predictions : list Prediction.t) (seen_titles : gset string)
         (earlier : list string),
    (forall key, key ∈ seen_titles <-> key ∈ earlier) ->
    fst (fold_left dedup_step merged (unique_predictions, seen_titles))
    = unique_predictions ++ first_occurrences earlier merged.
Proof.
  induction merged as [|pred later IH]; intros unique seen earlier Hseen; simpl.
  - now rewrite app_nil_r.
  - destruct (bool_decide (title_key pred ∈ seen)) eqn:E.
    + apply bool_decide_eq_true in E.
      rewrite bool_decide_eq_true_2 by now apply Hseen.
      apply IH. intros key. rewrite elem_of_app, list_elem_of_singleton, <- Hseen.
      split; [tauto|]. intros [H| ->]; assumption.
    + apply bool_decide_eq_false in E.
      rewrite bool_decide_eq_false_2 by (intros H; apply E; now apply Hseen).
      rewrite (IH (unique ++ [pred]) (seen ∪ {[title_key pred]})
                 (earlier ++ [title_key pred])).
      * now rewrite <- app_assoc.
      * intros key.
        rewrite elem_of_union, elem_of_singleton, elem_of_app, list_elem_of_singleton, Hseen.
        reflexivity.
Qed.




End Deduplication.

(** ** Concrete runs *)

Section ConcreteRuns.
Import AutoSchedulingService PredictiveTaskService.

Example int_of_str_accepts_an_integer_literal :
  int_of_str "42" = Ok 42%Z /\ int_of_str " -4_2 " = Ok (-42)%Z.
Proof. split; reflexivity. Qed.

Example int_of_str_rejects_a_name :
  int_of_str "alice" = Raised "invalid literal for int() with base 10: 'alice'".
Proof. reflexivity. Qed.

Example lower_strip_of_a_title : strip (lower "  Reschedule X  ") = "reschedule x".
Proof. reflexivity. Qed.

Example days_of_a_negative_difference :
  days_between (combine 738107 8) (combine 738107 9) = (-1)%Z.
Proof. reflexivity. Qed.

Example sort_desc_keeps_ties_in_order :
  sort_desc snd [(0, 0.5%Q); (10, 0.9%Q); (1, 0.5%Q); (11, 0.95%Q)]
  = [(11, 0.95%Q); (10, 0.9%Q); (0, 0.5%Q); (1, 0.5%Q)].
Proof. reflexivity. Qed.

Example max_by_takes_the_first_maximum :
  max_by [(9, 0.5%Q); (10, 0.9%Q); (14, 0.9%Q)] = Ok 10
  /\ min_by [(9, 0.5%Q); (10, 0.9%Q); (14, 0.5%Q)] = Ok 9
  /\ @max_by nat [] = Raised "max() arg is an empty sequence".
Proof. repeat split; reflexivity. Qed.

(** Scenario A, run through the aggregator on a healthy store. *)
Example scenario_A_run :
  match fst (_get_productivity_patterns "42" (world_with scenario_A_sessions [])) with
  | Ok p =>
      ProductivityPattern.peak_hours p = [11; 10; 0; 1; 2; 3]
      /\ map (fun b => (FocusBlock.start_hour b, FocusBlock.end_hour b,
                        FocusBlock.focus_quality b))
           (ProductivityPattern.optimal_focus_blocks p)
         = [(10, 12, Some "high")]
      /\ (ProductivityPattern.context_switch_tolerance p == 0.5)%Q
  | Raised _ => False
  end.
Proof. vm_compute. repeat split; reflexivity. Qed.

(** The same store, failing: the default pattern. *)
Example default_pattern_run :
  fst (_get_productivity_patterns "42" (world_with scenario_A_sessions [true]))
  = Ok default_patterns.
Proof. reflexivity. Qed.

(** A scheduling run for user 42 over three days, from Sunday to Tuesday:
    the focus block of scenario A is created, nothing is left to suggest. *)
Example scheduling_run :
  match fst (optimize_schedule service "42" (combine 738107 0, combine 738109 0)
               (world_with scenario_A_sessions [])) with
  | Ok r =>
      map ExecResult.status (OptimizationRun.executed_optimizations r) = ["created"]
      /\ OptimizationRun.suggested_optimizations r = []
      /\ ImpactSummary.estimated_focus_time_gained (OptimizationRun.impact_summary r)
         = Some 120%Z
  | Raised _ => False
  end.
Proof. vm_compute. repeat split; reflexivity. Qed.

(** The same run for a user whose identifier is not a number: the focus
    block cannot be created, the failure is recorded and the run returns. *)
Example scheduling_run_with_a_failed_executor :
  match fst (optimize_schedule service "bob" (combine 738107 0, combine 738109 0)
               (world_with scenario_A_sessions [])) with
  | Ok r =>
      map (fun x => (ExecResult.status x, ExecResult.error x))
        (OptimizationRun.executed_optimizations r)
      = [("failed", Some "invalid literal for int() with base 10: 'bob'")]
  | Raised _ => False
  end.
Proof. vm_compute. reflexivity. Qed.

Example failed_focus_block :
  match fst (_execute_optimization service "42" focus_block_candidate
               (world_with [] [true])) with
  | Ok r =>
      ExecResult.status r = "failed"
      /\ ExecResult.error r = Some "database session failed"
      /\ ExecResult.confidence r = Some 0.9%Q
  | Raised _ => False
  end.
Proof. vm_compute. repeat split; reflexivity. Qed.

(** A prediction run for user 42 on a healthy store: twelve predictions,
    two of the first three auto-created. *)
Example prediction_run :
  match fst (generate_predictive_tasks "42" (world_with [] [])) with
  | Ok r =>
      map CreatedTask.title (PredictionRun.auto_created_tasks r)
      = ["URGENT PREP: Project proposal"; "Follow up on Client presentation"]
      /\ PredictionSummary.total_predictions (PredictionRun.prediction_summary r) = 12
      /\ length (PredictionRun.suggested_tasks r) = 10
  | Raised _ => False
  end.
Proof. vm_compute. repeat split; reflexivity. Qed.

(** The same run for a user whose identifier is not a number: the first
    auto-creation raises and so does the run. *)
Example prediction_run_with_a_failed_executor :
  fst (generate_predictive_tasks "alice" (world_with [] []))
  = Raised "invalid literal for int() with base 10: 'alice'".
Proof. vm_compute. reflexivity. Qed.

End ConcreteRuns.

(** * Further properties *)

(** ** Selection of an hour *)

Section HourSelection.
Import AutoSchedulingService.

Lemma Qlt_bool_true (x y : Q) : Qlt_bool x y = true <-> (x < y)%Q.
Proof.
  unfold Qlt_bool. rewrite negb_true_iff. split.
  - intros H. apply Qnot_le_lt. intros Hle. apply Qle_bool_iff in Hle. congruence.
  - intros H. destruct (Qle_bool y x) eqn:E; [|reflexivity].
    apply Qle_bool_iff in E. exfalso. eapply Qlt_not_le; eassumption.
Qed.

Lemma Qlt_bool_false (x y : Q) : Qlt_bool x y = false <-> (y <= x)%Q.
Proof.
  unfold Qlt_bool. rewrite negb_false_iff. apply Qle_bool_iff.
Qed.

(** [max] returns the first element whose key is maximal: the keys before
    it are strictly smaller, the keys after it are not larger. *)
Lemma max_from_first_maximum {A : Type} (l : list (A * Q)) :
  forall best : A * Q,
  exists before k after,
    best :: l = before ++ (max_from best l, k) :: after
    /\ Forall (fun x => (snd x < k)%Q) before
    /\ Forall (fun x => (snd x <= k)%Q) after.
Proof.
  induction l as [|x r IH]; intros best; simpl.
  - exists [], (snd best), []. destruct best. repeat split; constructor.
  - destruct (Qlt_bool (snd best) (snd x)) eqn:E.
    + apply Qlt_bool_true in E.
      destruct (IH x) as (before & k & after & Heq & Hb & Ha).
      exists (best :: before), k, after. rewrite Heq. repeat split; [|exact Ha].
      constructor; [|exact Hb].
      destruct before as [|y before']; simpl in Heq; injection Heq as Hx Hr.
      * assert (Hk : snd x = k) by (rewrite Hx; reflexivity).
        rewrite <- Hk. exact E.
      * subst y. apply Forall_cons in Hb as [Hb _]. eapply Qlt_trans; eassumption.
    + apply Qlt_bool_false in E.
      destruct (IH best) as (before & k & after & Heq & Hb & Ha).
      destruct before as [|y before']; simpl in Heq; injection Heq as Hx Hr.
      * subst after. assert (Hk : snd best = k) by (rewrite Hx; reflexivity).
        exists [], k, (x :: r). simpl. rewrite <- Hx.
        repeat split; [constructor|]. constructor; [|exact Ha].
        rewrite <- Hk. exact E.
      * subst y. exists (best :: x :: before'), k, after.
        apply Forall_cons in Hb as [Hb Hb'].
        split; [simpl; do 2 f_equal; exact Hr|]. split; [|exact Ha].
        constructor; [exact Hb|]. constructor; [|exact Hb'].
        eapply Qle_lt_trans; eassumption.
Qed.

Lemma min_from_first_minimum {A : Type} (l : list (A * Q)) :
  forall best : A * Q,
  exists before k after,
    best :: l = before ++ (min_from best l, k) :: after
    /\ Forall (fun x => (k < snd x)%Q) before
    /\ Forall (fun x => (k <= snd x)%Q) after.
Proof.
  induction l as [|x r IH]; intros best; simpl.
  - exists [], (snd best), []. destruct best. repeat split; constructor.
  - destruct (Qlt_bool (snd x) (snd best)) eqn:E.
    + apply Qlt_bool_true in E.
      destruct (IH x) as (before & k & after & Heq & Hb & Ha).
      exists (best :: before), k, after. rewrite Heq. repeat split; [|exact Ha].
      constructor; [|exact Hb].
      destruct before as [|y before']; simpl in Heq; injection Heq as Hx Hr.
      * assert (Hk : snd x = k) by (rewrite Hx; reflexivity).
        rewrite <- Hk. exact E.
      * subst y. apply Forall_cons in Hb as [Hb _]. eapply Qlt_trans; eassumption.
    + apply Qlt_bool_false in E.
      destruct (IH best) as (before & k & after & Heq & Hb & Ha).
      destruct before as [|y before']; simpl in Heq; injection Heq as Hx Hr.
      * subst after. assert (Hk : snd best = k) by (rewrite Hx; reflexivity).
        exists [], k, (x :: r). simpl. rewrite <- Hx.
        repeat split; [constructor|]. constructor; [|exact Ha].
        rewrite <- Hk. exact E.
      * subst y. exists (best :: x :: before'), k, after.
        apply Forall_cons in Hb as [Hb Hb'].
        split; [simpl; do 2 f_equal; exact Hr|]. split; [|exact Ha].
        constructor; [exact Hb|]. constructor; [|exact Hb'].
        eapply Qlt_le_trans; eassumption.
Qed.

(** The keyed list of [with_scores] lists the hours in order, each with
    the key of its score. *)
Lemma with_scores_spec (patterns : ProductivityPattern.t) (f : Q -> Q) (hours : list nat)
    (keyed : list (nat * Q)) :
  with_scores patterns f hours = Ok keyed ->
  Forall2 (fun h x => fst x = h /\ exists s, hour_score patterns h = Ok s /\ snd x = f s)
    hours keyed.
Proof.
  unfold with_scores. revert keyed.
  induction hours as [|h r IH]; simpl; intros keyed H.
  - injection H as <-. constructor.
  - apply obind_Ok in H as ([h' k] & H1 & H).
    apply obind_Ok in H as (keyed' & H2 & H). injection H as <-.
    apply obind_Ok in H1 as (data & Hd & H1). injection H1 as <- <-.
    constructor; [|now apply IH].
    split; [reflexivity|]. exists (HourStats.avg_focus_score data).
    unfold hour_score. rewrite Hd. split; reflexivity.
Qed.

Lemma with_scores_missing (patterns : ProductivityPattern.t) (f : Q -> Q) (hours : list nat)
    (h : nat) :
  In h hours -> is_ok (hour_score patterns h) = false ->
  is_ok (with_scores patterns f hours) = false.
Proof.
  unfold with_scores, hour_score.
  induction hours as [|h' r IH]; simpl; intros Hin Hh; [contradiction|].
  destruct (getitem (ProductivityPattern.hourly_productivity patterns) h') as [d|e] eqn:E;
    simpl; [|reflexivity].
  destruct Hin as [->|Hin]; [rewrite E in Hh; discriminate Hh|].
  specialize (IH Hin Hh).
  destruct (omap _ r); [discriminate IH|reflexivity].
Qed.

End HourSelection.

Section HourSelectionClaims.
Import AutoSchedulingService.

Lemma Forall2_transfer {A B : Type} (R : A -> B -> Prop) (P : B -> Prop) (Q : A -> Prop)
    (l : list A) (k : list B) :
  (forall a b, R a b -> P b -> Q a) -> Forall2 R l k -> Forall P k -> Forall Q l.
Proof.
  intros HR HF. induction HF as [|a b l k Hab _ IH]; intros HP; [constructor|].
  apply Forall_cons in HP as [Hb HP]. constructor; eauto.
Qed.

(** A decomposition of the keyed list around its selected element is a
    decomposition of the hours around the selected hour. *)
Lemma keyed_decomposition (patterns : ProductivityPattern.t) (f : Q -> Q)
    (hours : list nat) (keyed before after : list (nat * Q)) (h : nat) (k : Q)
    (Rb Ra : Q -> Q -> Prop) :
  with_scores patterns f hours = Ok keyed ->
  keyed = before ++ (h, k) :: after ->
  Forall (fun x => Rb (snd x) k) before ->
  Forall (fun x => Ra (snd x) k) after ->
  exists hb ha s,
    hours = hb ++ h :: ha
    /\ hour_score patterns h = Ok s /\ k = f s
    /\ Forall (scores_as patterns (fun s' => Rb (f s') k)) hb
    /\ Forall (scores_as patterns (fun s' => Ra (f s') k)) ha.
Proof.
  intros Hk Heq Hb Ha. apply with_scores_spec in Hk. rewrite Heq in Hk.
  apply Forall2_app_inv_r in Hk as (hb & rest & Hhb & Hrest & ->).
  apply Forall2_cons_inv_r in Hrest as (h0 & ha & [Hh (s & Hs & Hks)] & Hha & ->).
  simpl in Hh, Hks. subst h0.
  exists hb, ha, s. repeat split; try assumption.
  - eapply Forall2_transfer; [|exact Hhb|exact Hb].
    intros a b [Hab (s' & Hs' & Hb')] HR. exists s'. split; [exact Hs'|].
    now rewrite <- Hb'.
  - eapply Forall2_transfer; [|exact Hha|exact Ha].
    intros a b [Hab (s' & Hs' & Hb')] HR. exists s'. split; [exact Hs'|].
    now rewrite <- Hb'.
Qed.

(** X1.  For a block that needs high energy, [_find_optimal_time_slot]
    returns the first peak hour whose average focus score is maximal: the
    peak hours listed before it score strictly less, those after it score no
    more.  It raises when there is no peak hour, and when a peak hour has no
    entry in the hourly table.  For any other block it returns the first
    working hour (9 to 17) whose score is minimal. *)
Theorem optimal_time_slot_is_the_first_best_hour :
  (forall (block : ScheduleBlock.t) (patterns : ProductivityPattern.t) (h : nat),
      Qlt_bool 0.7 (ScheduleBlock.energy_requirement block) = true ->
      _find_optimal_time_slot block patterns = Ok h ->
      exists before after s,
        ProductivityPattern.peak_hours patterns = before ++ h :: after
        /\ hour_score patterns h = Ok s
        /\ Forall (scores_as patterns (fun s' => (s' < s)%Q)) before
        /\ Forall (scores_as patterns (fun s' => (s' <= s)%Q)) after)
  /\ (forall (block : ScheduleBlock.t) (patterns : ProductivityPattern.t),
         Qlt_bool 0.7 (ScheduleBlock.energy_requirement block) = true ->
         ProductivityPattern.peak_hours patterns = [] ->
         is_ok (_find_optimal_time_slot block patterns) = false)
  /\ (forall (block : ScheduleBlock.t) (patterns : ProductivityPattern.t) (h : nat),
         Qlt_bool 0.7 (ScheduleBlock.energy_requirement block) = true ->
         In h (ProductivityPattern.peak_hours patterns) ->
         is_ok (hour_score patterns h) = false ->
         is_ok (_find_optimal_time_slot block patterns) = false)
  /\ (forall (block : ScheduleBlock.t) (patterns : ProductivityPattern.t) (h : nat),
         Qlt_bool 0.7 (ScheduleBlock.energy_requirement block) = false ->
         _find_optimal_time_slot block patterns = Ok h ->
         exists before after s,
           working_hours = before ++ h :: after
           /\ hour_score patterns h = Ok s
           /\ Forall (scores_as patterns (fun s' => (s < s')%Q)) before
           /\ Forall (scores_as patterns (fun s' => (s <= s')%Q)) after).
Proof.
  split; [|split; [|split]].
  - intros block patterns h He H. unfold _find_optimal_time_slot in H. rewrite He in H.
    apply obind_Ok in H as (keyed & Hk & H).
    destruct keyed as [|x r]; [discriminate|]. injection H as H.
    destruct (max_from_first_maximum r x) as (before & k & after & Heq & Hb & Ha).
    rewrite H in Heq.
    destruct (keyed_decomposition patterns (fun s => s) _ _ _ _ h k
                (fun a b => (a < b)%Q) (fun a b => (a <= b)%Q) Hk Heq Hb Ha)
      as (hb & ha & s & Hh & Hs & -> & Hhb & Hha).
    exists hb, ha, s. auto.
  - intros block patterns He Hp. unfold _find_optimal_time_slot. rewrite He, Hp. reflexivity.
  - intros block patterns h He Hin Hh. unfold _find_optimal_time_slot. rewrite He.
    pose proof (with_scores_missing patterns (fun s => s) _ h Hin Hh) as Hw.
    destruct (with_scores patterns (fun s => s) (ProductivityPattern.peak_hours patterns));
      [discriminate Hw|reflexivity].
  - intros block patterns h He H. unfold _find_optimal_time_slot in H. rewrite He in H.
    apply obind_Ok in H as (keyed & Hk & H).
    destruct keyed as [|x r]; [discriminate|]. injection H as H.
    destruct (min_from_first_minimum r x) as (before & k & after & Heq & Hb & Ha).
    rewrite H in Heq.
    destruct (keyed_decomposition patterns (fun s => s) _ _ _ _ h k
                (fun a b => (b < a)%Q) (fun a b => (b <= a)%Q) Hk Heq Hb Ha)
      as (hb & ha & s & Hh & Hs & -> & Hhb & Hha).
    exists hb, ha, s. auto.
Qed.

(** Witness of the theorem above: the deep-work block and the default
    pattern, whose four peak hours all score 0.5. *)
Lemma optimal_time_slot_is_the_first_best_hour_witness :
  exists after,
    _find_optimal_time_slot deep_work default_patterns = Ok 9
    /\ ProductivityPattern.peak_hours default_patterns = 9 :: after.
Proof.
  destruct (proj1 optimal_time_slot_is_the_first_best_hour deep_work default_patterns 9
              eq_refl eq_refl) as (before & after & s & Hp & Hs & Hb & _).
  exists after. split; [reflexivity|].
  destruct before as [|h before']; [exact Hp|].
  exfalso. change (ProductivityPattern.peak_hours default_patterns) with [9; 10; 14; 15] in Hp.
  injection Hp as Hh _. subst h.
  apply Forall_cons in Hb as [(s' & Hs' & Hlt) _].
  rewrite Hs in Hs'. injection Hs' as <-. exact (Qlt_irrefl _ Hlt).
Defined.



End HourSelectionClaims.

(** ** Hours and days of a datetime *)

Section Datetimes.

Lemma us_per_day_hours : us_per_day = (24 * us_per_hour)%Z.
Proof. reflexivity. Qed.

Lemma us_per_hour_pos : (0 < us_per_hour)%Z.
Proof. reflexivity. Qed.

Lemma hour_of_lt (t : datetime) : hour_of t < 24.
Proof.
  unfold hour_of.
  pose proof (Z.mod_pos_bound (t / us_per_hour) 24 eq_refl). lia.
Qed.

Lemma hour_of_Z (t : datetime) : Z.of_nat (hour_of t) = ((t / us_per_hour) mod 24)%Z.
Proof.
  unfold hour_of.
  pose proof (Z.mod_pos_bound (t / us_per_hour) 24 eq_refl). lia.
Qed.

Lemma date_of_hours (t : datetime) : date_of t = (t / us_per_hour / 24)%Z.
Proof.
  unfold date_of. rewrite us_per_day_hours, Z.mul_comm.
  rewrite Z.div_div; [reflexivity|discriminate|reflexivity].
Qed.

(** The hours of a datetime whose hour of day was replaced by [h]. *)
Lemma replaced_hours (t : datetime) (h : nat) :
  ((t - Z.of_nat (hour_of t) * us_per_hour + Z.of_nat h * us_per_hour) / us_per_hour
   = 24 * (t / us_per_hour / 24) + Z.of_nat h)%Z.
Proof.
  rewrite hour_of_Z.
  pose proof (Z.div_mod t us_per_hour ltac:(discriminate)) as Ht.
  pose proof (Z.mod_pos_bound t us_per_hour us_per_hour_pos) as Hr.
  pose proof (Z.div_mod (t / us_per_hour) 24 ltac:(discriminate)) as Hq.
  set (q := (t / us_per_hour)%Z) in *. set (r := (t mod us_per_hour)%Z) in *.
  symmetry. apply (Z.div_unique_pos _ _ _ r); [exact Hr|].
  clearbody q r. nia.
Qed.

(** [t.replace(hour=h)] sets the hour and keeps the day; it raises exactly
    when [h] is not an hour of the day. *)
Lemma replace_hour_ok (t t' : datetime) (h : nat) :
  replace_hour t h = Ok t' -> h < 24 /\ hour_of t' = h /\ date_of t' = date_of t.
Proof.
  unfold replace_hour. destruct (h <? 24)%nat eqn:E; [|discriminate].
  apply Nat.ltb_lt in E. intros H. injection H as <-. split; [exact E|]. split.
  - unfold hour_of. rewrite replaced_hours.
    rewrite Z.add_comm, Z.mul_comm, Z.mod_add by discriminate.
    rewrite Z.mod_small by lia. lia.
  - rewrite !date_of_hours, replaced_hours.
    rewrite Z.add_comm, Z.mul_comm, Z.div_add by discriminate.
    rewrite Z.div_small by lia. reflexivity.
Qed.

Lemma hour_of_combine (d : Z) (h : nat) : h < 24 -> hour_of (combine d h) = h.
Proof.
  intros Hh. unfold hour_of, combine. rewrite us_per_day_hours.
  replace (d * (24 * us_per_hour) + Z.of_nat h * us_per_hour)%Z
    with ((d * 24 + Z.of_nat h) * us_per_hour)%Z by ring.
  rewrite Z.div_mul by discriminate.
  rewrite Z.add_comm, Z.mod_add by discriminate.
  rewrite Z.mod_small by lia. lia.
Qed.

Lemma date_of_combine (d : Z) (h : nat) : h < 24 -> date_of (combine d h) = d.
Proof.
  intros Hh. rewrite date_of_hours. unfold combine. rewrite us_per_day_hours.
  replace (d * (24 * us_per_hour) + Z.of_nat h * us_per_hour)%Z
    with ((d * 24 + Z.of_nat h) * us_per_hour)%Z by ring.
  rewrite Z.div_mul by discriminate.
  rewrite Z.add_comm, Z.div_add by discriminate.
  rewrite Z.div_small by lia. reflexivity.
Qed.

Lemma mem_nat_In (h : nat) (l : list nat) : mem_nat h l = true <-> In h l.
Proof.
  unfold mem_nat. rewrite existsb_exists. split.
  - intros (x & Hx & E). apply Nat.eqb_eq in E. now subst.
  - intros H. exists h. split; [exact H|apply Nat.eqb_refl].
Qed.

End Datetimes.

(** ** Where the candidates of the scheduling service come from *)

Section CandidateFacts.
Import AutoSchedulingService.

Lemma omap_In {A B : Type} (f : A -> Outcome (list B)) (l : list A) (ys : list (list B))
    (y : B) :
  omap f l = Ok ys -> In y (concat ys) ->
  exists x found, In x l /\ f x = Ok found /\ In y found.
Proof.
  revert ys. induction l as [|x r IH]; simpl; intros ys H Hin.
  - injection H as <-. contradiction.
  - apply obind_Ok in H as (found & Hx & H).
    apply obind_Ok in H as (ys' & Hr & H). injection H as <-.
    simpl in Hin. apply in_app_or in Hin as [Hin|Hin].
    + exists x, found. auto.
    + destruct (IH ys' Hr Hin) as (x' & found' & ? & ? & ?). exists x', found'. auto.
Qed.

Lemma replace_hour_shift (t t' : datetime) (h : nat) :
  replace_hour t h = Ok t' ->
  (t' - t = (Z.of_nat h - Z.of_nat (hour_of t)) * us_per_hour)%Z.
Proof.
  unfold replace_hour. destruct (h <? 24)%nat; [|discriminate].
  intros H. injection H as <-. ring.
Qed.

(** The hour selected from a keyed list is one of the hours that were
    keyed. *)
Lemma max_by_with_scores_In (patterns : ProductivityPattern.t) (f : Q -> Q)
    (hours : list nat) (h : nat) :
  obind (with_scores patterns f hours) max_by = Ok h -> In h hours.
Proof.
  intros H. apply obind_Ok in H as (keyed & Hk & H).
  destruct keyed as [|x r]; [discriminate|]. injection H as H.
  destruct (max_from_first_maximum r x) as (before & k & after & Heq & Hb & Ha).
  rewrite H in Heq.
  destruct (keyed_decomposition patterns f _ _ _ _ h k
              (fun a b => (a < b)%Q) (fun a b => (a <= b)%Q) Hk Heq Hb Ha)
    as (hb & ha & s & -> & _).
  apply in_or_app. right. now left.
Qed.

Lemma min_by_with_scores_In (patterns : ProductivityPattern.t) (f : Q -> Q)
    (hours : list nat) (h : nat) :
  obind (with_scores patterns f hours) min_by = Ok h -> In h hours.
Proof.
  intros H. apply obind_Ok in H as (keyed & Hk & H).
  destruct keyed as [|x r]; [discriminate|]. injection H as H.
  destruct (min_from_first_minimum r x) as (before & k & after & Heq & Hb & Ha).
  rewrite H in Heq.
  destruct (keyed_decomposition patterns f _ _ _ _ h k
              (fun a b => (b < a)%Q) (fun a b => (b <= a)%Q) Hk Heq Hb Ha)
    as (hb & ha & s & -> & _).
  apply in_or_app. right. now left.
Qed.

Lemma _find_optimal_time_slot_peak (block : ScheduleBlock.t)
    (patterns : ProductivityPattern.t) (h : nat) :
  Qlt_bool 0.7 (ScheduleBlock.energy_requirement block) = true ->
  _find_optimal_time_slot block patterns = Ok h ->
  In h (ProductivityPattern.peak_hours patterns).
Proof.
  intros He H. unfold _find_optimal_time_slot in H. rewrite He in H.
  eapply max_by_with_scores_In; exact H.
Qed.

Lemma _find_meeting_alternative_time_non_peak (block : ScheduleBlock.t)
    (patterns : ProductivityPattern.t) (h : nat) :
  _find_meeting_alternative_time block patterns = Ok h ->
  h <> hour_of (ScheduleBlock.start_time block) ->
  In h (non_peak_working_hours patterns).
Proof.
  unfold _find_meeting_alternative_time. fold (non_peak_working_hours patterns).
  intros H Hne.
  destruct (non_peak_working_hours patterns) as [|h0 r0] eqn:Enp; [congruence|].
  rewrite <- Enp in H. rewrite <- Enp. eapply min_by_with_scores_In; exact H.
Qed.

(** The candidates that one block gives: each proposes to move that
    block. *)
Lemma block_opportunities_moves (patterns : ProductivityPattern.t)
    (block : ScheduleBlock.t) (found : list ScheduleOptimization.t) :
  block_opportunities patterns block = Ok found ->
  Forall (proposes_move patterns block) found.
Proof.
  unfold block_opportunities. intros H.
  destruct (ScheduleBlock.moveable block) eqn:Em; simpl in H;
    [|injection H as <-; constructor].
  apply obind_Ok in H as (rescheduled & H1 & H).
  apply obind_Ok in H as (moved & H2 & H). injection H as <-.
  apply Forall_app. split.
  - clear H2.
    match type of H1 with (if ?c then _ else _) = _ => destruct c eqn:Ec end;
      [|injection H1 as <-; constructor].
    apply andb_prop in Ec as [Ec Hlow]. apply andb_prop in Ec as [Htask Henergy].
    apply bool_decide_eq_true in Htask. apply mem_nat_In in Hlow.
    apply obind_Ok in H1 as (suggested_hour & Hslot & H1).
    destruct (suggested_hour =? hour_of (ScheduleBlock.start_time block))%nat eqn:En;
      simpl in H1; [injection H1 as <-; constructor|].
    apply Nat.eqb_neq in En.
    apply obind_Ok in H1 as (suggested & Hr & H1). injection H1 as <-.
    pose proof (replace_hour_shift _ _ _ Hr) as Hshift.
    apply replace_hour_ok in Hr as (_ & Hhour & Hdate).
    constructor; [|constructor].
    split; [exact Em|]. split; [reflexivity|]. split; [reflexivity|].
    exists suggested. cbn [ScheduleOptimization.suggested_time
                             ScheduleOptimization.optimization_type].
    rewrite Hhour. repeat (split; [assumption || reflexivity|]).
    left. repeat (split; [assumption || reflexivity|]).
    split; [now apply Qlt_bool_true|]. split; [exact Hlow|].
    eapply _find_optimal_time_slot_peak; eassumption.
  - clear H1.
    match type of H2 with (if ?c then _ else _) = _ => destruct c eqn:Ec end;
      [|injection H2 as <-; constructor].
    apply andb_prop in Ec as [Ec Himp]. apply andb_prop in Ec as [Hmeeting Hpeak].
    apply bool_decide_eq_true in Hmeeting. apply mem_nat_In in Hpeak.
    apply obind_Ok in H2 as (alternative_hour & Halt & H2).
    destruct (alternative_hour =? hour_of (ScheduleBlock.start_time block))%nat eqn:En;
      simpl in H2; [injection H2 as <-; constructor|].
    apply Nat.eqb_neq in En.
    apply obind_Ok in H2 as (suggested & Hr & H2). injection H2 as <-.
    pose proof (replace_hour_shift _ _ _ Hr) as Hshift.
    apply replace_hour_ok in Hr as (_ & Hhour & Hdate).
    constructor; [|constructor].
    split; [exact Em|]. split; [reflexivity|]. split; [reflexivity|].
    exists suggested. cbn [ScheduleOptimization.suggested_time
                             ScheduleOptimization.optimization_type].
    rewrite Hhour. repeat (split; [assumption || reflexivity|]).
    right. repeat (split; [assumption || reflexivity|]).
    split; [now apply Qlt_bool_true|]. split; [exact Hpeak|].
    eapply _find_meeting_alternative_time_non_peak; eassumption.
Qed.

End CandidateFacts.

(** ** Focus windows *)

Section FocusWindows.
Import AutoSchedulingService.

Lemma replace_hour_on_the_hour_ok (t : datetime) (h : nat) :
  h < 24 -> replace_hour_on_the_hour t h = Ok (combine (date_of t) h).
Proof.
  intros Hh. unfold replace_hour_on_the_hour.
  apply Nat.ltb_lt in Hh. now rewrite Hh.
Qed.

Lemma replace_hour_on_the_hour_inv (t t' : datetime) (h : nat) :
  replace_hour_on_the_hour t h = Ok t' -> h < 24 /\ t' = combine (date_of t) h.
Proof.
  unfold replace_hour_on_the_hour. destruct (h <? 24)%nat eqn:E; [|discriminate].
  apply Nat.ltb_lt in E. intros H. injection H as <-. auto.
Qed.

(** The candidates of the focus generator, when it returns: one for each
    free window, in order, on the day of a reading of the clock. *)
Lemma focus_candidates (schedule : list ScheduleBlock.t) (patterns : ProductivityPattern.t)
    (w w' : World) (found : list ScheduleOptimization.t) :
  _identify_focus_block_opportunities schedule patterns w = (Ok found, w') ->
  clock w' = clock w
  /\ Forall2 (blocks_window (clock w)) (free_windows patterns schedule) found.
Proof.
  unfold _identify_focus_block_opportunities, free_windows.
  generalize (ProductivityPattern.optimal_focus_blocks patterns). intros blocks.
  unfold bind at 1. unfold ret at 2.
  match goal with |- context [mapM ?f blocks w] => set (per_window := f) end.
  intros H. destruct (mapM per_window blocks w) as [[ll|e] w1] eqn:E; [|discriminate].
  injection H as <- <-.
  remember (clock w) as c eqn:Hc. symmetry in Hc.
  revert w ll w1 Hc E. induction blocks as [|b r IH]; intros w ll w1 Hc E.
  - injection E as <- <-. split; [exact Hc|constructor].
  - simpl in E. unfold bind at 1 in E.
    destruct (per_window b w) as [[y|e] wa] eqn:Eb; [|discriminate].
    unfold bind at 1 in E.
    destruct (mapM per_window r wa) as [[ys|e] wb] eqn:Er; [|discriminate].
    unfold ret in E. injection E as <- <-.
    unfold per_window at 1 in Eb. fold (conflicts_with b schedule) in Eb.
    simpl. destruct (length (conflicts_with b schedule) <=? 1)%nat eqn:Efree.
    + unfold bind, datetime_now, lift, ret in Eb.
      destruct (replace_hour_on_the_hour (clock w (clock_reads w)) (FocusBlock.start_hour b))
        as [t|e] eqn:Et; [|discriminate].
      injection Eb as <- <-.
      apply replace_hour_on_the_hour_inv in Et as [_ ->].
      destruct (IH (with_clock_reads (S (clock_reads w)) w) ys wb Hc Er) as [Hcb HF].
      split; [exact Hcb|]. simpl. constructor; [|exact HF].
      repeat (split; [reflexivity|]). exists (clock_reads w). now rewrite <- Hc.
    + unfold ret in Eb. injection Eb as <- <-.
      destruct (IH _ ys wb Hc Er) as [Hcb HF]. split; [exact Hcb|exact HF].
Qed.

(** The focus generator returns when every free window starts at an hour
    of the day. *)
Lemma focus_candidates_total (schedule : list ScheduleBlock.t)
    (patterns : ProductivityPattern.t) (w : World) :
  Forall (fun b => FocusBlock.start_hour b < 24) (free_windows patterns schedule) ->
  exists found w', _identify_focus_block_opportunities schedule patterns w = (Ok found, w').
Proof.
  unfold _identify_focus_block_opportunities, free_windows.
  generalize (ProductivityPattern.optimal_focus_blocks patterns). intros blocks Hb.
  match goal with |- context [mapM ?f blocks] => set (per_window := f) end.
  assert (Hm : exists ll w', mapM per_window blocks w = (Ok ll, w')).
  { revert w. induction blocks as [|b r IH]; intros w; [do 2 eexists; reflexivity|].
    simpl in Hb.
    assert (Hfirst : exists y wa, per_window b w = (Ok y, wa)).
    { unfold per_window. fold (conflicts_with b schedule).
      destruct (length (conflicts_with b schedule) <=? 1)%nat eqn:Efree;
        [|do 2 eexists; reflexivity].
      apply Forall_cons in Hb as [Hh _].
      unfold bind, datetime_now, lift, ret.
      rewrite (replace_hour_on_the_hour_ok _ _ Hh). do 2 eexists; reflexivity. }
    destruct Hfirst as (y & wa & Ey).
    assert (Hr : Forall (fun b => FocusBlock.start_hour b < 24)
                   (List.filter (fun b => (length (conflicts_with b schedule) <=? 1)%nat) r)).
    { destruct (length (conflicts_with b schedule) <=? 1)%nat; [|exact Hb].
      now apply Forall_cons in Hb as [_ Hb]. }
    destruct (IH Hr wa) as (ys & wb & Er).
    exists (y :: ys), wb. simpl. unfold bind at 1. rewrite Ey.
    unfold bind at 1. rewrite Er. reflexivity. }
  destruct Hm as (ll & w' & E). exists (concat ll), w'.
  unfold bind. rewrite E. reflexivity.
Qed.

(** X3.  When the focus generator returns, it returns one candidate for
    each focus window of the pattern that has at most one block of the
    schedule in its way, in the order of the windows; the candidate
    starts at the first hour of the window, on the hour, on the day of a
    reading of the clock (the current day, whatever days the schedule
    covers), and lasts as long as the window.  It returns whenever these
    windows start at an hour of the day. *)
Theorem focus_candidates_are_the_free_windows :
  (forall (schedule : list ScheduleBlock.t) (patterns : ProductivityPattern.t)
          (w w' : World) (found : list ScheduleOptimization.t),
      _identify_focus_block_opportunities schedule patterns w = (Ok found, w') ->
      Forall2 (blocks_window (clock w)) (free_windows patterns schedule) found)
  /\ (forall (schedule : list ScheduleBlock.t) (patterns : ProductivityPattern.t)
             (w : World),
         Forall (fun b => FocusBlock.start_hour b < 24) (free_windows patterns schedule) ->
         is_ok (fst (_identify_focus_block_opportunities schedule patterns w)) = true).
Proof.
  split.
  - intros schedule patterns w w' found H. now apply focus_candidates in H.
  - intros schedule patterns w H.
    destruct (focus_candidates_total schedule patterns w H) as (found & w' & E).
    now rewrite E.
Qed.

(** Witness of the theorem above: the sample blocks of a Monday and the
    default pattern, whose window from 9 to 11 is free. *)
Lemma focus_candidates_are_the_free_windows_witness :
  exists o,
    fst (_identify_focus_block_opportunities (sample_day 738108) default_patterns
           (world_with [] []))
    = Ok [o]
    /\ option_map hour_of (ScheduleOptimization.suggested_time o) = Some 9
    /\ ScheduleOptimization.duration o = Some 120%Z.
Proof.
  destruct (_identify_focus_block_opportunities (sample_day 738108) default_patterns
              (world_with [] [])) as [[found|e] w'] eqn:E.
  - pose proof (proj1 focus_candidates_are_the_free_windows _ _ _ _ _ E) as HF.
    change (free_windows default_patterns (sample_day 738108))
      with [ {| FocusBlock.start_hour := 9; FocusBlock.end_hour := 11;
                FocusBlock.productivity_score := 0.8; FocusBlock.focus_quality := None |} ]
      in HF.
    apply Forall2_cons_inv_l in HF as (o & rest & Ho & Hrest & ->).
    apply Forall2_nil_inv_l in Hrest as ->.
    exists o. split; [reflexivity|].
    destruct Ho as (_ & _ & _ & Hd & n & Hs). split; [|exact Hd].
    rewrite Hs. simpl. f_equal. apply hour_of_combine. lia.
  - exfalso.
    assert (Hok : is_ok (fst (_identify_focus_block_opportunities (sample_day 738108)
                                default_patterns (world_with [] []))) = true).
    { apply (proj2 focus_candidates_are_the_free_windows).
      repeat constructor. }
    rewrite E in Hok. discriminate Hok.
Defined.

End FocusWindows.

(** ** Proposals to move a block *)

Section Moves.
Import AutoSchedulingService.

Lemma focus_candidates_kind (schedule : list ScheduleBlock.t)
    (patterns : ProductivityPattern.t) (w w' : World) (found : list ScheduleOptimization.t) :
  _identify_focus_block_opportunities schedule patterns w = (Ok found, w') ->
  Forall (fun o => ScheduleOptimization.optimization_type o = BLOCK_FOCUS_TIME) found.
Proof.
  intros H. apply focus_candidates in H as [_ HF].
  induction HF as [|b o bs os Ho _ IH]; constructor; [apply Ho|exact IH].
Qed.

Lemma meeting_consolidation_kind (schedule : list ScheduleBlock.t) :
  Forall (fun o => ScheduleOptimization.optimization_type o = CONSOLIDATE_MEETINGS)
    (_identify_meeting_consolidation schedule).
Proof.
  unfold _identify_meeting_consolidation. apply Forall_flat_map_all.
  intros [day day_meetings]. repeat case_match;
    first [ constructor 1 | constructor 2; [reflexivity | constructor 1] ].
Qed.

(** The ranked list, when the generators return: a rearrangement of their
    candidates. *)
Lemma ranked_candidates (schedule : list ScheduleBlock.t) (patterns : ProductivityPattern.t)
    (w w' : World) (ranked : list ScheduleOptimization.t) :
  _identify_optimization_opportunities schedule patterns w = (Ok ranked, w') ->
  ranked = []
  \/ exists per_block focus,
       omap (block_opportunities patterns) schedule = Ok per_block
       /\ _identify_focus_block_opportunities schedule patterns w = (Ok focus, w')
       /\ ranked = sort_desc ScheduleOptimization.impact_score
                     (concat per_block ++ focus ++ _identify_meeting_consolidation schedule).
Proof.
  unfold _identify_optimization_opportunities, catch, bind, lift, ret. intros H.
  destruct (omap (block_opportunities patterns) schedule) as [per_block|e] eqn:E1;
    [|injection H as <- _; now left].
  destruct (_identify_focus_block_opportunities schedule patterns w) as [[focus|e] w1] eqn:E2;
    [|injection H as <- _; now left].
  injection H as <- <-. right. exists per_block, focus. auto.
Qed.

(** X4.  Every candidate of the ranked list that reschedules a task or
    moves a meeting comes from a moveable block of the schedule: it is
    titled after the block, keeps its day and its minutes and changes its
    hour.  A task is proposed only if it needs an energy above 0.7 and
    starts at a low-energy hour, and its new hour is a peak hour; a meeting
    only if its importance is below 0.9 and it starts at a peak hour, and
    its new hour is a working hour (9 to 17) that is not a peak hour. *)
Theorem moves_come_from_the_schedule (schedule : list ScheduleBlock.t)
    (patterns : ProductivityPattern.t) (w w' : World)
    (ranked : list ScheduleOptimization.t) (o : ScheduleOptimization.t) :
  _identify_optimization_opportunities schedule patterns w = (Ok ranked, w') ->
  In o ranked ->
  ScheduleOptimization.optimization_type o = RESCHEDULE_LOW_ENERGY_TASKS
  \/ ScheduleOptimization.optimization_type o = MOVE_MEETING_FROM_PEAK_FOCUS ->
  exists block, In block schedule /\ proposes_move patterns block o.
Proof.
  intros H Hin Hkind.
  apply ranked_candidates in H as [->|(per_block & focus & E1 & E2 & ->)]; [contradiction|].
  apply (Permutation_in _ (Permutation_sym (sort_desc_perm _ _))) in Hin.
  apply in_app_or in Hin as [Hin|Hin]; [|apply in_app_or in Hin as [Hin|Hin]].
  - destruct (omap_In _ _ _ _ E1 Hin) as (block & found & Hb & Hf & Ho).
    exists block. split; [exact Hb|].
    apply block_opportunities_moves in Hf.
    eapply List.Forall_forall in Hf; eassumption.
  - exfalso. apply focus_candidates_kind in E2.
    eapply List.Forall_forall in E2; [|exact Hin]. simpl in E2.
    destruct Hkind; congruence.
  - exfalso. pose proof (meeting_consolidation_kind schedule) as Hc.
    eapply List.Forall_forall in Hc; [|exact Hin]. simpl in Hc.
    destruct Hkind; congruence.
Qed.

(** Witness of the theorem above: the sample blocks of a Monday, for a
    user whose best hour is noon and whose worst hour is 14:00.  The deep
    work of 14:00 is proposed for noon. *)
Lemma moves_come_from_the_schedule_witness :
  exists o block,
    ScheduleOptimization.title o = "Reschedule Deep Work Session"
    /\ In block (sample_day 738108) /\ proposes_move (analyze busy_sessions) block o.
Proof.
  assert (E : forall w,
             exists o later,
               _identify_optimization_opportunities (sample_day 738108)
                 (analyze busy_sessions) w = (Ok (o :: later), w)
               /\ ScheduleOptimization.title o = "Reschedule Deep Work Session"
               /\ ScheduleOptimization.optimization_type o = RESCHEDULE_LOW_ENERGY_TASKS).
  { intros w. do 2 eexists. split; [vm_compute; reflexivity|]. split; reflexivity. }
  destruct (E (world_with [] [])) as (o & later & H & Ht & Hk).
  exists o.
  destruct (moves_come_from_the_schedule _ _ _ _ _ o H (or_introl eq_refl) (or_introl Hk))
    as (block & Hb & Hp).
  exists block. auto.
Defined.

End Moves.

(** ** Patterns of the aggregator *)

Section AggregatorPatterns.
Import AutoSchedulingService.

Lemma getitem_complete {V : Type} (d : list (nat * V)) (k : nat) :
  In k (map fst d) -> exists v, getitem d k = Ok v.
Proof.
  induction d as [|[k' v] r IH]; simpl; [contradiction|].
  intros [->|Hin]; [rewrite Nat.eqb_refl; eauto|].
  destruct (k' =? k)%nat; eauto.
Qed.

Lemma Forall_flat_map_in {A B : Type} (P : B -> Prop) (f : A -> list B) (l : list A) :
  (forall x, In x l -> Forall P (f x)) -> Forall P (flat_map f l).
Proof.
  induction l as [|x r IH]; simpl; intros Hf; [constructor|].
  apply Forall_app. split; [apply Hf; now left|]. apply IH. intros y Hy. apply Hf. now right.
Qed.

Lemma obind_total {A B : Type} (m : Outcome A) (k : A -> Outcome B) :
  (exists a, m = Ok a) -> (forall a, exists b, k a = Ok b) -> exists b, obind m k = Ok b.
Proof. intros [a ->] Hk. simpl. apply Hk. Qed.

Lemma complete_table_scores (patterns : ProductivityPattern.t) :
  map fst (ProductivityPattern.hourly_productivity patterns) = seq 0 24 ->
  forall h, h < 24 -> is_ok (hour_score patterns h) = true.
Proof.
  intros Ht h Hh. unfold hour_score.
  destruct (getitem_complete (ProductivityPattern.hourly_productivity patterns) h)
    as [v ->]; [|reflexivity].
  rewrite Ht. apply in_seq. lia.
Qed.

(** The invariants of the patterns that the aggregator returns. *)
Lemma aggregator_well_formed (patterns : ProductivityPattern.t) :
  from_the_aggregator patterns -> well_formed patterns.
Proof.
  intros [->|[sessions ->]].
  - split; [apply complete_table_scores; reflexivity|].
    split; [discriminate|]. split; repeat constructor.
  - destruct (quartiles_of_analyze sessions) as (Hp & _ & Hnd & Hlen).
    pose proof (hourly_scores_hours sessions) as Hperm.
    set (hours := map fst (hourly_scores_of (hourly_productivity_of sessions))) in *.
    clearbody hours.
    split; [apply complete_table_scores; apply hourly_productivity_hours|].
    split; [|split].
    + rewrite Hp. destruct hours; [discriminate Hlen|discriminate].
    + rewrite Hp. apply List.Forall_forall. intros h Hh.
      assert (Hin : In h hours).
      { rewrite <- (firstn_skipn 6 hours). apply in_or_app. now left. }
      apply (Permutation_in _ (Permutation_sym Hperm)) in Hin. apply in_seq in Hin. lia.
    + unfold analyze; cbn [ProductivityPattern.optimal_focus_blocks].
      unfold optimal_blocks_of. apply Forall_flat_map_in. intros start Hs.
      apply in_seq in Hs.
      destruct (Qlt_bool 0.75 _); constructor; [|constructor].
      split; [cbn [FocusBlock.start_hour]; lia|reflexivity].
Qed.

Lemma with_scores_total (patterns : ProductivityPattern.t) (f : Q -> Q) (hours : list nat) :
  well_formed patterns -> Forall (fun h => h < 24) hours ->
  exists keyed, with_scores patterns f hours = Ok keyed /\ length keyed = length hours.
Proof.
  intros (Ht & _) Hh. unfold with_scores.
  induction Hh as [|h r Hlt _ (keyed & IH & Hlen)]; [exists []; auto|].
  specialize (Ht h Hlt). unfold hour_score in Ht. simpl.
  destruct (getitem (ProductivityPattern.hourly_productivity patterns) h) as [data|e];
    [|discriminate Ht].
  simpl. rewrite IH. simpl. eexists. split; [reflexivity|]. simpl. now rewrite Hlen.
Qed.

Lemma working_hours_of_the_day : Forall (fun h => h < 24) working_hours.
Proof. apply List.Forall_forall. intros h Hh. apply in_seq in Hh. lia. Qed.

Lemma _find_optimal_time_slot_total (block : ScheduleBlock.t)
    (patterns : ProductivityPattern.t) :
  well_formed patterns -> exists h, _find_optimal_time_slot block patterns = Ok h /\ h < 24.
Proof.
  intros Hwf. pose proof Hwf as (_ & Hne & Hpeak & _).
  unfold _find_optimal_time_slot.
  destruct (Qlt_bool 0.7 (ScheduleBlock.energy_requirement block)).
  - destruct (with_scores_total patterns (fun s => s) _ Hwf Hpeak) as (keyed & Hk & Hlen).
    destruct keyed as [|x r].
    { destruct (ProductivityPattern.peak_hours patterns); [congruence|discriminate Hlen]. }
    exists (max_from x r).
    assert (E : obind (with_scores patterns (fun s => s)
                         (ProductivityPattern.peak_hours patterns)) max_by
                = Ok (max_from x r)) by (rewrite Hk; reflexivity).
    split; [exact E|].
    apply max_by_with_scores_In in E. eapply List.Forall_forall in Hpeak; eassumption.
  - destruct (with_scores_total patterns (fun s => s) _ Hwf working_hours_of_the_day)
      as (keyed & Hk & Hlen).
    destruct keyed as [|x r]; [discriminate Hlen|].
    exists (min_from x r).
    assert (E : obind (with_scores patterns (fun s => s) working_hours) min_by
                = Ok (min_from x r)) by (rewrite Hk; reflexivity).
    split; [exact E|].
    apply min_by_with_scores_In in E.
    eapply List.Forall_forall in E; [|exact working_hours_of_the_day]. exact E.
Qed.

Lemma _find_meeting_alternative_time_total (block : ScheduleBlock.t)
    (patterns : ProductivityPattern.t) :
  well_formed patterns ->
  exists h, _find_meeting_alternative_time block patterns = Ok h /\ h < 24.
Proof.
  intros Hwf. unfold _find_meeting_alternative_time.
  fold (non_peak_working_hours patterns).
  assert (Hnp : Forall (fun h => h < 24) (non_peak_working_hours patterns)).
  { apply List.Forall_forall. intros h Hh. unfold non_peak_working_hours in Hh.
    apply filter_In in Hh as [Hh _].
    eapply List.Forall_forall in Hh; [|exact working_hours_of_the_day]. exact Hh. }
  destruct (non_peak_working_hours patterns) as [|h0 r0] eqn:Enp.
  - eexists. split; [reflexivity|apply hour_of_lt].
  - rewrite <- Enp in *.
    destruct (with_scores_total patterns (fun s => Qabs (s - 0.6)) _ Hwf Hnp)
      as (keyed & Hk & Hlen).
    destruct keyed as [|x r]; [rewrite Enp in Hlen; discriminate Hlen|].
    exists (min_from x r).
    assert (E : obind (with_scores patterns (fun s => Qabs (s - 0.6))
                         (non_peak_working_hours patterns)) min_by
                = Ok (min_from x r)) by (rewrite Hk; reflexivity).
    split; [exact E|].
    apply min_by_with_scores_In in E. eapply List.Forall_forall in Hnp; eassumption.
Qed.

Lemma replace_hour_total (t : datetime) (h : nat) :
  h < 24 -> exists t', replace_hour t h = Ok t'.
Proof.
  intros Hh. unfold replace_hour. apply Nat.ltb_lt in Hh. rewrite Hh. eauto.
Qed.

Lemma obind_returns {A B : Type} (m : Outcome A) (k : A -> Outcome B) (a : A) :
  m = Ok a -> (exists b, k a = Ok b) -> exists b, obind m k = Ok b.
Proof. intros -> Hk. exact Hk. Qed.

Lemma block_opportunities_total (patterns : ProductivityPattern.t)
    (block : ScheduleBlock.t) :
  well_formed patterns -> exists found, block_opportunities patterns block = Ok found.
Proof.
  intros Hwf. unfold block_opportunities.
  destruct (negb (ScheduleBlock.moveable block)); [eauto|].
  apply obind_total.
  - match goal with |- exists a, (if ?c then _ else _) = _ => destruct c end; [|eauto].
    destruct (_find_optimal_time_slot_total block patterns Hwf) as (h & Hh & Hlt).
    eapply obind_returns; [exact Hh|].
    destruct (negb (h =? hour_of (ScheduleBlock.start_time block))%nat); [|eauto].
    destruct (replace_hour_total (ScheduleBlock.start_time block) h Hlt) as [t Ht].
    eapply obind_returns; [exact Ht|]. eauto.
  - intros rescheduled. apply obind_total; [|eauto].
    match goal with |- exists a, (if ?c then _ else _) = _ => destruct c end; [|eauto].
    destruct (_find_meeting_alternative_time_total block patterns Hwf) as (h & Hh & Hlt).
    eapply obind_returns; [exact Hh|].
    destruct (negb (h =? hour_of (ScheduleBlock.start_time block))%nat); [|eauto].
    destruct (replace_hour_total (ScheduleBlock.start_time block) h Hlt) as [t Ht].
    eapply obind_returns; [exact Ht|]. eauto.
Qed.

Lemma free_windows_of_the_day (patterns : ProductivityPattern.t)
    (schedule : list ScheduleBlock.t) :
  well_formed patterns ->
  Forall (fun b => FocusBlock.start_hour b < 24) (free_windows patterns schedule).
Proof.
  intros (_ & _ & _ & Hb). apply List.Forall_forall. intros b Hin.
  unfold free_windows in Hin. apply filter_In in Hin as [Hin _].
  eapply List.Forall_forall in Hb; [|exact Hin]. simpl in Hb. lia.
Qed.

(** With a well-formed pattern the generators return, and the ranked list
    is the sorted list of their candidates. *)
Lemma ranked_candidates_total (schedule : list ScheduleBlock.t)
    (patterns : ProductivityPattern.t) (w : World) :
  well_formed patterns ->
  exists per_block focus w',
    omap (block_opportunities patterns) schedule = Ok per_block
    /\ _identify_focus_block_opportunities schedule patterns w = (Ok focus, w')
    /\ _identify_optimization_opportunities schedule patterns w
       = (Ok (sort_desc ScheduleOptimization.impact_score
                (concat per_block ++ focus ++ _identify_meeting_consolidation schedule)),
          w').
Proof.
  intros Hwf.
  destruct (omap_total (block_opportunities patterns) schedule) as [per_block E1].
  { apply List.Forall_forall. intros block _.
    destruct (block_opportunities_total patterns block Hwf) as [found ->]. reflexivity. }
  destruct (focus_candidates_total schedule patterns w
              (free_windows_of_the_day patterns schedule Hwf)) as (focus & w' & E2).
  exists per_block, focus, w'. split; [exact E1|]. split; [exact E2|].
  unfold _identify_optimization_opportunities, catch, bind, lift, ret.
  rewrite E1, E2. reflexivity.
Qed.

(** X5.  For a pattern that the aggregator returns (computed from
    sessions, or the default one) the search for candidates never falls
    back to the empty list of its [except] branch: every block gets its
    proposals, the focus generator returns, and the ranked list is the
    sorted list of all their candidates, whatever the schedule is. *)
Theorem identification_never_falls_back (patterns : ProductivityPattern.t)
    (schedule : list ScheduleBlock.t) (w : World) :
  from_the_aggregator patterns ->
  exists per_block focus w',
    omap (block_opportunities patterns) schedule = Ok per_block
    /\ _identify_focus_block_opportunities schedule patterns w = (Ok focus, w')
    /\ _identify_optimization_opportunities schedule patterns w
       = (Ok (sort_desc ScheduleOptimization.impact_score
                (concat per_block ++ focus ++ _identify_meeting_consolidation schedule)),
          w').
Proof.
  intros H. apply ranked_candidates_total. now apply aggregator_well_formed.
Qed.

(** Witness of the theorem above: the default pattern and the sample
    blocks of a Monday. *)
Lemma identification_never_falls_back_witness :
  is_ok (fst (_identify_optimization_opportunities (sample_day 738108) default_patterns
                (world_with [] []))) = true.
Proof.
  destruct (identification_never_falls_back default_patterns (sample_day 738108)
              (world_with [] []) (or_introl eq_refl))
    as (per_block & focus & w' & _ & _ & E).
  rewrite E. reflexivity.
Defined.

End AggregatorPatterns.

(** ** The schedule *)

Section Schedule.
Import AutoSchedulingService.

Lemma sample_blocks_ok (days : list Z) (blocks : list ScheduleBlock.t) :
  sample_blocks days = Ok blocks -> blocks = sample_schedule days.
Proof.
  revert blocks. induction days as [|d r IH]; simpl; intros blocks H.
  - now injection H as <-.
  - destruct (max_day <=? d)%Z; [discriminate|].
    apply obind_Ok in H as (later & Hr & H). injection H as <-.
    now rewrite (IH later Hr).
Qed.

Lemma sample_blocks_total (days : list Z) :
  Forall (fun d => (d < max_day)%Z) days -> sample_blocks days = Ok (sample_schedule days).
Proof.
  induction 1 as [|d r Hd _ IH]; simpl; [reflexivity|].
  apply Z.leb_gt in Hd. rewrite Hd, IH. reflexivity.
Qed.

Lemma task_block_schedulable (task : Task.t) :
  schedulable task -> is_ok (task_block task) = true.
Proof.
  unfold schedulable, task_block.
  intros [->|(due & p & -> & -> & _)]; reflexivity.
Qed.

Lemma omap_raises {A B : Type} (f : A -> Outcome B) (l : list A) (x : A) :
  In x l -> is_ok (f x) = false -> is_ok (omap f l) = false.
Proof.
  induction l as [|y r IH]; simpl; intros Hin Hx; [contradiction|].
  destruct (f y) as [b|e] eqn:Ey; simpl; [|reflexivity].
  destruct Hin as [->|Hin]; [rewrite Ey in Hx; discriminate Hx|].
  specialize (IH Hin Hx). destruct (omap f r); [discriminate IH|reflexivity].
Qed.

(** The schedule, when it is not the empty list of the [except] branch. *)
Lemma _get_current_schedule_shape (user_id : string) (date_range : datetime * datetime)
    (w w' : World) (schedule : list ScheduleBlock.t) :
  _get_current_schedule user_id date_range w = (Ok schedule, w') ->
  schedule = []
  \/ exists from_tasks,
       omap task_block (open_tasks w user_id (fst date_range) (snd date_range))
       = Ok from_tasks
       /\ schedule = sample_schedule (days_of date_range) ++ concat from_tasks.
Proof.
  unfold _get_current_schedule, catch, bind, lift, gets, ret, get_db. intros H.
  fold (days_of date_range) in H.
  destruct (sample_blocks (days_of date_range)) as [sample|e] eqn:Es;
    [|injection H as <- _; now left].
  apply sample_blocks_ok in Es. subst sample.
  destruct (db_faults w) as [|[|] f]; cbn [open_tasks with_db_faults] in H.
  - destruct (omap task_block _) as [from_tasks|e] eqn:Et;
      injection H as <- _; [right; eauto|now left].
  - injection H as <- _. now left.
  - destruct (omap task_block _) as [from_tasks|e] eqn:Et;
      injection H as <- _; [right; eauto|now left].
Qed.

(** X6.  [_get_current_schedule] is all or nothing.  One open task of the
    range that has a due date but no pomodoro estimate empties the whole
    schedule, sample blocks included, and so does a failed database session.
    When the session opens, every task is schedulable (estimated, with a
    block within the representable instants) and the loop stays below the
    last representable day, the schedule is the sample blocks of the days of
    the range followed by the blocks of the tasks. *)
Theorem current_schedule_is_all_or_nothing (user_id : string)
    (date_range : datetime * datetime) (w : World) :
  let tasks := open_tasks w user_id (fst date_range) (snd date_range) in
  (forall task,
      In task tasks -> Task.due_date task <> None -> Task.estimated_pomodoros task = None ->
      fst (_get_current_schedule user_id date_range w) = Ok [])
  /\ (forall f, db_faults w = true :: f ->
                fst (_get_current_schedule user_id date_range w) = Ok [])
  /\ (hd false (db_faults w) = false ->
      Forall (fun d => (d < max_day)%Z) (days_of date_range) ->
      Forall schedulable tasks ->
      exists from_tasks,
        omap task_block tasks = Ok from_tasks
        /\ fst (_get_current_schedule user_id date_range w)
           = Ok (sample_schedule (days_of date_range) ++ concat from_tasks)).
Proof.
  intros tasks. split; [|split].
  - intros task Hin Hdue Hest.
    assert (Hraise : is_ok (omap task_block tasks) = false).
    { apply (omap_raises _ _ task Hin). unfold task_block.
      destruct (Task.due_date task); [|congruence]. now rewrite Hest. }
    unfold _get_current_schedule, catch, bind, lift, gets, ret, get_db.
    destruct (sample_blocks _); [|reflexivity].
    destruct (db_faults w) as [|[|] f]; cbn [open_tasks with_db_faults]; try reflexivity;
      fold tasks; destruct (omap task_block tasks); try reflexivity; discriminate Hraise.
  - intros f Hf. unfold _get_current_schedule, catch, bind, lift, gets, ret, get_db.
    destruct (sample_blocks _); [|reflexivity]. rewrite Hf. reflexivity.
  - intros Hdb Hdays Htasks.
    destruct (omap_total task_block tasks) as [from_tasks Et].
    { eapply List.Forall_impl; [|exact Htasks]. intros task. apply task_block_schedulable. }
    exists from_tasks. split; [exact Et|].
    unfold _get_current_schedule, catch, bind, lift, gets, ret, get_db.
    fold (days_of date_range). rewrite (sample_blocks_total _ Hdays).
    destruct (db_faults w) as [|[|] f]; [|discriminate Hdb|];
      cbn [open_tasks with_db_faults]; fold tasks; rewrite Et; reflexivity.
Qed.

(** Witness of the theorem above: a Monday with one estimated and one
    unestimated task. *)
Lemma current_schedule_is_all_or_nothing_witness :
  fst (_get_current_schedule "1" monday
         (world_with_tasks [open_task "Write report" (Some 2%Z); open_task "Call back" None]))
  = Ok []
  /\ exists from_tasks,
       fst (_get_current_schedule "1" monday
              (world_with_tasks [open_task "Write report" (Some 2%Z)]))
       = Ok (sample_schedule (days_of monday) ++ concat from_tasks).
Proof.
  split.
  - apply (proj1 (current_schedule_is_all_or_nothing "1" monday
                    (world_with_tasks [open_task "Write report" (Some 2%Z);
                                       open_task "Call back" None]))
             (open_task "Call back" None)).
    + right. now left.
    + discriminate.
    + reflexivity.
  - destruct (proj2 (proj2 (current_schedule_is_all_or_nothing "1" monday
                              (world_with_tasks [open_task "Write report" (Some 2%Z)]))))
      as (from_tasks & _ & E).
    + reflexivity.
    + replace (days_of monday) with [738108%Z] by (vm_compute; reflexivity).
      constructor; [reflexivity|constructor].
    + constructor; [|constructor]. right. exists (combine 738108 17), 2%Z.
      repeat split; (discriminate || reflexivity).
    + exists from_tasks. exact E.
Defined.

End Schedule.

(** ** The clock *)

Section Clock.

Lemma keeps_clock_ret {A} (a : A) : keeps_clock (ret a).
Proof. intros w. reflexivity. Qed.

Lemma keeps_clock_raise {A} (e : string) : keeps_clock (@raise A e).
Proof. intros w. reflexivity. Qed.

Lemma keeps_clock_lift {A} (o : Outcome A) : keeps_clock (lift o).
Proof. intros w. reflexivity. Qed.

Lemma keeps_clock_gets {A} (f : World -> A) : keeps_clock (gets f).
Proof. intros w. reflexivity. Qed.

Lemma keeps_clock_datetime_now : keeps_clock datetime_now.
Proof. intros w. reflexivity. Qed.

Lemma keeps_clock_get_db : keeps_clock get_db.
Proof. intros w. unfold get_db. destruct (db_faults w) as [|[|] f]; reflexivity. Qed.

Lemma keeps_clock_db_add_commit_refresh (mk : Z -> Task.t) :
  keeps_clock (db_add_commit_refresh mk).
Proof. intros w. reflexivity. Qed.

Lemma keeps_clock_redis_setex store key ttl v : keeps_clock (redis_setex store key ttl v).
Proof. intros w. unfold redis_setex. destruct (redis_faults w) as [|[|] f]; reflexivity. Qed.

Lemma keeps_clock_redis_get store key : keeps_clock (redis_get store key).
Proof. intros w. unfold redis_get. destruct (redis_faults w) as [|[|] f]; reflexivity. Qed.

Lemma keeps_clock_bind {A B} (m : M A) (k : A -> M B) :
  keeps_clock m -> (forall a, keeps_clock (k a)) -> keeps_clock (bind m k).
Proof.
  intros Hm Hk w. unfold bind. specialize (Hm w).
  destruct (m w) as [[a|e] w1]; simpl in *; [|exact Hm].
  now rewrite Hk.
Qed.

Lemma keeps_clock_catch {A} (m : M A) (h : string -> M A) :
  keeps_clock m -> (forall e, keeps_clock (h e)) -> keeps_clock (catch m h).
Proof.
  intros Hm Hh w. unfold catch. specialize (Hm w).
  destruct (m w) as [[a|e] w1]; simpl in *; [exact Hm|].
  now rewrite Hh.
Qed.

Lemma keeps_clock_mapM {A B} (f : A -> M B) (l : list A) :
  (forall x, keeps_clock (f x)) -> keeps_clock (mapM f l).
Proof.
  intros Hf. induction l as [|x r IH]; simpl; [apply keeps_clock_ret|].
  apply keeps_clock_bind; [apply Hf|]. intros y.
  apply keeps_clock_bind; [exact IH|]. intros ys. apply keeps_clock_ret.
Qed.

Lemma keeps_clock_run {A} (m : M A) (w w' : World) (a : Outcome A) :
  keeps_clock m -> m w = (a, w') -> clock w' = clock w.
Proof. intros H E. specialize (H w). now rewrite E in H. Qed.

End Clock.

(** Proves that a computation built from the operations above leaves the
    clock as it is. *)
Ltac steady :=
  repeat first
    [ apply keeps_clock_ret | apply keeps_clock_raise | apply keeps_clock_lift
    | apply keeps_clock_gets | apply keeps_clock_datetime_now | apply keeps_clock_get_db
    | apply keeps_clock_db_add_commit_refresh
    | apply keeps_clock_redis_setex | apply keeps_clock_redis_get
    | apply keeps_clock_bind; [|intros ?]
    | apply keeps_clock_catch; [|intros ?]
    | apply keeps_clock_mapM; intros ?
    | progress case_match ].

(** ** The candidates of a run *)

Section RunCandidates.
Import AutoSchedulingService.

Lemma _get_productivity_patterns_steady (user_id : string) :
  keeps_clock (_get_productivity_patterns user_id).
Proof. unfold _get_productivity_patterns. steady. Qed.

Lemma _get_current_schedule_steady (user_id : string) (date_range : datetime * datetime) :
  keeps_clock (_get_current_schedule user_id date_range).
Proof. unfold _get_current_schedule. steady. Qed.

Lemma _get_productivity_patterns_from_the_aggregator (user_id : string) (w w' : World)
    (patterns : ProductivityPattern.t) :
  _get_productivity_patterns user_id w = (Ok patterns, w') -> from_the_aggregator patterns.
Proof.
  intros H. pose proof (_get_productivity_patterns_cases user_id w) as Hc.
  destruct (db_faults w) as [|[|] f]; destruct Hc as [w1 Hc]; rewrite Hc in H;
    injection H as <- _; first [now left | right; eauto].
Qed.

(** The stages of a run and the worlds between them. *)
Lemma optimize_schedule_trace (self : Self) (user_id : string)
    (date_range : datetime * datetime) (w : World) :
  exists patterns w1 schedule w2 ranked w3 results w4,
    _get_productivity_patterns user_id w = (Ok patterns, w1)
    /\ _get_current_schedule user_id date_range w1 = (Ok schedule, w2)
    /\ _identify_optimization_opportunities schedule patterns w2 = (Ok ranked, w3)
    /\ execution_loop self user_id ranked [] 0 w3
       = (Ok (results, length (selected_from 0 ranked)), w4)
    /\ Forall2 (executed_as self user_id) (selected_from 0 ranked) results
    /\ ((exists e,
            _calculate_optimization_impact results = Raised e
            /\ optimize_schedule self user_id date_range w = (Raised e, w4))
        \/ (exists summary w5,
               _calculate_optimization_impact results = Ok summary
               /\ _cache_optimization_results user_id
                    (CachedOptimizations results
                       (skipn (length (selected_from 0 ranked)) ranked) summary) w4
                  = (Ok tt, w5)
               /\ optimize_schedule self user_id date_range w
                  = (Ok {| OptimizationRun.executed_optimizations := results;
                           OptimizationRun.suggested_optimizations :=
                             skipn (length (selected_from 0 ranked)) ranked;
                           OptimizationRun.impact_summary := summary;
                           OptimizationRun.productivity_gain_estimate :=
                             ImpactSummary.total_productivity_gain summary |}, w5))).
Proof.
  unfold optimize_schedule. rewrite catch_reraise.
  destruct (_get_productivity_patterns_total user_id w) as (p & wa & Ep).
  rewrite (bind_ok _ _ _ _ _ Ep).
  destruct (_get_current_schedule_total user_id date_range wa) as (schedule & wb & Es).
  rewrite (bind_ok _ _ _ _ _ Es).
  destruct (_identify_optimization_opportunities_spec schedule p wb)
    as (ranked & w1 & Er & Hgen & Hdesc).
  rewrite (bind_ok _ _ _ _ _ Er).
  destruct (execution_loop_spec self user_id ranked [] 0 w1) as (results & w2 & El & HF).
  rewrite (bind_ok _ _ _ _ _ El). cbn [fst snd app Nat.add].
  exists p, wa, schedule, wb, ranked, w1, results, w2.
  do 3 (split; [assumption|]). split; [exact El|]. split; [exact HF|].
  destruct (_calculate_optimization_impact results) as [summary|e] eqn:Ei.
  - right. rewrite (bind_ok (lift (Ok summary)) _ w2 w2 summary eq_refl).
    match goal with |- context [_cache_optimization_results user_id ?v] =>
      destruct (_cache_optimization_results_total user_id v w2) as (w3 & Ec)
    end.
    exists summary, w3. split; [reflexivity|]. split; [exact Ec|].
    rewrite (bind_ok _ _ _ _ _ Ec). reflexivity.
  - left. exists e. split; reflexivity.
Qed.

End RunCandidates.

(** ** Meetings of the schedule *)

Section Meetings.
Import AutoSchedulingService.

Lemma task_block_shape (task : Task.t) (blocks : list ScheduleBlock.t) :
  task_block task = Ok blocks ->
  Forall (fun b => ScheduleBlock.block_type b = "task"
                   /\ ScheduleBlock.energy_requirement b = 0.7%Q
                   /\ ScheduleBlock.moveable b = true) blocks.
Proof.
  unfold task_block. intros H.
  destruct (Task.due_date task) as [due|]; [|injection H as <-; constructor].
  destruct (Task.estimated_pomodoros task) as [p|]; [|discriminate].
  injection H as <-. constructor; [|constructor]. repeat split.
Qed.

Lemma moveable_meetings_of_the_sample (days : list Z) :
  List.filter moveable_meeting (sample_schedule days)
  = map lunch_of (List.filter (fun d => (weekday d <? 5)%Z) days).
Proof.
  unfold sample_schedule. induction days as [|d r IH]; [reflexivity|].
  cbn [flat_map]. rewrite List.filter_app, IH. cbn [List.filter].
  unfold sample_day. destruct (weekday d <? 5)%Z; reflexivity.
Qed.

Lemma moveable_meetings_of_the_tasks (tasks : list Task.t)
    (from_tasks : list (list ScheduleBlock.t)) :
  omap task_block tasks = Ok from_tasks ->
  List.filter moveable_meeting (concat from_tasks) = [].
Proof.
  intros H.
  assert (HF : Forall (fun b => ScheduleBlock.block_type b = "task") (concat from_tasks)).
  { apply Forall_concat_all. eapply omap_Forall; [|exact H].
    intros task blocks Hb. apply task_block_shape in Hb.
    eapply List.Forall_impl; [|exact Hb]. intros b Hs. apply Hs. }
  induction HF as [|b r Hb _ IH]; [reflexivity|].
  cbn [List.filter]. unfold moveable_meeting at 1. rewrite Hb. exact IH.
Qed.

Lemma days_from_to_distinct (first last : Z) : List.NoDup (days_from_to first last).
Proof.
  unfold days_from_to. generalize (Z.to_nat (last - first + 1)) 0.
  intros n. induction n as [|n IH]; intros s; simpl; constructor; [|apply IH].
  intros Hin. apply in_map_iff in Hin as (i & Hi & Hin). apply in_seq in Hin. lia.
Qed.

Lemma group_add_fresh (day : Z) (meeting : ScheduleBlock.t)
    (daily_meetings : list (Z * list ScheduleBlock.t)) :
  ~ In day (map fst daily_meetings) ->
  group_add day meeting daily_meetings = daily_meetings ++ [(day, [meeting])].
Proof.
  induction daily_meetings as [|[d ms] r IH]; simpl; intros Hd; [reflexivity|].
  destruct (d =? day)%Z eqn:E; [apply Z.eqb_eq in E; tauto|].
  rewrite IH by tauto. reflexivity.
Qed.

(** Lunch meetings of distinct days are grouped one by one. *)
Lemma lunches_grouped (days : list Z) :
  List.NoDup days ->
  forall acc : list (Z * list ScheduleBlock.t),
    (forall d, In d days -> ~ In d (map fst acc)) ->
    fold_left (fun acc meeting =>
                 group_add (date_of (ScheduleBlock.start_time meeting)) meeting acc)
      (map lunch_of days) acc
    = acc ++ map (fun d => (d, [lunch_of d])) days.
Proof.
  induction 1 as [|d r Hd Hr IH]; intros acc Hacc; simpl; [now rewrite app_nil_r|].
  rewrite date_of_combine by lia.
  rewrite group_add_fresh by (apply Hacc; now left).
  rewrite IH.
  - rewrite <- app_assoc. reflexivity.
  - intros d' Hd' Hin. rewrite map_app in Hin. apply in_app_or in Hin as [Hin|Hin].
    + apply (Hacc d'); [now right|exact Hin].
    + simpl in Hin. destruct Hin as [<-|[]]. contradiction.
Qed.

(** The schedules that [_get_current_schedule] builds give no meetings to
    consolidate: their only moveable meetings are the sample lunches, one a
    day. *)
Lemma no_consolidation (first last : Z) (tasks : list Task.t)
    (from_tasks : list (list ScheduleBlock.t)) :
  omap task_block tasks = Ok from_tasks ->
  _identify_meeting_consolidation
    (sample_schedule (days_from_to first last) ++ concat from_tasks) = [].
Proof.
  intros Ht. unfold _identify_meeting_consolidation.
  change (fun block : ScheduleBlock.t =>
            bool_decide (ScheduleBlock.block_type block = "meeting")
            && ScheduleBlock.moveable block) with moveable_meeting.
  rewrite List.filter_app, moveable_meetings_of_the_sample,
    (moveable_meetings_of_the_tasks _ _ Ht), app_nil_r.
  rewrite lunches_grouped.
  - simpl. generalize (List.filter (fun d => (weekday d <? 5)%Z) (days_from_to first last)).
    intros days. induction days as [|d r IH]; [reflexivity|]. simpl. exact IH.
  - apply List.NoDup_filter. apply days_from_to_distinct.
  - intros d _ [].
Qed.

End Meetings.

(** ** What a run proposes *)

Section RunProposals.
Import AutoSchedulingService.

Lemma omap_Forall_in {A B : Type} (f : A -> Outcome B) (P : B -> Prop) (l : list A)
    (ys : list B) :
  (forall x y, In x l -> f x = Ok y -> P y) -> omap f l = Ok ys -> Forall P ys.
Proof.
  revert ys. induction l as [|x r IH]; simpl; intros ys Hf H.
  - injection H as <-. constructor.
  - apply obind_Ok in H as (y & Hx & H). apply obind_Ok in H as (ys' & Hr & H).
    injection H as <-. constructor; [eapply Hf; eauto|]. apply IH; eauto.
Qed.

Lemma In_sample_schedule (days : list Z) (block : ScheduleBlock.t) :
  In block (sample_schedule days) -> exists d, In d days /\ In block (sample_day d).
Proof.
  unfold sample_schedule. intros H. apply in_flat_map in H. exact H.
Qed.

(** A sample block is proposed for another hour only as the deep-work
    session or the lunch meeting of a weekday. *)
Lemma sample_block_proposals (c : nat -> datetime) (patterns : ProductivityPattern.t)
    (d : Z) (block : ScheduleBlock.t) (o : ScheduleOptimization.t) :
  In block (sample_day d) -> proposes_move patterns block o -> run_candidate c o.
Proof.
  unfold sample_day. destruct (weekday d <? 5)%Z eqn:Ew; [|contradiction].
  apply Z.ltb_lt in Ew.
  intros [<-|[<-|[<-|[]]]] (Hm & Htitle & Horig & t & Hs & Hdate & Hhour & _ & Hkind);
    cbn [ScheduleBlock.moveable ScheduleBlock.title ScheduleBlock.start_time
           ScheduleBlock.block_type ScheduleBlock.energy_requirement
           ScheduleBlock.importance] in *.
  - discriminate Hm.
  - rewrite date_of_combine in Hdate by lia. rewrite hour_of_combine in Hhour by lia.
    destruct Hkind as [(_ & Hb & _)|(Ht & _ & _ & _ & Hin)]; [discriminate Hb|].
    right. right. split; [exact Ht|]. split; [exact Htitle|].
    exists d, t. repeat (split; [assumption|]).
    unfold non_peak_working_hours in Hin. apply filter_In in Hin as [Hin _].
    unfold working_hours in Hin. apply in_seq in Hin. lia.
  - rewrite date_of_combine in Hdate by lia. rewrite hour_of_combine in Hhour by lia.
    destruct Hkind as [(Ht & _)|(_ & Hb & _)]; [|discriminate Hb].
    right. left. split; [exact Ht|]. split; [exact Htitle|].
    exists d, t. repeat (split; [assumption|]). exact Hhour.
Qed.

(** A task of the store is never proposed for another hour: its block
    needs an energy of exactly 0.7, which is not above 0.7. *)
Lemma task_block_proposals (patterns : ProductivityPattern.t) (task : Task.t)
    (blocks : list ScheduleBlock.t) (block : ScheduleBlock.t) (o : ScheduleOptimization.t) :
  task_block task = Ok blocks -> In block blocks -> ~ proposes_move patterns block o.
Proof.
  intros Hb Hin (_ & _ & _ & t & _ & _ & _ & _ & Hkind).
  apply task_block_shape in Hb. eapply List.Forall_forall in Hb; [|exact Hin].
  destruct Hb as (Htype & Henergy & _).
  destruct Hkind as [(_ & _ & He & _)|(_ & Hm & _)].
  - rewrite Henergy in He. exact (Qlt_irrefl _ He).
  - rewrite Htype in Hm. discriminate Hm.
Qed.

Lemma In_concat_omap {A B : Type} (f : A -> Outcome (list B)) (l : list A)
    (ys : list (list B)) (y : B) :
  omap f l = Ok ys -> In y (concat ys) -> exists x found, f x = Ok found /\ In y found.
Proof.
  intros H Hin. destruct (omap_In f l ys y H Hin) as (x & found & _ & Hf & Hy). eauto.
Qed.

(** The candidates of the stages of a run. *)
Lemma candidates_of_a_run (user_id : string) (date_range : datetime * datetime)
    (w w1 w2 w3 : World) (patterns : ProductivityPattern.t)
    (schedule : list ScheduleBlock.t) (ranked : list ScheduleOptimization.t) :
  _get_productivity_patterns user_id w = (Ok patterns, w1) ->
  _get_current_schedule user_id date_range w1 = (Ok schedule, w2) ->
  _identify_optimization_opportunities schedule patterns w2 = (Ok ranked, w3) ->
  Forall (run_candidate (clock w)) ranked.
Proof.
  intros Ep Es Er.
  assert (Hc : clock w2 = clock w).
  { rewrite (keeps_clock_run _ _ _ _ (_get_current_schedule_steady _ _) Es).
    exact (keeps_clock_run _ _ _ _ (_get_productivity_patterns_steady _) Ep). }
  pose proof (aggregator_well_formed _
                (_get_productivity_patterns_from_the_aggregator _ _ _ _ Ep))
    as (_ & _ & _ & Hblocks).
  apply ranked_candidates in Er as [->|(per_block & focus & E1 & E2 & ->)];
    [constructor|].
  apply sort_desc_Forall. rewrite !Forall_app. split; [|split].
  - apply Forall_concat_all. eapply omap_Forall_in; [|exact E1].
    intros block found Hin Hf. apply block_opportunities_moves in Hf.
    eapply List.Forall_impl; [|exact Hf]. intros o Ho.
    apply _get_current_schedule_shape in Es as [->|(from_tasks & Et & ->)];
      [contradiction|].
    apply in_app_or in Hin as [Hin|Hin].
    + apply In_sample_schedule in Hin as (d & _ & Hin).
      eapply sample_block_proposals; eassumption.
    + exfalso. destruct (In_concat_omap _ _ _ _ Et Hin) as (task & blocks & Hb & Hin').
      exact (task_block_proposals _ _ _ _ _ Hb Hin' Ho).
  - apply focus_candidates in E2 as [_ HF]. rewrite Hc in HF.
    assert (Hfree : Forall (fun b => FocusBlock.start_hour b < 22
                                     /\ FocusBlock.end_hour b = FocusBlock.start_hour b + 2)
                      (free_windows patterns schedule)).
    { apply List.Forall_forall. intros b Hb. unfold free_windows in Hb.
      apply filter_In in Hb as [Hb _]. eapply List.Forall_forall in Hblocks; eassumption. }
    induction HF as [|b o bs os Ho _ IH]; [constructor|].
    apply Forall_cons in Hfree as [[Hstart Hend] Hfree].
    constructor; [|now apply IH].
    left. exists b. split; [exact Ho|]. split; [|exact Hstart].
    destruct Ho as (_ & _ & _ & -> & _). rewrite Hend. f_equal. lia.
  - apply _get_current_schedule_shape in Es as [->|(from_tasks & Et & ->)];
      [constructor|].
    unfold days_of. rewrite (no_consolidation _ _ _ _ Et). constructor.
Qed.

(** X7.  Whatever the store holds, a run of [optimize_schedule] ranks only
    three kinds of candidates: two-hour focus blocks on the current day,
    another hour for the sample deep-work session of 14:00 on a weekday,
    and another working hour for the sample lunch meeting of noon on a
    weekday.  The tasks of the user are never proposed for rescheduling and
    no consolidation of meetings is ever proposed.  The executed candidates
    are the first of this list and the suggested ones are the rest. *)
Theorem what_a_run_can_propose (self : Self) (user_id : string)
    (date_range : datetime * datetime) (w w' : World) (run : OptimizationRun.t) :
  optimize_schedule self user_id date_range w = (Ok run, w') ->
  exists ranked,
    Forall (run_candidate (clock w)) ranked
    /\ Forall2 (executed_as self user_id) (selected_from 0 ranked)
         (OptimizationRun.executed_optimizations run)
    /\ ranked = selected_from 0 ranked ++ OptimizationRun.suggested_optimizations run.
Proof.
  intros H.
  destruct (optimize_schedule_trace self user_id date_range w)
    as (patterns & w1 & schedule & w2 & ranked & w3 & results & w4
        & Ep & Es & Er & _ & HF & Hrun).
  exists ranked. split; [eapply candidates_of_a_run; eassumption|].
  destruct (_identify_optimization_opportunities_spec schedule patterns w2)
    as (ranked' & w3' & Er' & Hgen & Hdesc).
  rewrite Er in Er'. injection Er' as <- <-.
  destruct Hrun as [(e & _ & Hr)|(summary & w5 & _ & _ & Hr)]; rewrite Hr in H;
    [discriminate H|].
  injection H as <- _. cbn [OptimizationRun.executed_optimizations
                             OptimizationRun.suggested_optimizations].
  split; [exact HF|]. now apply selected_is_prefix.
Qed.

(** Witness of the theorem above: a Monday of a user with an open task. *)
Lemma what_a_run_can_propose_witness :
  exists run ranked,
    fst (optimize_schedule service "1" monday
           (world_with_tasks [open_task "Write report" (Some 2%Z)])) = Ok run
    /\ Forall (run_candidate (clock (world_with_tasks [open_task "Write report" (Some 2%Z)])))
         ranked
    /\ ranked = selected_from 0 ranked ++ OptimizationRun.suggested_optimizations run.
Proof.
  destruct (optimize_schedule service "1" monday
              (world_with_tasks [open_task "Write report" (Some 2%Z)]))
    as [[run|e] w'] eqn:E.
  - destruct (what_a_run_can_propose _ _ _ _ _ _ E) as (ranked & Hc & _ & Hs).
    exists run, ranked. auto.
  - exfalso.
    destruct (optimize_schedule_service_returns "1" monday
                (world_with_tasks [open_task "Write report" (Some 2%Z)]))
      as (? & ? & ? & ? & ? & _ & _ & _ & _ & _ & Hr).
    rewrite Hr in E. discriminate E.
Defined.

End RunProposals.

(** ** The rows of a scheduling run *)

Section SchedulingRows.
Import AutoSchedulingService.

Lemma preserves_run {A} (m : M A) (w w' : World) (a : Outcome A) :
  preserves_rows m -> m w = (a, w') -> inserted_tasks w' = inserted_tasks w.
Proof. intros H E. specialize (H w). now rewrite E in H. Qed.








End SchedulingRows.

(** ** The results of a scheduling run *)

Section SchedulingResults.
Import AutoSchedulingService.






End SchedulingResults.

(** ** Proposals and the check of the calendar view *)

Section OptimalMoves.
Import AutoSchedulingService.

Lemma mem_nat_false (h : nat) (l : list nat) : mem_nat h l = false <-> ~ In h l.
Proof.
  rewrite <- mem_nat_In. destruct (mem_nat h l); split; intros H; congruence.
Qed.

(** X10.  The two generators of moves agree with the check
    [_is_optimal_scheduling] of the calendar view: a block moved to the time
    that a candidate suggests passes the check, and a meeting that is
    proposed for a move fails it where it is; so does a task proposed for
    rescheduling, provided no hour is both a peak hour and a low-energy
    hour. *)
Theorem proposals_are_optimal_moves (patterns : ProductivityPattern.t)
    (block : ScheduleBlock.t) (found : list ScheduleOptimization.t)
    (o : ScheduleOptimization.t) (t : datetime) :
  block_opportunities patterns block = Ok found ->
  In o found ->
  ScheduleOptimization.suggested_time o = Some t ->
  _is_optimal_scheduling (moved_to block t) patterns = true
  /\ ((forall h, In h (ProductivityPattern.peak_hours patterns) ->
                 ~ In h (ProductivityPattern.low_energy_hours patterns)) ->
      _is_optimal_scheduling block patterns = false).
Proof.
  intros Hf Hin Ht. apply block_opportunities_moves in Hf.
  eapply List.Forall_forall in Hf; [|exact Hin].
  destruct Hf as (_ & _ & _ & t' & Ht' & _ & _ & _ & Hkind).
  rewrite Ht in Ht'. injection Ht' as <-.
  unfold _is_optimal_scheduling.
  cbn [moved_to ScheduleBlock.start_time ScheduleBlock.block_type
         ScheduleBlock.energy_requirement].
  destruct Hkind as [(_ & Hb & He & Hlow & Hpeak)|(_ & Hb & _ & Hpeak & Hnon)]; rewrite Hb.
  - apply Qlt_bool_true in He. rewrite He.
    change (bool_decide ("task" = "task") && true) with true. cbn iota.
    split; [now apply mem_nat_In|].
    intros Hdis. apply mem_nat_false. intros Hp. exact (Hdis _ Hp Hlow).
  - change (bool_decide ("meeting" = "task")) with false.
    change (bool_decide ("meeting" = "meeting")) with true. cbn [andb]. cbn iota.
    unfold non_peak_working_hours in Hnon. apply filter_In in Hnon as [_ Hnon].
    split; [exact Hnon|]. intros _. apply mem_nat_In in Hpeak. now rewrite Hpeak.
Qed.

(** Witness of the theorem above: the deep-work session of 14:00, for a
    user whose best hour is noon and whose worst hour is 14:00. *)
Lemma proposals_are_optimal_moves_witness :
  exists o t,
    block_opportunities (analyze busy_sessions) deep_work = Ok [o]
    /\ ScheduleOptimization.suggested_time o = Some t
    /\ _is_optimal_scheduling (moved_to deep_work t) (analyze busy_sessions) = true.
Proof.
  assert (E : exists o t,
             block_opportunities (analyze busy_sessions) deep_work = Ok [o]
             /\ ScheduleOptimization.suggested_time o = Some t).
  { do 2 eexists. split; [vm_compute; reflexivity|reflexivity]. }
  destruct E as (o & t & Hf & Ht). exists o, t. split; [exact Hf|]. split; [exact Ht|].
  exact (proj1 (proposals_are_optimal_moves _ _ _ o t Hf (or_introl eq_refl) Ht)).
Defined.

End OptimalMoves.

(** ** The calendar view *)

Section CalendarView.
Import AutoSchedulingService.









End CalendarView.

(** ** The activities of the calendar view *)

Section CalendarActivities.
Import AutoSchedulingService.











End CalendarActivities.

(** ** The suggestion of a meeting time *)

Section MeetingTime.
Import AutoSchedulingService.





End MeetingTime.

(** ** The ranked predictions of a run *)

Section RankedPredictions.
Import PredictiveTaskService.

Lemma _combine_predictions_first_occurrences (predictions_list : list (list PredictedTask.t)) :
  _combine_predictions predictions_list
  = first_occurrences [] (map asdict (concat predictions_list)).
Proof.
  unfold _combine_predictions.
  rewrite (dedup_loop_first_occurrences _ [] ∅ []); [reflexivity|].
  intros key. rewrite elem_of_nil. apply elem_of_empty.
Qed.

(** The candidates that the deduplication keeps have keys that were not
    seen before and that differ from one another. *)
Lemma first_occurrences_distinct (merged : list Prediction.t) :
  forall earlier : list string,
    List.NoDup (map title_key (first_occurrences earlier merged))
    /\ (forall pred, In pred (first_occurrences earlier merged) ->
                     In pred merged /\ ~ title_key pred ∈ earlier).
Proof.
  induction merged as [|pred later IH]; intros earlier; simpl.
  - split; [constructor|contradiction].
  - destruct (IH (earlier ++ [title_key pred])) as [Hnd Hin].
    assert (Hlater : forall p, In p (first_occurrences (earlier ++ [title_key pred]) later) ->
                               In p later /\ ~ title_key p ∈ earlier
                               /\ title_key p <> title_key pred).
    { intros p Hp. apply Hin in Hp as [Hp Hk]. split; [exact Hp|].
      rewrite elem_of_app, list_elem_of_singleton in Hk. tauto. }
    destruct (bool_decide (title_key pred ∈ earlier)) eqn:E; simpl.
    + split; [exact Hnd|]. intros p Hp. apply Hlater in Hp. tauto.
    + apply bool_decide_eq_false in E. split.
      * constructor; [|exact Hnd]. intros Hk. apply in_map_iff in Hk as (p & Hk & Hp).
        apply Hlater in Hp. tauto.
      * intros p [<-|Hp]; [tauto|]. apply Hlater in Hp. tauto.
Qed.

(** No key is lost: every merged candidate has its key among the keys
    seen before or among the keys of the candidates kept. *)
Lemma first_occurrences_complete (merged : list Prediction.t) :
  forall (earlier : list string) (pred : Prediction.t),
    In pred merged ->
    title_key pred ∈ earlier
    \/ In (title_key pred) (map title_key (first_occurrences earlier merged)).
Proof.
  induction merged as [|p later IH]; intros earlier pred Hin; simpl; [contradiction|].
  rewrite map_app, in_app_iff.
  destruct Hin as [->|Hin].
  - destruct (bool_decide (title_key pred ∈ earlier)) eqn:E.
    + apply bool_decide_eq_true in E. now left.
    + right. left. now left.
  - destruct (IH (earlier ++ [title_key p]) pred Hin) as [Hk|Hk]; [|tauto].
    rewrite elem_of_app, list_elem_of_singleton in Hk. destruct Hk as [Hk|Hk]; [tauto|].
    destruct (bool_decide (title_key p ∈ earlier)) eqn:E.
    + apply bool_decide_eq_true in E. left. now rewrite Hk.
    + right. left. left. now rewrite Hk.
Qed.

Lemma importance_of_at_most_one (confidence : Q) (priority : option string)
    (days : option Z) (source : PredictionSource) :
  (importance_of confidence priority days source <= 1)%Q.
Proof.
  unfold importance_of. rewrite min2_Qmin.
  eapply Qle_trans; [apply Q.le_min_l|]. vm_compute. discriminate.
Qed.

(** The ranking scores every prediction and sorts the scored predictions
    by score, highest first. *)
Lemma _rank_by_importance_spec (predictions : list Prediction.t)
    (context : PredictionContext.t) (w w' : World) (ranked : list Prediction.t) :
  _rank_by_importance predictions context w = (Ok ranked, w') ->
  exists scored_predictions,
    Forall2 scored_from predictions scored_predictions
    /\ ranked = sort_desc importance_key scored_predictions.
Proof.
  unfold _rank_by_importance, bind, ret. intros H.
  destruct (mapM score_prediction predictions w) as [[scored_predictions|e] w1] eqn:E;
    [|discriminate].
  injection H as <- _. exists scored_predictions. split; [|reflexivity].
  clear - E. revert w scored_predictions w1 E.
  induction predictions as [|pred later IH]; intros w scored_predictions w1 E; simpl in E.
  - injection E as <- _. constructor.
  - unfold bind at 1 in E.
    destruct (score_prediction pred w) as [[r|e] wa] eqn:Es; [|discriminate].
    unfold bind at 1 in E.
    destruct (mapM score_prediction later wa) as [[rs|e] wb] eqn:Er; [|discriminate].
    unfold ret in E. injection E as <- _.
    constructor; [|eapply IH; exact Er].
    unfold score_prediction, bind, datetime_now, ret in Es.
    destruct (Prediction.due_date pred); injection Es as <- _;
      eexists; (split; [reflexivity|apply importance_of_at_most_one]).
Qed.

Lemma scored_from_keys (predictions scored_predictions : list Prediction.t) :
  Forall2 scored_from predictions scored_predictions ->
  map title_key scored_predictions = map title_key predictions
  /\ Forall scored scored_predictions.
Proof.
  induction 1 as [|p r ps rs (s & -> & Hs) _ [IHk IHs]]; [split; [reflexivity|constructor]|].
  split; [simpl; now rewrite IHk|].
  constructor; [exists s; split; [reflexivity|exact Hs]|exact IHs].
Qed.

Lemma descending_firstn {A : Type} (key : A -> Q) (n : nat) (l : list A) :
  descending key l -> descending key (firstn n l).
Proof.
  unfold descending. intros H. revert n.
  induction H as [|x r Hr IH Hx]; intros [|n]; simpl; try constructor.
  - apply IH.
  - apply List.Forall_forall. intros y Hy.
    eapply List.Forall_forall in Hx; [exact Hx|].
    rewrite <- (firstn_skipn n r). apply in_or_app. now left.
Qed.

Lemma NoDup_firstn {A : Type} (n : nat) (l : list A) :
  List.NoDup l -> List.NoDup (firstn n l).
Proof.
  intros H. rewrite <- (firstn_skipn n l) in H. now apply List.NoDup_app_remove_r in H.
Qed.

(** The stages of a run that returns, and the worlds between them. *)
Lemma generate_predictive_tasks_trace (user_id : string) (w w' : World)
    (run : PredictionRun.t) :
  generate_predictive_tasks user_id w = (Ok run, w') ->
  exists context w1 p1 wa p2 wb p3 wc p4 wd ranked w2 created w3,
    _gather_prediction_context user_id w = (Ok context, w1)
    /\ _pattern_based_prediction context w1 = (Ok p1, wa)
    /\ _calendar_based_prediction context wa = (Ok p2, wb)
    /\ _goal_based_prediction context wb = (Ok p3, wc)
    /\ _deadline_based_prediction context wc = (Ok p4, wd)
    /\ _rank_by_importance (_combine_predictions [p1; p2; p3; p4]) context wd
       = (Ok ranked, w2)
    /\ auto_create_loop user_id (firstn 3 ranked) [] w2 = (Ok created, w3)
    /\ _cache_predictions user_id ranked w3 = (Ok tt, w')
    /\ PredictionRun.auto_created_tasks run = created
    /\ PredictionRun.suggested_tasks run = firstn 10 ranked
    /\ PredictionSummary.total_predictions (PredictionRun.prediction_summary run)
       = length ranked.
Proof.
  unfold generate_predictive_tasks. rewrite catch_reraise. intros H.
  destruct (_gather_prediction_context user_id w) as [[context|e] w1] eqn:Eg.
  2:{ rewrite (bind_raised _ _ _ _ _ Eg) in H. discriminate H. }
  rewrite (bind_ok _ _ _ _ _ Eg) in H.
  destruct (_pattern_based_prediction_total context w1) as (p1 & wa & E1).
  rewrite (bind_ok _ _ _ _ _ E1) in H.
  destruct (_calendar_based_prediction_total context wa) as (p2 & wb & E2).
  rewrite (bind_ok _ _ _ _ _ E2) in H.
  destruct (_goal_based_prediction_total context wb) as (p3 & wc & E3).
  rewrite (bind_ok _ _ _ _ _ E3) in H.
  destruct (_deadline_based_prediction_total context wc) as (p4 & wd & E4).
  rewrite (bind_ok _ _ _ _ _ E4) in H.
  destruct (_rank_by_importance_total (_combine_predictions [p1; p2; p3; p4]) context wd)
    as (ranked & w2 & Er).
  rewrite (bind_ok _ _ _ _ _ Er) in H.
  destruct (auto_create_loop user_id (firstn 3 ranked) [] w2) as [[created|e] w3] eqn:El.
  2:{ rewrite (bind_raised _ _ _ _ _ El) in H. discriminate H. }
  rewrite (bind_ok _ _ _ _ _ El) in H.
  destruct (_cache_predictions_total user_id ranked w3) as (w4 & Ec).
  rewrite (bind_ok _ _ _ _ _ Ec) in H. unfold ret in H. injection H as <- <-.
  exists context, w1, p1, wa, p2, wb, p3, wc, p4, wd, ranked, w2, created, w3.
  repeat split; assumption.
Qed.

(** X14.  The suggested tasks of a run that returns are the first ten of
    the ranked list (all of it when it is shorter): they have distinct
    titles up to case and surrounding blanks, each carries an importance
    score of at most 1, and they are listed by descending score. *)
Theorem suggested_tasks_of_a_run (user_id : string) (w w' : World) (run : PredictionRun.t) :
  generate_predictive_tasks user_id w = (Ok run, w') ->
  length (PredictionRun.suggested_tasks run)
  = Nat.min 10 (PredictionSummary.total_predictions (PredictionRun.prediction_summary run))
  /\ List.NoDup (map title_key (PredictionRun.suggested_tasks run))
  /\ Forall scored (PredictionRun.suggested_tasks run)
  /\ descending importance_key (PredictionRun.suggested_tasks run).
Proof.
  intros H. apply generate_predictive_tasks_trace in H
    as (context & w1 & p1 & wa & p2 & wb & p3 & wc & p4 & wd & ranked & w2 & created & w3
        & _ & _ & _ & _ & _ & Er & _ & _ & _ & -> & ->).
  apply _rank_by_importance_spec in Er as (scored_predictions & HF & ->).
  apply scored_from_keys in HF as [Hkeys Hscored].
  split; [apply length_firstn|]. split; [|split].
  - rewrite <- firstn_map. apply NoDup_firstn.
    eapply Permutation_NoDup; [apply Permutation_map, sort_desc_perm|].
    rewrite Hkeys, _combine_predictions_first_occurrences.
    apply first_occurrences_distinct.
  - apply List.Forall_forall. intros pred Hin.
    assert (Hin' : In pred (sort_desc importance_key scored_predictions)).
    { rewrite <- (firstn_skipn 10 (sort_desc importance_key scored_predictions)).
      apply in_or_app. now left. }
    apply (sort_desc_Forall importance_key scored) in Hscored.
    eapply List.Forall_forall in Hscored; eassumption.
  - apply descending_firstn, sort_desc_sorted.
Qed.

(** Witness of the theorem above: a run for a user without history. *)
Lemma suggested_tasks_of_a_run_witness :
  exists run,
    fst (generate_predictive_tasks "1" (world_with [] [])) = Ok run
    /\ List.NoDup (map title_key (PredictionRun.suggested_tasks run)).
Proof.
  destruct (generate_predictive_tasks "1" (world_with [] [])) as [[run|e] w'] eqn:E.
  - exists run. split; [reflexivity|].
    exact (proj1 (proj2 (suggested_tasks_of_a_run _ _ _ _ E))).
  - exfalso.
    assert (Hok : is_ok (fst (generate_predictive_tasks "1" (world_with [] []))) = true)
      by (vm_compute; reflexivity).
    rewrite E in Hok. discriminate Hok.
Defined.

End RankedPredictions.

(** ** The tasks that a run creates *)

Section CreatedTasks.
Import PredictiveTaskService.

Lemma _auto_create_task_creates (user_id : string) (prediction : Prediction.t)
    (w w' : World) (task : CreatedTask.t) :
  _auto_create_task user_id prediction w = (Ok task, w') ->
  exists row,
    inserted_tasks w' = inserted_tasks w ++ [row]
    /\ created_from prediction task
    /\ row_for prediction task row.
Proof.
  unfold _auto_create_task. rewrite catch_reraise.
  unfold bind, get_db, lift, datetime_now, db_add_commit_refresh, ret.
  intros H. destruct (db_faults w) as [|[|] f]; try discriminate;
    (destruct (int_of_str user_id) as [user|e]; [|discriminate]);
    injection H as <- <-; eexists; repeat split.
Qed.

(** The loop creates, in order, a task for each confident prediction. *)
Lemma auto_create_loop_creates (user_id : string) (tasks : list Prediction.t) :
  forall (auto_created : list CreatedTask.t) (w w' : World) (out : list CreatedTask.t),
    auto_create_loop user_id tasks auto_created w = (Ok out, w') ->
    exists created rows,
      out = auto_created ++ created
      /\ inserted_tasks w' = inserted_tasks w ++ rows
      /\ Forall2 created_from (List.filter confident tasks) created
      /\ Forall2 (fun pc row => row_for (fst pc) (snd pc) row)
           (List.combine (List.filter confident tasks) created) rows.
Proof.
  induction tasks as [|task later IH]; intros acc w w' out H; simpl in H.
  - injection H as <- <-. exists [], []. rewrite !app_nil_r. repeat split; constructor.
  - cbn [List.filter]. fold (confident task) in H. destruct (confident task).
    + unfold bind in H.
      destruct (_auto_create_task user_id task w) as [[c|e] w1] eqn:Ec; [|discriminate].
      apply _auto_create_task_creates in Ec as (row & Hrow & Hc & Hr).
      apply IH in H as (created & rows & -> & Hrows & HF & HR).
      exists (c :: created), (row :: rows).
      split; [now rewrite <- app_assoc|].
      split; [now rewrite Hrows, Hrow, <- app_assoc|].
      split; [now constructor|]. simpl. now constructor.
    + now apply IH.
Qed.

(** X15.  The tasks that a run creates automatically are exactly the
    predictions among its first three suggested tasks whose confidence is
    above 0.85, in order; they stay listed among the suggested tasks.  For
    each of them the run commits one row, and none besides: the row has the
    key and the description of the created task and the title and the due
    date of the prediction, is pending, and is planned with
    max(1, duration // 25) pomodoros. *)
Theorem auto_created_are_the_confident_top_three (user_id : string) (w w' : World)
    (run : PredictionRun.t) :
  generate_predictive_tasks user_id w = (Ok run, w') ->
  let selected := List.filter confident (firstn 3 (PredictionRun.suggested_tasks run)) in
  Forall2 created_from selected (PredictionRun.auto_created_tasks run)
  /\ exists rows,
       inserted_tasks w' = inserted_tasks w ++ rows
       /\ Forall2 (fun pc row => row_for (fst pc) (snd pc) row)
            (List.combine selected (PredictionRun.auto_created_tasks run)) rows.
Proof.
  intros H. apply generate_predictive_tasks_trace in H
    as (context & w1 & p1 & wa & p2 & wb & p3 & wc & p4 & wd & ranked & w2 & created & w3
        & Eg & E1 & E2 & E3 & E4 & Er & El & Ec & -> & -> & _).
  cbv zeta. rewrite firstn_firstn. change (Nat.min 3 10) with 3.
  apply auto_create_loop_creates in El as (created' & rows & Hc & Hrows & HF & HR).
  simpl in Hc. subst created'.
  split; [exact HF|]. exists rows. split; [|exact HR].
  rewrite (preserves_run _ _ _ _ (_cache_predictions_quiet _ _) Ec), Hrows.
  rewrite (preserves_run _ _ _ _ (_rank_by_importance_quiet _ _) Er).
  rewrite (preserves_run _ _ _ _ (_deadline_based_prediction_quiet _) E4).
  rewrite (preserves_run _ _ _ _ (_goal_based_prediction_quiet _) E3).
  rewrite (preserves_run _ _ _ _ (_calendar_based_prediction_quiet _) E2).
  rewrite (preserves_run _ _ _ _ (_pattern_based_prediction_quiet _) E1).
  now rewrite (preserves_run _ _ _ _ (_gather_prediction_context_quiet _) Eg).
Qed.

(** Witness of the theorem above: a run for a user without history. *)
Lemma auto_created_are_the_confident_top_three_witness :
  exists run,
    fst (generate_predictive_tasks "1" (world_with [] [])) = Ok run
    /\ Forall2 created_from
         (List.filter confident (firstn 3 (PredictionRun.suggested_tasks run)))
         (PredictionRun.auto_created_tasks run).
Proof.
  destruct (generate_predictive_tasks "1" (world_with [] [])) as [[run|e] w'] eqn:E.
  - exists run. split; [reflexivity|].
    exact (proj1 (auto_created_are_the_confident_top_three _ _ _ _ E)).
  - exfalso.
    assert (Hok : is_ok (fst (generate_predictive_tasks "1" (world_with [] []))) = true)
      by (vm_compute; reflexivity).
    rewrite E in Hok. discriminate Hok.
Defined.

End CreatedTasks.

(** ** The cache of predictions *)

Section PredictionCache.
Import PredictiveTaskService.

Lemma append_injective (prefix a b : string) :
  (prefix ++ a)%string = (prefix ++ b)%string -> a = b.
Proof.
  induction prefix as [|c prefix IH]; simpl; intros H; [exact H|].
  injection H as H. now apply IH.
Qed.

Lemma get_cached_predictions_total (user_id : string) (w : World) :
  exists v w', get_cached_predictions user_id w = (Ok v, w').
Proof.
  unfold get_cached_predictions, bind, gets.
  destruct (redis w) as [store|]; [|unfold ret; eauto].
  apply (catch_total _ (fun _ => CachedPredictions [])).
Qed.

(** X16.  With a cache client whose operations succeed,
    [_cache_predictions] stores the list under the key of the user with a
    time to live of 3600 seconds, and a following [get_cached_predictions]
    of that user returns the list (as its JSON image), while the cached
    predictions of every other user stay what they were.  Without a cache
    client, or when the read fails, [get_cached_predictions] returns the
    empty list; it never raises. *)
Theorem cached_predictions_round_trip :
  (forall (user_id : string) (predictions : list Prediction.t) (w : World),
      healthy_cache w ->
      exists w1 store1,
        _cache_predictions user_id predictions w = (Ok tt, w1)
        /\ redis w1 = Some store1
        /\ store1 !! ("predictions:" ++ user_id)%string
           = Some (3600%Z, CachedPredictions predictions)
        /\ fst (get_cached_predictions user_id w1) = Ok (CachedPredictions predictions)
        /\ (forall other, other <> user_id ->
                          fst (get_cached_predictions other w1)
                          = fst (get_cached_predictions other w)))
  /\ (forall (user_id : string) (w : World),
         redis w = None -> fst (get_cached_predictions user_id w) = Ok (CachedPredictions []))
  /\ (forall (user_id : string) (w : World) (f : list bool),
         redis_faults w = true :: f ->
         fst (get_cached_predictions user_id w) = Ok (CachedPredictions []))
  /\ (forall (user_id : string) (w : World),
         is_ok (fst (get_cached_predictions user_id w)) = true).
Proof.
  split; [|split; [|split]].
  - intros user_id predictions w [Hclient Hfaults].
    destruct (redis w) as [store|] eqn:Er; [clear Hclient|congruence].
    unfold _cache_predictions, bind, gets, catch, redis_setex. rewrite Er, Hfaults.
    do 2 eexists. split; [reflexivity|]. cbn [redis with_redis].
    split; [reflexivity|]. split; [apply lookup_insert_eq|]. split.
    + unfold get_cached_predictions, bind, gets, catch, redis_get, ret.
      cbn [redis redis_faults with_redis]. rewrite lookup_insert_eq. reflexivity.
    + intros other Hother.
      unfold get_cached_predictions, bind, gets, catch, redis_get, ret.
      cbn [redis redis_faults with_redis]. rewrite Er, Hfaults.
      rewrite lookup_insert_ne.
      2:{ intros Hk. apply append_injective in Hk. congruence. }
      destruct (snd <$> store !! ("predictions:" ++ other)%string); reflexivity.
  - intros user_id w Hr. unfold get_cached_predictions, bind, gets. now rewrite Hr.
  - intros user_id w f Hf. unfold get_cached_predictions, bind, gets, catch, redis_get, ret.
    destruct (redis w); [|reflexivity]. now rewrite Hf.
  - intros user_id w. destruct (get_cached_predictions_total user_id w) as (v & w' & E).
    now rewrite E.
Qed.

(** Witness of the theorem above: two predictions cached for user 1 in an
    empty cache. *)
Lemma cached_predictions_round_trip_witness :
  exists w1,
    _cache_predictions "1" [prediction_of "Follow up on Client presentation" (Some 20%Z) 0.9]
      (world_with [] [])
    = (Ok tt, w1)
    /\ fst (get_cached_predictions "1" w1)
       = Ok (CachedPredictions
               [prediction_of "Follow up on Client presentation" (Some 20%Z) 0.9])
    /\ fst (get_cached_predictions "2" w1) = Ok (CachedPredictions []).
Proof.
  destruct (proj1 cached_predictions_round_trip "1"
              [prediction_of "Follow up on Client presentation" (Some 20%Z) 0.9]
              (world_with [] []))
    as (w1 & store1 & E & _ & _ & Hget & Hother).
  - split; [discriminate|reflexivity].
  - exists w1. split; [exact E|]. split; [exact Hget|].
    rewrite Hother by discriminate. reflexivity.
Defined.

End PredictionCache.

(** ** What leaves the cache alone *)

Section CacheUntouched.

Lemma keeps_cache_ret {A} (a : A) : keeps_cache (ret a).
Proof. intros w. split; reflexivity. Qed.

Lemma keeps_cache_raise {A} (e : string) : keeps_cache (@raise A e).
Proof. intros w. split; reflexivity. Qed.

Lemma keeps_cache_lift {A} (o : Outcome A) : keeps_cache (lift o).
Proof. intros w. split; reflexivity. Qed.

Lemma keeps_cache_gets {A} (f : World -> A) : keeps_cache (gets f).
Proof. intros w. split; reflexivity. Qed.

Lemma keeps_cache_datetime_now : keeps_cache datetime_now.
Proof. intros w. split; reflexivity. Qed.

Lemma keeps_cache_get_db : keeps_cache get_db.
Proof. intros w. unfold get_db. destruct (db_faults w) as [|[|] f]; split; reflexivity. Qed.

Lemma keeps_cache_db_add_commit_refresh (mk : Z -> Task.t) :
  keeps_cache (db_add_commit_refresh mk).
Proof. intros w. split; reflexivity. Qed.

Lemma keeps_cache_bind {A B} (m : M A) (k : A -> M B) :
  keeps_cache m -> (forall a, keeps_cache (k a)) -> keeps_cache (bind m k).
Proof.
  intros Hm Hk w. unfold bind. specialize (Hm w).
  destruct (m w) as [[a|e] w1]; simpl in *; [|exact Hm].
  destruct (Hk a w1) as [H1 H2]. destruct Hm as [H3 H4]. split; congruence.
Qed.

Lemma keeps_cache_catch {A} (m : M A) (h : string -> M A) :
  keeps_cache m -> (forall e, keeps_cache (h e)) -> keeps_cache (catch m h).
Proof.
  intros Hm Hh w. unfold catch. specialize (Hm w).
  destruct (m w) as [[a|e] w1]; simpl in *; [exact Hm|].
  destruct (Hh e w1) as [H1 H2]. destruct Hm as [H3 H4]. split; congruence.
Qed.

Lemma keeps_cache_mapM {A B} (f : A -> M B) (l : list A) :
  (forall x, keeps_cache (f x)) -> keeps_cache (mapM f l).
Proof.
  intros Hf. induction l as [|x r IH]; simpl; [apply keeps_cache_ret|].
  apply keeps_cache_bind; [apply Hf|]. intros y.
  apply keeps_cache_bind; [exact IH|]. intros ys. apply keeps_cache_ret.
Qed.

Lemma keeps_cache_run {A} (m : M A) (w w' : World) (a : Outcome A) :
  keeps_cache m -> m w = (a, w') -> redis w' = redis w /\ redis_faults w' = redis_faults w.
Proof. intros H E. specialize (H w). now rewrite E in H. Qed.

End CacheUntouched.

(** Proves that a computation built from the operations above leaves the
    cache as it is. *)
Ltac untouched :=
  repeat first
    [ apply keeps_cache_ret | apply keeps_cache_raise | apply keeps_cache_lift
    | apply keeps_cache_gets | apply keeps_cache_datetime_now | apply keeps_cache_get_db
    | apply keeps_cache_db_add_commit_refresh
    | apply keeps_cache_bind; [|intros ?]
    | apply keeps_cache_catch; [|intros ?]
    | apply keeps_cache_mapM; intros ?
    | progress case_match ].

(** ** A run and the cache *)

Section RunAndCache.
Import AutoSchedulingService PredictiveTaskService.

Lemma auto_create_loop_untouched (user_id : string) (tasks : list Prediction.t) :
  forall auto_created, keeps_cache (auto_create_loop user_id tasks auto_created).
Proof.
  induction tasks as [|task later IH]; intros acc; simpl; [apply keeps_cache_ret|].
  destruct (Qlt_bool 0.85 (Prediction.confidence task)); [|apply IH].
  apply keeps_cache_bind; [unfold _auto_create_task; untouched|intros c; apply IH].
Qed.

Lemma _gather_prediction_context_untouched (user_id : string) :
  keeps_cache (_gather_prediction_context user_id).
Proof.
  unfold _gather_prediction_context, _get_productivity_trends, _get_calendar_events,
    _get_active_projects, _get_current_goals, _get_upcoming_deadlines. untouched.
Qed.

Lemma _pattern_based_prediction_untouched (context : PredictionContext.t) :
  keeps_cache (_pattern_based_prediction context).
Proof. unfold _pattern_based_prediction. untouched. Qed.

Lemma _calendar_based_prediction_untouched (context : PredictionContext.t) :
  keeps_cache (_calendar_based_prediction context).
Proof. unfold _calendar_based_prediction. untouched. Qed.

Lemma _goal_based_prediction_untouched (context : PredictionContext.t) :
  keeps_cache (_goal_based_prediction context).
Proof. unfold _goal_based_prediction. untouched. Qed.

Lemma _deadline_based_prediction_untouched (context : PredictionContext.t) :
  keeps_cache (_deadline_based_prediction context).
Proof. unfold _deadline_based_prediction. untouched. Qed.

Lemma _rank_by_importance_untouched (predictions : list Prediction.t)
    (context : PredictionContext.t) :
  keeps_cache (_rank_by_importance predictions context).
Proof. unfold _rank_by_importance, score_prediction. untouched. Qed.

Lemma before_the_cache_write (user_id : string) (w w' : World) (run : PredictionRun.t) :
  generate_predictive_tasks user_id w = (Ok run, w') ->
  exists ranked w3,
    redis w3 = redis w /\ redis_faults w3 = redis_faults w
    /\ _cache_predictions user_id ranked w3 = (Ok tt, w')
    /\ PredictionRun.suggested_tasks run = firstn 10 ranked
    /\ PredictionSummary.total_predictions (PredictionRun.prediction_summary run)
       = length ranked.
Proof.
  intros H. apply generate_predictive_tasks_trace in H
    as (context & w1 & p1 & wa & p2 & wb & p3 & wc & p4 & wd & ranked & w2 & created & w3
        & Eg & E1 & E2 & E3 & E4 & Er & El & Ec & _ & Hs & Ht).
  exists ranked, w3.
  apply (keeps_cache_run _ _ _ _ (auto_create_loop_untouched _ _ _)) in El as [-> ->].
  apply (keeps_cache_run _ _ _ _ (_rank_by_importance_untouched _ _)) in Er as [-> ->].
  apply (keeps_cache_run _ _ _ _ (_deadline_based_prediction_untouched _)) in E4 as [-> ->].
  apply (keeps_cache_run _ _ _ _ (_goal_based_prediction_untouched _)) in E3 as [-> ->].
  apply (keeps_cache_run _ _ _ _ (_calendar_based_prediction_untouched _)) in E2 as [-> ->].
  apply (keeps_cache_run _ _ _ _ (_pattern_based_prediction_untouched _)) in E1 as [-> ->].
  apply (keeps_cache_run _ _ _ _ (_gather_prediction_context_untouched _)) in Eg as [-> ->].
  auto.
Qed.

(** X17.  After a run that returns, with a cache client whose operations
    succeed, [get_cached_predictions] returns the whole ranked list of the
    run, not only the ten suggested tasks that the run returned: the
    suggested tasks are its first ten entries and its length is the total
    of the prediction summary. *)
Theorem run_caches_every_ranked_prediction (user_id : string) (w w' : World)
    (run : PredictionRun.t) :
  generate_predictive_tasks user_id w = (Ok run, w') ->
  healthy_cache w ->
  exists ranked,
    fst (get_cached_predictions user_id w') = Ok (CachedPredictions ranked)
    /\ PredictionRun.suggested_tasks run = firstn 10 ranked
    /\ PredictionSummary.total_predictions (PredictionRun.prediction_summary run)
       = length ranked.
Proof.
  intros H [Hclient Hfaults].
  apply before_the_cache_write in H as (ranked & w3 & Hr & Hf & Ec & Hs & Ht).
  exists ranked. split; [|auto].
  rewrite <- Hr in Hclient. rewrite <- Hf in Hfaults.
  destruct (redis w3) as [store|] eqn:Er; [clear Hclient|congruence].
  unfold _cache_predictions, bind, gets, catch, redis_setex in Ec.
  rewrite Er, Hfaults in Ec. injection Ec as <-.
  unfold get_cached_predictions, bind, gets, catch, redis_get, ret.
  cbn [redis redis_faults with_redis]. rewrite lookup_insert_eq. reflexivity.
Qed.

(** Witness of the theorem above: a run for a user without history. *)
Lemma run_caches_every_ranked_prediction_witness :
  exists run w' ranked,
    generate_predictive_tasks "1" (world_with [] []) = (Ok run, w')
    /\ fst (get_cached_predictions "1" w') = Ok (CachedPredictions ranked)
    /\ PredictionRun.suggested_tasks run = firstn 10 ranked.
Proof.
  destruct (generate_predictive_tasks "1" (world_with [] [])) as [[run|e] w'] eqn:E.
  - destruct (run_caches_every_ranked_prediction _ _ _ _ E) as (ranked & Hg & Hs & _).
    + split; [discriminate|reflexivity].
    + exists run, w', ranked. auto.
  - exfalso.
    assert (Hok : is_ok (fst (generate_predictive_tasks "1" (world_with [] []))) = true)
      by (vm_compute; reflexivity).
    rewrite E in Hok. discriminate Hok.
Defined.

End RunAndCache.

(** ** The two services and the cache *)

Section TwoServices.
Import AutoSchedulingService PredictiveTaskService.

Lemma _get_productivity_patterns_untouched (user_id : string) :
  keeps_cache (_get_productivity_patterns user_id).
Proof. unfold _get_productivity_patterns. untouched. Qed.

Lemma _get_current_schedule_untouched (user_id : string) (date_range : datetime * datetime) :
  keeps_cache (_get_current_schedule user_id date_range).
Proof. unfold _get_current_schedule. untouched. Qed.

Lemma _identify_optimization_opportunities_untouched (schedule : list ScheduleBlock.t)
    (patterns : ProductivityPattern.t) :
  keeps_cache (_identify_optimization_opportunities schedule patterns).
Proof.
  unfold _identify_optimization_opportunities, _identify_focus_block_opportunities.
  untouched.
Qed.

Lemma _execute_optimization_untouched (user_id : string) (o : ScheduleOptimization.t) :
  keeps_cache (_execute_optimization service user_id o).
Proof.
  unfold _execute_optimization, dispatch, service, _reschedule_meeting, _create_focus_block,
    _reschedule_task, _consolidate_meetings.
  cbn [self_reschedule_meeting self_create_focus_block self_reschedule_task
         self_consolidate_meetings].
  untouched.
Qed.

Lemma execution_loop_untouched (user_id : string) (ranked : list ScheduleOptimization.t) :
  forall acc n, keeps_cache (execution_loop service user_id ranked acc n).
Proof.
  induction ranked as [|o later IH]; intros acc n; simpl; [apply keeps_cache_ret|].
  destruct (gate o n); [|apply IH].
  apply keeps_cache_bind; [apply _execute_optimization_untouched|intros r; apply IH].
Qed.

(** X18.  The two services share the cache without disturbing each other:
    with a cache client whose operations succeed, a run of
    [optimize_schedule] for any user leaves what [get_cached_predictions]
    returns, for every user, as it was. *)
Theorem scheduling_run_keeps_cached_predictions (user_id : string)
    (date_range : datetime * datetime) (w : World) (reader : string) :
  healthy_cache w ->
  fst (get_cached_predictions reader (snd (optimize_schedule service user_id date_range w)))
  = fst (get_cached_predictions reader w).
Proof.
  intros [Hclient Hfaults].
  destruct (optimize_schedule_trace service user_id date_range w)
    as (patterns & w1 & schedule & w2 & ranked & w3 & results & w4
        & Ep & Es & Er & El & _ & Hrun).
  assert (H4 : redis w4 = redis w /\ redis_faults w4 = redis_faults w).
  { apply (keeps_cache_run _ _ _ _ (execution_loop_untouched _ _ _ _)) in El as [-> ->].
    apply (keeps_cache_run _ _ _ _ (_identify_optimization_opportunities_untouched _ _))
      in Er as [-> ->].
    apply (keeps_cache_run _ _ _ _ (_get_current_schedule_untouched _ _)) in Es as [-> ->].
    apply (keeps_cache_run _ _ _ _ (_get_productivity_patterns_untouched _)) in Ep
      as [-> ->].
    auto. }
  destruct H4 as [Hr4 Hf4].
  destruct (redis w) as [store|] eqn:Er0; [clear Hclient|congruence].
  destruct Hrun as [(e & _ & ->)|(summary & w5 & _ & Ec & ->)]; cbn [snd].
  - unfold get_cached_predictions, bind, gets. rewrite Hr4, Er0.
    unfold catch, redis_get, ret. rewrite Hf4, Hfaults.
    destruct (snd <$> store !! ("predictions:" ++ reader)%string); reflexivity.
  - unfold _cache_optimization_results, bind, gets, catch, redis_setex in Ec.
    rewrite Hr4, Hf4, Hfaults in Ec. injection Ec as <-.
    unfold get_cached_predictions, bind, gets, catch, redis_get, ret.
    cbn [redis redis_faults with_redis]. rewrite Er0, Hfaults.
    rewrite lookup_insert_ne by discriminate.
    destruct (snd <$> store !! ("predictions:" ++ reader)%string); reflexivity.
Qed.

(** Witness of the theorem above: a scheduling run in a world whose cache
    is empty. *)
Lemma scheduling_run_keeps_cached_predictions_witness :
  fst (get_cached_predictions "1" (snd (optimize_schedule service "1" monday
                                          (world_with [] []))))
  = Ok (CachedPredictions []).
Proof.
  rewrite (scheduling_run_keeps_cached_predictions "1" monday (world_with [] []) "1").
  - reflexivity.
  - split; [discriminate|reflexivity].
Defined.

End TwoServices.

(** ** The context of a prediction run *)

Section PredictionContextFacts.
Import PredictiveTaskService.





End PredictionContextFacts.

(** ** Follow-ups of old tasks *)

Section FollowUps.
Import PredictiveTaskService.

Lemma filter_both {A : Type} (f g : A -> bool) (l : list A) :
  List.filter (fun x => f x && g x) l = List.filter g (List.filter f l).
Proof.
  induction l as [|x r IH]; [reflexivity|]. simpl.
  destruct (f x); simpl; [destruct (g x); now rewrite IH|exact IH].
Qed.

(** X20.  The pattern-based generator follows up exactly the recent tasks
    that are not completed and were created more than three whole days
    before the reading of the clock: its list ends with one prediction for
    each of them, in order, lasting 25 minutes for each estimated pomodoro,
    with a confidence of 0.6.  If one of these tasks has no estimate, the
    generator returns the empty list: the predictions from the weekly and
    hourly patterns and from the milestones are lost with the follow-ups. *)
Theorem follow_ups_of_stale_tasks (context : PredictionContext.t) (w : World) :
  let now := clock w (clock_reads w) in
  let stale_tasks := List.filter (stale now) (PredictionContext.recent_tasks context) in
  (forall task, In task stale_tasks -> TaskDict.estimated_pomodoros task = None ->
                fst (_pattern_based_prediction context w) = Ok [])
  /\ (Forall (fun task => TaskDict.estimated_pomodoros task <> None) stale_tasks ->
      exists others follow_ups,
        fst (_pattern_based_prediction context w) = Ok (others ++ follow_ups)
        /\ Forall2 follows_up stale_tasks follow_ups).
Proof.
  intros now stale_tasks.
  assert (Hshape : exists follow_up others,
             (forall task,
                 follow_up task
                 = if (3 <? days_between now (TaskDict.created_at task))%Z then
                     match TaskDict.estimated_pomodoros task with
                     | Some pomodoros =>
                         Ok [ predicted ("Follow up: " ++ TaskDict.title task)
                                "Old incomplete task that might need attention"
                                (pomodoros * 25) 0.6 PATTERN_BASED None None
                                ("Task has been incomplete for "
                                   ++ pretty (days_between now (TaskDict.created_at task))
                                   ++ " days") ]
                     | None => Raised "unsupported operand type(s) for *: 'NoneType' and 'int'"
                     end
                   else Ok [])
             /\ fst (_pattern_based_prediction context w)
                = match omap follow_up
                          (List.filter
                             (fun t => negb (bool_decide (TaskDict.status t
                                                          = Some "completed")))
                             (PredictionContext.recent_tasks context)) with
                  | Ok ll => Ok (others ++ concat ll)
                  | Raised _ => Ok []
                  end).
  { do 2 eexists. split; [intros task; reflexivity|].
    unfold _pattern_based_prediction, bind, datetime_now, catch, lift, ret.
    cbv beta iota. fold now.
    match goal with |- context [omap ?g ?l] => destruct (omap g l) as [ll|e] end;
      [|reflexivity].
    cbn [fst]. rewrite !app_assoc. reflexivity. }
  destruct Hshape as (follow_up & others & Hfollow & ->).
  unfold stale_tasks, stale. rewrite filter_both.
  set (incomplete_tasks :=
         List.filter (fun t => negb (bool_decide (TaskDict.status t = Some "completed")))
           (PredictionContext.recent_tasks context)).
  clearbody incomplete_tasks.
  split.
  - intros task Hin Hnone.
    assert (Hraise : is_ok (omap follow_up incomplete_tasks) = false).
    { apply filter_In in Hin as [Hin Hold].
      apply (omap_raises _ _ task Hin). now rewrite Hfollow, Hold, Hnone. }
    destruct (omap follow_up incomplete_tasks); [discriminate Hraise|reflexivity].
  - intros Hall.
    assert (Hfu : exists ll,
               omap follow_up incomplete_tasks = Ok ll
               /\ Forall2 follows_up
                    (List.filter (fun x => (3 <? days_between now (TaskDict.created_at x))%Z)
                       incomplete_tasks)
                    (concat ll)).
    { induction incomplete_tasks as [|task later IH]; [exists []; split; constructor|].
      cbn [List.filter] in Hall. cbn [omap List.filter]. rewrite Hfollow.
      destruct (3 <? days_between now (TaskDict.created_at task))%Z.
      - apply Forall_cons in Hall as [Hest Hall].
        destruct (IH Hall) as (ll & -> & HF).
        destruct (TaskDict.estimated_pomodoros task) as [pomodoros|] eqn:Ep; [|congruence].
        eexists. split; [reflexivity|]. simpl. constructor; [|exact HF].
        repeat split. exists pomodoros. split; [exact Ep|reflexivity].
      - destruct (IH Hall) as (ll & -> & HF). eexists. split; [reflexivity|exact HF]. }
    destruct Hfu as (ll & -> & HF). exists others, (concat ll). split; [reflexivity|exact HF].
Qed.

(** Witness of the theorem above: on day 738107, a task created on day
    738100 without an estimate, and one with two pomodoros. *)
Lemma follow_ups_of_stale_tasks_witness :
  fst (_pattern_based_prediction (context_of [old_task "Imported" None] [] [] [])
         (world_with [] [])) = Ok []
  /\ exists others follow_up,
       fst (_pattern_based_prediction
              (context_of [old_task "Write report" (Some 2%Z)] [] [] [])
              (world_with [] [])) = Ok (others ++ [follow_up])
       /\ PredictedTask.estimated_duration follow_up = 50%Z.
Proof.
  split.
  - apply (proj1 (follow_ups_of_stale_tasks (context_of [old_task "Imported" None] [] [] [])
                    (world_with [] [])) (old_task "Imported" None));
      [now left|reflexivity].
  - destruct (proj2 (follow_ups_of_stale_tasks
                       (context_of [old_task "Write report" (Some 2%Z)] [] [] [])
                       (world_with [] [])))
      as (others & follow_ups & E & HF).
    + constructor; [discriminate|constructor].
    + change (List.filter _ _) with [old_task "Write report" (Some 2%Z)] in HF.
      apply Forall2_cons_inv_l in HF as (p & rest & Hp & Hrest & ->).
      apply Forall2_nil_inv_l in Hrest as ->.
      exists others, p. split; [exact E|].
      destruct Hp as (_ & _ & _ & _ & _ & pomodoros & Hest & ->).
      injection Hest as <-. reflexivity.
Defined.

End FollowUps.

(** ** Predictions from deadlines *)

Section DeadlinePredictions.
Import PredictiveTaskService.



End DeadlinePredictions.

(** ** Predictions from goals *)

Section GoalPredictions.
Import PredictiveTaskService.


End GoalPredictions.

(** ** Predictions from the calendar *)

Section CalendarPredictions.
Import PredictiveTaskService.



End CalendarPredictions.

(** ** The summary of a prediction run *)

Section PredictionSummaryFacts.
Import PredictiveTaskService.





End PredictionSummaryFacts.

(** ** Focus windows of a computed pattern *)

Section ComputedWindows.
Import AutoSchedulingService.





End ComputedWindows.

(** ** A scheduling run, computed *)

Section SchedulingRunWitness.
Import AutoSchedulingService.


End SchedulingRunWitness.
